(** * Times Table Worksheet Generator: a shallow embedding of [app.js]

    The repository's [app.js] comes in two revisions.  The current one
    (two-page PDF, [updatePresentationColumns]) is embedded at top level;
    the places where the older revision differs are embedded in the
    module [Legacy].

    JavaScript numbers are modelled as exact rationals ([Q]); integers
    that the code only ever uses as integers (counts, indices, table
    numbers) are [Z].  [Math.random] is a stream of draws threaded through
    the generator; [Math.pow], the jsPDF text measurement and the viewport
    height are parameters.  The rationals are exact where the doubles
    of the code are rounded; the theorems about a branch that rounding
    can turn are stated away from its edge (a random draw in the middle
    half of its bucket, rows that fill a page of at least 297.00008 mm).

    The handlers that read the form and write the document (validation,
    the two buttons, the presentation overlay with its listeners and
    timers) are functions on a record of the page's state, in the module
    [Dom]; the checkbox grid and its presets are functions on the list
    of checkboxes. *)

From Stdlib Require Import ZArith QArith Qround Qminmax Lqa Lia.
From Stdlib Require Import List Bool String Ascii DecimalString DecimalPos.
From coqutil Require Import Datatypes.RecordSetters.
Import ListNotations.
Import DoubleBraceUpdate.

Local Open Scope Z_scope.

(* ================================================================== *)
(** ** JavaScript primitives *)

(** [Math.floor], [Math.ceil], [Math.round] (ties go up), [Math.min],
    [Math.max] on numbers. *)
Definition Math_floor (x : Q) : Z := Qfloor x.
Definition Math_ceil (x : Q) : Z := Qceiling x.
Definition Math_round (x : Q) : Z := Qfloor (x + (1 # 2)).
Definition Math_min (x y : Q) : Q := Qmin x y.
Definition Math_max (x y : Q) : Q := Qmax x y.

(** [x < y] and [x > y] on numbers. *)
Definition Qltb (x y : Q) : bool := negb (Qle_bool y x).
Definition Qgtb (x y : Q) : bool := Qltb y x.

(** [String(n)] for an integer [n]: its decimal numeral. *)
Definition String_of_int (n : Z) : string := NilEmpty.string_of_int (Z.to_int n).

(** [array[i]]: [None] stands for [undefined], the value JavaScript
    yields when [i] is not an index of the array. *)
Definition array_get {A : Type} (array : list A) (i : Z) : option A :=
  if i <? 0 then None else nth_error array (Z.to_nat i).

(** Strings.  [str_indexOf pat s] is the offset of the first occurrence
    of [pat] in [s]; [str_replace pat rep s] is [s.replace(pat, rep)] for
    a string pattern (only the first occurrence is replaced). *)
Fixpoint str_drop (n : nat) (s : string) : string :=
  match n, s with
  | O, _ => s
  | S k, EmptyString => EmptyString
  | S k, String _ t => str_drop k t
  end.

Fixpoint str_take (n : nat) (s : string) : string :=
  match n, s with
  | O, _ => EmptyString
  | S k, EmptyString => EmptyString
  | S k, String c t => String c (str_take k t)
  end.

Fixpoint str_indexOf (pat s : string) : option nat :=
  if prefix pat s then Some O
  else match s with
       | EmptyString => None
       | String _ t => option_map S (str_indexOf pat t)
       end.

Fixpoint str_lastIndexOf (pat s : string) : option nat :=
  match s with
  | EmptyString => if prefix pat s then Some O else None
  | String _ t =>
      match str_lastIndexOf pat t with
      | Some k => Some (S k)
      | None => if prefix pat s then Some O else None
      end
  end.

Definition str_includes (pat s : string) : bool :=
  match str_indexOf pat s with Some _ => true | None => false end.

Definition str_replace (pat rep s : string) : string :=
  match str_indexOf pat s with
  | Some k => str_take k s ++ rep ++ str_drop (k + String.length pat) s
  | None => s
  end.

(* ================================================================== *)
(** ** The randomness source

    [Math.random()] returns the next draw of a stream; a computation that
    draws is a function from the stream to a result and the rest of the
    stream. *)

Definition RandomSource : Type := nat -> Q.

Definition Rand (A : Type) : Type := RandomSource -> A * RandomSource.

Definition ret {A : Type} (a : A) : Rand A := fun s => (a, s).

Definition bind {A B : Type} (m : Rand A) (k : A -> Rand B) : Rand B :=
  fun s => let (a, s') := m s in k a s'.

Notation "x <- m ;; k" := (bind m (fun x => k))
  (at level 61, m at next level, right associativity).

Definition Math_random : Rand Q := fun s => (s O, fun k => s (S k)).

(** Every draw lies in the half-open interval [0, 1). *)
Definition unit_draws (s : RandomSource) : Prop :=
  forall k : nat, (0 <= s k /\ s k < 1)%Q.

(* ================================================================== *)
(** ** Question generation *)

Inductive QuestionType : Type := multiplication | division.

Record Question : Type := mkQuestion {
  type : QuestionType;
  base : Z;
  other : Z;
  product : option Z;
  questionText : string;
  answer : Z
}.

(** [pickRandom(array)] and [randomInt(min, max)].  The draw and its
    product with the number of buckets are exact rationals here.  The
    code rounds the product to a double before [Math.floor], which for
    a draw within rounding distance of a bucket edge can give the
    neighbouring bucket; the result stays among the buckets. *)

(** [pickRandom(array)] *)
Definition pickRandom {A : Type} (array : list A) : Rand (option A) :=
  r <- Math_random ;;
  ret (array_get array (Math_floor (r * inject_Z (Z.of_nat (List.length array))))).

(** [randomInt(min, max)] *)
Definition randomInt (min max : Z) : Rand Z :=
  r <- Math_random ;;
  ret (Math_floor (r * inject_Z (max - min + 1)) + min).

(** [generateQuestion(selectedTables, includeDivision)].  The result is
    [None] when [pickRandom] read outside the array (the JavaScript
    object would carry an undefined base). *)
Definition generateQuestion (selectedTables : list Z) (includeDivision : bool)
  : Rand (option Question) :=
  base <- pickRandom selectedTables ;;
  other <- randomInt 1 12 ;;
  isDivision <- (if includeDivision
                 then r <- Math_random ;; ret (Qltb r (1 # 2))
                 else ret false) ;;
  ret (match base with
       | None => None
       | Some base =>
           if isDivision : bool then
             let product := base * other in
             Some {| type := division;
                     base := base;
                     other := other;
                     product := Some product;
                     questionText :=
                       String_of_int product ++ " ÷ " ++ String_of_int base ++ " = ______";
                     answer := other |}
           else
             Some {| type := multiplication;
                     base := base;
                     other := other;
                     product := None;
                     questionText :=
                       String_of_int base ++ " × " ++ String_of_int other ++ " = ______";
                     answer := base * other |}
       end).

(** The generation loop of [generateWorksheet] and [handleDownload]:
    [for (let i = 0; i < numQuestions; i++) questions.push(generateQuestion(...))]. *)
Fixpoint generateQuestions (iterations : nat) (selectedTables : list Z)
  (includeDivision : bool) : Rand (list (option Question)) :=
  match iterations with
  | O => ret []
  | S k =>
      question <- generateQuestion selectedTables includeDivision ;;
      rest <- generateQuestions k selectedTables includeDivision ;;
      ret (question :: rest)
  end.

(** [validateInputs()], on the parsed inputs. *)
Definition validateInputs (numQuestions : Z) (selectedTables : list Z) : bool :=
  negb ((numQuestions <? 1) || (numQuestions >? 99))
  && negb (Nat.eqb (List.length selectedTables) 0).

(** [generateWorksheet()]: [None] when validation fails and nothing is
    generated, otherwise the new [currentQuestions]. *)
Definition generateWorksheet (numQuestions : Z) (selectedTables : list Z)
  (includeDivision : bool) : Rand (option (list (option Question))) :=
  if validateInputs numQuestions selectedTables then
    questions <- generateQuestions (Z.to_nat numQuestions) selectedTables includeDivision ;;
    ret (Some questions)
  else ret None.

(** [renderAnswers]: the answer-key line of a question. *)
Definition answerLine (q : Question) : string :=
  str_replace "______" (String_of_int (answer q)) (questionText q).

(* ================================================================== *)
(** ** Print layout *)

Record LayoutPlan : Type := mkLayoutPlan {
  columns : Z;
  fontSize : Q;
  lineHeight : Q
}.

(** The values [calculateOptimalLayout] computes on the way. *)
Record LayoutLocals : Type := mkLayoutLocals {
  l_usableHeight : Z;
  l_columns : Z;
  l_questionsPerColumn : Z;
  l_lineHeight : Q;
  l_fontSize : Q;
  l_maxFontFromLineHeight : Q;
  l_clampedFontSize : Q;
  l_finalLineHeight : Q
}.

Section PrintLayout.

(** [Math.pow]: ECMAScript leaves its result implementation-approximated,
    and [x^0.7] is not rational; the layout is embedded over an arbitrary
    function. *)
Variable Math_pow : Q -> Q -> Q.

(** The locals of [calculateOptimalLayout(questionCount)] (the same text
    in both revisions), steps 1 to 7.  The divisors are non-zero for
    [questionCount >= 1]. *)
Definition layoutLocals (questionCount : Z) : LayoutLocals :=
  let pageHeight := 297 in
  let pageWidth := 210 in
  let margin := 15 in
  let titleY := margin + 8 in
  let titleHeight := 12 in
  let titleGap := 5 in
  let startY := titleY + titleHeight + titleGap in
  let maxY := pageHeight - margin in
  let usableHeight := maxY - startY in
  let usableWidth := pageWidth - (margin * 2) in
  let columns :=
    if questionCount <=? 5 then 1
    else if questionCount <=? 10 then 2
    else if questionCount <=? 20 then 2
    else if questionCount <=? 33 then 3
    else if questionCount <=? 50 then 3
    else if questionCount <=? 66 then 3
    else if (Z.rem questionCount 3 =? 0) || (questionCount >=? 90) then 3
    else 4 in
  let questionsPerColumn := Math_ceil (inject_Z questionCount / inject_Z columns) in
  let lineHeight := (inject_Z usableHeight / inject_Z questionsPerColumn)%Q in
  let minFontSize := (19 # 2)%Q in
  let maxFontSize := 20%Q in
  let fontRange := (maxFontSize - minFontSize)%Q in
  let normalizedCount := ((inject_Z questionCount - 1) / (99 - 1))%Q in
  let fontSize := (maxFontSize - fontRange * Math_pow normalizedCount (7 # 10))%Q in
  let maxFontFromLineHeight := (lineHeight * (85 # 100))%Q in
  let finalFontSize := Math_min fontSize maxFontFromLineHeight in
  let clampedFontSize := Math_max minFontSize (Math_min maxFontSize finalFontSize) in
  let finalLineHeight :=
    if questionCount <=? 5 then Math_max lineHeight 15
    else if questionCount <=? 10 then Math_max lineHeight 12
    else lineHeight in
  {| l_usableHeight := usableHeight;
     l_columns := columns;
     l_questionsPerColumn := questionsPerColumn;
     l_lineHeight := lineHeight;
     l_fontSize := fontSize;
     l_maxFontFromLineHeight := maxFontFromLineHeight;
     l_clampedFontSize := clampedFontSize;
     l_finalLineHeight := finalLineHeight |}.

(** [calculateOptimalLayout(questionCount)]: the returned object. *)
Definition calculateOptimalLayout (questionCount : Z) : LayoutPlan :=
  let l := layoutLocals questionCount in
  {| columns := l_columns l;
     fontSize := (inject_Z (Math_round (l_clampedFontSize l * 10)) / 10)%Q;
     lineHeight := (inject_Z (Math_round (l_finalLineHeight l * 10)) / 10)%Q |}.

End PrintLayout.

(* ================================================================== *)
(** ** PDF export *)

(** The calls made on the jsPDF document, in order. *)
Inductive DocOp : Type :=
| setFontSize (size : Q)
| setFont (fontStyle : string)
| setTextColor (r g b : Z)
| text (s : string) (x y : Q) (centered : bool)
| addPage
| save (filename : string).

(** One iteration of the question loop that reached the drawing code:
    the loop variables [questionIndex], [col] and [i], the pen position
    [columnX], [yPosition] at its start, the text handed to
    [splitTextToSize] and the document calls made. *)
Record Placed : Type := mkPlaced {
  placedIndex : Z;
  placedColumn : Z;
  placedRow : Z;
  placedX : Q;
  placedY : Q;
  placedText : string;
  placedOps : list DocOp
}.

Section Pdf.

Variable Math_pow : Q -> Q -> Q.
(** [doc.internal.pageSize.getWidth()] and [getHeight()]; for the A4
    page of the code jsPDF has 595.28 pt by 841.89 pt, which is
    210.0016 mm by 297.000083 mm. *)
Variables pageWidth pageHeight : Q.
(** [doc.splitTextToSize(text, maxWidth)] and [doc.getTextWidth(text)]
    at the document's current font size. *)
Variable splitTextToSize : Q -> string -> Q -> list string.
Variable getTextWidth : Q -> string -> Q.
(** [new Date().toISOString().split('T')[0]] *)
Variable timestamp : string.

Section Page.

Variable questions : list Question.
Variable layout : LayoutPlan.
Variables margin columnWidth columnGap startY maxY : Q.
Variable questionsPerColumn : Z.
Variable lineSpacing : Q.
Variable showAnswers : bool.

(** The body of [lines.forEach((line, lineIndex) => ...)], threading
    [yPosition]. *)
Fixpoint drawLines (columnX : Q) (answerValue : option string) (total : Z)
  (lines : list string) (lineIndex : Z) (yPosition : Q) : list DocOp * Q :=
  match lines with
  | [] => ([], yPosition)
  | line :: rest =>
      if Qgtb yPosition (maxY - lineSpacing)%Q then
        drawLines columnX answerValue total rest (lineIndex + 1) yPosition
      else
        let black := [setTextColor 0 0 0; text line columnX yPosition false] in
        let ops :=
          match answerValue with
          | Some answerValue =>
              if showAnswers && negb (String.eqb answerValue "")
                 && (lineIndex =? total - 1) && str_includes answerValue line
              then
                match str_lastIndexOf answerValue line with
                | Some answerIndex =>
                    let beforeAnswer := str_take answerIndex line in
                    let answer := str_drop answerIndex line in
                    let hasBefore := negb (String.eqb beforeAnswer "") in
                    let beforeAnswerWidth :=
                      if hasBefore then getTextWidth (fontSize layout) beforeAnswer else 0%Q in
                    let answerX := (columnX + beforeAnswerWidth)%Q in
                    [setTextColor 0 0 0]
                    ++ (if hasBefore then [text beforeAnswer columnX yPosition false] else [])
                    ++ [setTextColor 211 47 47; text answer answerX yPosition false]
                | None => black
                end
              else black
          | None => black
          end in
        let yPosition' :=
          if lineIndex <? total - 1 then (yPosition + lineSpacing * (6 # 10))%Q
          else yPosition in
        let (ops', yEnd) :=
          drawLines columnX answerValue total rest (lineIndex + 1) yPosition' in
        (ops ++ ops', yEnd)
  end.

(** [for (let i = 0; i < questionsPerColumn; i++)] of one column;
    [remaining] counts the iterations still allowed by the loop bound. *)
Fixpoint questionLoop (remaining : nat) (col : Z) (columnX : Q) (i : Z)
  (yPosition : Q) : list Placed :=
  match remaining with
  | O => []
  | S k =>
      let questionIndex := col * questionsPerColumn + i in
      if questionIndex >=? Z.of_nat (List.length questions) then []
      else if Qgtb yPosition (maxY - lineSpacing)%Q then []
      else
        match array_get questions questionIndex with
        | None => []
        | Some question =>
            let questionNumber := questionIndex + 1 in
            let spacing := (if questionNumber >=? 10 then "  " else " ")%string in
            let questionText' :=
              (if showAnswers then
                 let questionPart := str_replace "______" "" (questionText question) in
                 String_of_int questionNumber ++ ")" ++ spacing ++ questionPart
                   ++ String_of_int (answer question)
               else
                 String_of_int questionNumber ++ ")" ++ spacing ++ questionText question)%string in
            let answerValue :=
              if showAnswers then Some (String_of_int (answer question)) else None in
            let maxWidth := (columnWidth - 8)%Q in
            let lines := splitTextToSize (fontSize layout) questionText' maxWidth in
            let (ops, yEnd) :=
              drawLines columnX answerValue (Z.of_nat (List.length lines)) lines 0 yPosition in
            {| placedIndex := questionIndex;
               placedColumn := col;
               placedRow := i;
               placedX := columnX;
               placedY := yPosition;
               placedText := questionText';
               placedOps := ops |}
            :: questionLoop k col columnX (i + 1) (yEnd + lineSpacing)%Q
        end
  end.

(** [for (let col = 0; col < layout.columns; col++)] *)
Fixpoint columnLoop (remaining : nat) (col : Z) : list Placed :=
  match remaining with
  | O => []
  | S k =>
      let columnX := (margin + inject_Z col * (columnWidth + columnGap))%Q in
      questionLoop (Z.to_nat questionsPerColumn) col columnX 0 startY
      ++ columnLoop k (col + 1)
  end.

Definition placeQuestions : list Placed :=
  columnLoop (Z.to_nat (columns layout)) 0.

(** [renderPdfPage(doc, questions, layout, ..., showAnswers)] *)
Definition renderPdfPage : list DocOp :=
  let titleText :=
    (if showAnswers then "Timestable worksheet - Answer key" else "Timestable worksheet")%string in
  [setFontSize 20; setFont "bold";
   text titleText (pageWidth / 2)%Q (margin + 8)%Q true;
   setFontSize (fontSize layout); setFont "normal"]
  ++ flat_map placedOps placeQuestions
  ++ [setFontSize 8; setFont "normal"; setTextColor 100 100 100;
      text "timestableworksheet.com" (pageWidth / 2)%Q (pageHeight - 8)%Q true].

End Page.

(** The geometry [downloadWorksheetPdf] derives from the layout. *)
Definition pdfColumnWidth (layout : LayoutPlan) : Q :=
  let margin := 15%Q in
  let usableWidth := (pageWidth - (margin * 2))%Q in
  ((usableWidth - (inject_Z (columns layout) - 1) * 5) / inject_Z (columns layout))%Q.

Definition pdfQuestionsPerColumn (questions : list Question) (layout : LayoutPlan) : Z :=
  Math_ceil (inject_Z (Z.of_nat (List.length questions)) / inject_Z (columns layout)).

(** One page of [downloadWorksheetPdf(questions)]: the call of
    [renderPdfPage] with the arguments the function passes. *)
Definition pdfPlaced (questions : list Question) (showAnswers : bool) : list Placed :=
  let layout := calculateOptimalLayout Math_pow (Z.of_nat (List.length questions)) in
  let margin := 15%Q in
  let columnGap := 5%Q in
  let titleY := (margin + 8)%Q in
  let titleHeight := 12%Q in
  let startY := (titleY + titleHeight + 5)%Q in
  let maxY := (pageHeight - margin)%Q in
  placeQuestions questions layout margin (pdfColumnWidth layout) columnGap startY maxY
    (pdfQuestionsPerColumn questions layout) (lineHeight layout) showAnswers.

Definition pdfPage (questions : list Question) (showAnswers : bool) : list DocOp :=
  let layout := calculateOptimalLayout Math_pow (Z.of_nat (List.length questions)) in
  let margin := 15%Q in
  let columnGap := 5%Q in
  let titleY := (margin + 8)%Q in
  let titleHeight := 12%Q in
  let startY := (titleY + titleHeight + 5)%Q in
  let maxY := (pageHeight - margin)%Q in
  renderPdfPage questions layout margin (pdfColumnWidth layout) columnGap startY maxY
    (pdfQuestionsPerColumn questions layout) (lineHeight layout) showAnswers.

(** [downloadWorksheetPdf(questions)] *)
Definition downloadWorksheetPdf (questions : list Question) : list DocOp :=
  pdfPage questions false
  ++ [addPage]
  ++ pdfPage questions true
  ++ [save ("times-table-worksheet-" ++ timestamp ++ ".pdf")].

End Pdf.

(* ================================================================== *)
(** ** Presentation layout *)

Definition PRESENTATION_MIN_FONT_PX : Q := 18.
Definition PRESENTATION_MAX_FONT_PX : Q := 44.

(** [updatePresentationColumns(questionCount)] *)
Definition updatePresentationColumns (questionCount : Z) : Z :=
  if (questionCount >=? 1) && (questionCount <=? 9) then 3
  else if (questionCount >=? 10) && (questionCount <=? 20) then 4
  else if (questionCount >=? 21) && (questionCount <=? 40) then 5
  else 5.

Record PresentationLayout : Type := mkPresentationLayout {
  presentationColumns : Z;
  fontSizePx : Z
}.

(** The font tier chosen from the question count. *)
Definition presentationBaseFont (questionCount : Z) : Q :=
  if questionCount <=? 12 then 40
  else if questionCount <=? 24 then 32
  else if questionCount <=? 40 then 26
  else if questionCount <=? 60 then 22
  else 18.

(** The value of the local [fontSize] after the clamp
    [Math.max(MIN, Math.min(fontSize, maxAllowed))]; [innerHeight] is
    [window.innerHeight]. *)
Definition presentationClampedFont (innerHeight : Q) (questionCount : Z) : Q :=
  let fontSize := presentationBaseFont questionCount in
  let maxAllowed := Math_min PRESENTATION_MAX_FONT_PX (innerHeight / 18) in
  Math_max PRESENTATION_MIN_FONT_PX (Math_min fontSize maxAllowed).

(** [calculatePresentationLayout(questionCount)] *)
Definition calculatePresentationLayout (innerHeight : Q) (questionCount : Z)
  : PresentationLayout :=
  let columns := updatePresentationColumns questionCount in
  {| presentationColumns := columns;
     fontSizePx := Math_round (presentationClampedFont innerHeight questionCount) |}.

(* ================================================================== *)
(** ** The older revision *)

Module Legacy.

(** [calculatePresentationLayout(questionCount)] of the older revision:
    the column count is chosen together with the font tier, then clamped
    to 1..5. *)
Definition calculatePresentationLayout (innerHeight : Q) (questionCount : Z)
  : PresentationLayout :=
  let '(columns, fontSize) :=
    if questionCount <=? 12 then (3, 40%Q)
    else if questionCount <=? 24 then (4, 32%Q)
    else if questionCount <=? 40 then (4, 26%Q)
    else if questionCount <=? 60 then (5, 22%Q)
    else (5, 18%Q) in
  let maxAllowed := Math_min PRESENTATION_MAX_FONT_PX (innerHeight / 18) in
  let fontSize := Math_max PRESENTATION_MIN_FONT_PX (Math_min fontSize maxAllowed) in
  let columns := Z.max 1 (Z.min columns 5) in
  {| presentationColumns := columns;
     fontSizePx := Math_round fontSize |}.

Section LegacyPdf.

Variable Math_pow : Q -> Q -> Q.
Variables pageWidth pageHeight : Q.
Variable splitTextToSize : Q -> string -> Q -> list string.
Variable timestamp : string.

Section Loops.

Variable questions : list Question.
Variable layout : LayoutPlan.
Variables margin columnWidth columnGap startY maxY : Q.
Variable questionsPerColumn : Z.
Variable lineSpacing : Q.

Fixpoint drawLines (columnX : Q) (total : Z) (lines : list string) (lineIndex : Z)
  (yPosition : Q) : list DocOp * Q :=
  match lines with
  | [] => ([], yPosition)
  | line :: rest =>
      if Qgtb yPosition (maxY - lineSpacing)%Q then
        drawLines columnX total rest (lineIndex + 1) yPosition
      else
        let yPosition' :=
          if lineIndex <? total - 1 then (yPosition + lineSpacing * (6 # 10))%Q
          else yPosition in
        let (ops', yEnd) := drawLines columnX total rest (lineIndex + 1) yPosition' in
        (text line columnX yPosition false :: ops', yEnd)
  end.

Fixpoint questionLoop (remaining : nat) (col : Z) (columnX : Q) (i : Z)
  (yPosition : Q) : list Placed :=
  match remaining with
  | O => []
  | S k =>
      let questionIndex := col * questionsPerColumn + i in
      if questionIndex >=? Z.of_nat (List.length questions) then []
      else if Qgtb yPosition (maxY - lineSpacing)%Q then []
      else
        match array_get questions questionIndex with
        | None => []
        | Some question =>
            let questionNumber := questionIndex + 1 in
            let spacing := (if questionNumber >=? 10 then "  " else " ")%string in
            let questionText' :=
              (String_of_int questionNumber ++ ")" ++ spacing ++ questionText question)%string in
            let maxWidth := (columnWidth - 8)%Q in
            let lines := splitTextToSize (fontSize layout) questionText' maxWidth in
            let (ops, yEnd) :=
              drawLines columnX (Z.of_nat (List.length lines)) lines 0 yPosition in
            {| placedIndex := questionIndex;
               placedColumn := col;
               placedRow := i;
               placedX := columnX;
               placedY := yPosition;
               placedText := questionText';
               placedOps := ops |}
            :: questionLoop k col columnX (i + 1) (yEnd + lineSpacing)%Q
        end
  end.

Fixpoint columnLoop (remaining : nat) (col : Z) : list Placed :=
  match remaining with
  | O => []
  | S k =>
      let columnX := (margin + inject_Z col * (columnWidth + columnGap))%Q in
      questionLoop (Z.to_nat questionsPerColumn) col columnX 0 startY
      ++ columnLoop k (col + 1)
  end.

End Loops.

(** The question loops of the older [downloadWorksheetPdf(questions)]. *)
Definition pdfPlaced (questions : list Question) : list Placed :=
  let layout := calculateOptimalLayout Math_pow (Z.of_nat (List.length questions)) in
  let margin := 15%Q in
  let usableWidth := (pageWidth - (margin * 2))%Q in
  let columnWidth :=
    ((usableWidth - (inject_Z (columns layout) - 1) * 5) / inject_Z (columns layout))%Q in
  let columnGap := 5%Q in
  let titleY := (margin + 8)%Q in
  let titleHeight := 12%Q in
  let startY := (titleY + titleHeight + 5)%Q in
  let maxY := (pageHeight - margin)%Q in
  let questionsPerColumn :=
    Math_ceil (inject_Z (Z.of_nat (List.length questions)) / inject_Z (columns layout)) in
  let lineSpacing := lineHeight layout in
  columnLoop questions layout margin columnWidth columnGap startY maxY
    questionsPerColumn lineSpacing (Z.to_nat (columns layout)) 0.

(** [downloadWorksheetPdf(questions)] of the older revision: one page,
    no answer key. *)
Definition downloadWorksheetPdf (questions : list Question) : list DocOp :=
  let layout := calculateOptimalLayout Math_pow (Z.of_nat (List.length questions)) in
  let margin := 15%Q in
  [setFontSize 20; setFont "bold";
   text "Timestable worksheet" (pageWidth / 2)%Q (margin + 8)%Q true;
   setFontSize (fontSize layout); setFont "normal"]
  ++ flat_map placedOps (pdfPlaced questions)
  ++ [setFontSize 8; setFont "normal"; setTextColor 100 100 100;
      text "timestableworksheet.com" (pageWidth / 2)%Q (pageHeight - 8)%Q true;
      save ("times-table-worksheet-" ++ timestamp ++ ".pdf")].

End LegacyPdf.

End Legacy.

(* ================================================================== *)
(** ** Screen rendering *)

(** What [renderWorksheet(questions)] writes to the questions list: the
    [--column-count] property, the font size and line height in rem, and
    the text of the list items. *)
Record WorksheetView : Type := mkWorksheetView {
  columnCount : Z;
  screenFontSizeRem : Q;
  screenLineHeightRem : Q;
  listItems : list string
}.

(** [renderWorksheet(questions)], for the worksheets [generateWorksheet]
    and [handleDownload] pass to it, of one question or more.  (For an
    empty array [calculateOptimalLayout(0)] divides by zero rows and the
    two sizes are [NaN] and [Infinity]; neither caller makes that
    call.) *)
Definition renderWorksheet (Math_pow : Q -> Q -> Q) (questions : list Question)
  : WorksheetView :=
  let layout := calculateOptimalLayout Math_pow (Z.of_nat (List.length questions)) in
  let screenFontSize := Math_max (875 # 1000) (fontSize layout * (8 # 100)) in
  {| columnCount := columns layout;
     screenFontSizeRem := screenFontSize;
     screenLineHeightRem := (lineHeight layout * (12 # 100))%Q;
     listItems := map questionText questions |}.

(** [renderAnswers(questions)]: the text of the items of the answers list. *)
Definition renderAnswers (questions : list Question) : list string :=
  map answerLine questions.

(* ================================================================== *)
(** ** Auxiliary definitions *)

(** The string holds no underscore, the character of the blank. *)
Fixpoint no_underscore (s : string) : bool :=
  match s with
  | EmptyString => true
  | String c t => negb (Ascii.eqb c "_") && no_underscore t
  end.

(** The rest of a randomness source after one draw. *)
Definition draws_tail (s : RandomSource) : RandomSource := fun k => s (S k).

(** A concrete randomness source: the draws 0, 1/7, ..., 6/7, 0, ... *)
Definition sample_draws : RandomSource := fun k => (Z.of_nat (k mod 7) # 7)%Q.

(** The rows of the tallest column, each of the returned line height,
    need more than the 242 mm between the title block and the bottom
    margin. *)
Definition rowsOverflow (Math_pow : Q -> Q -> Q) (questionCount : Z) : bool :=
  let layout := calculateOptimalLayout Math_pow questionCount in
  let questionsPerColumn :=
    Math_ceil (inject_Z questionCount / inject_Z (columns layout)) in
  Qgtb (inject_Z questionsPerColumn * lineHeight layout) 242.

(** [lo], [lo + 1], ... ([len] values). *)
Fixpoint Z_range (lo : Z) (len : nat) : list Z :=
  match len with
  | O => []
  | S k => lo :: Z_range (lo + 1) k
  end.

(** A text measurement that never wraps, and one width per character. *)
Definition noWrap : Q -> string -> Q -> list string := fun _ s _ => [s].
Definition unitWidth : Q -> string -> Q :=
  fun _ s => inject_Z (Z.of_nat (String.length s)).

(** A text measurement that breaks every text after its first ten
    characters (bytes of the string) into two lines. *)
Definition wrapAfterTen : Q -> string -> Q -> list string :=
  fun _ s _ => [str_take 10 s; str_drop 10 s].

(** Three questions of the 2, 5 and 10 times tables. *)
Definition sample_questions : list Question :=
  [ {| type := multiplication; base := 2; other := 7; product := None;
       questionText := "2 × 7 = ______"; answer := 14 |};
    {| type := division; base := 5; other := 12; product := Some 60;
       questionText := "60 ÷ 5 = ______"; answer := 12 |};
    {| type := multiplication; base := 10; other := 3; product := None;
       questionText := "10 × 3 = ______"; answer := 30 |} ].

(** A drawn question with [setTextColor(0, 0, 0)] put before each of its
    document calls. *)
Definition withBlackText (p : Placed) : Placed :=
  {| placedIndex := placedIndex p;
     placedColumn := placedColumn p;
     placedRow := placedRow p;
     placedX := placedX p;
     placedY := placedY p;
     placedText := placedText p;
     placedOps := flat_map (fun op => [setTextColor 0 0 0; op]) (placedOps p) |}.

(* ================================================================== *)
(** ** The times-table checkboxes *)

(** One checkbox of the grid with its label: the number it stands for
    ([parseInt(checkbox.value, 10)]), whether it is checked, and whether
    its label carries the classes [checkbox-checked] and
    [preset-applied]. *)
Record Checkbox : Type := mkCheckbox {
  cbValue : Z;
  cbChecked : bool;
  cbHighlighted : bool;
  cbPresetApplied : bool
}.

(** [createTimesTableCheckboxes()], on an empty grid. *)
Definition createTimesTableCheckboxes : list Checkbox :=
  map (fun i =>
         let checked := (i >=? 2) && (i <=? 12) in
         {| cbValue := i;
            cbChecked := checked;
            cbHighlighted := if checked then true else false;
            cbPresetApplied := false |})
      (Z_range 1 20).

(** [getSelectedTables()] *)
Definition getSelectedTables (grid : list Checkbox) : list Z :=
  map cbValue (filter cbChecked grid).

(** The [change] listener of a checkbox. *)
Definition checkboxChanged (c : Checkbox) : Checkbox :=
  if cbChecked c then c {{ cbHighlighted := true }}
  else c {{ cbHighlighted := false }}.

(** A click of the user on the checkbox at position [i]: the browser
    flips it and fires [change]. *)
Fixpoint clickCheckbox (i : nat) (grid : list Checkbox) : list Checkbox :=
  match grid, i with
  | [], _ => []
  | c :: rest, O => checkboxChanged (c {{ cbChecked := negb (cbChecked c) }}) :: rest
  | c :: rest, S k => c :: clickCheckbox k rest
  end.

(** The two loops every preset starts with: uncheck everything, then
    check the boxes whose value is wanted. *)
Definition applyPreset (wanted : Z -> bool) (grid : list Checkbox) : list Checkbox :=
  map (fun c => if wanted (cbValue c) then c {{ cbChecked := true }} else c)
      (map (fun c => c {{ cbChecked := false }}) grid).

(** [triggerPresetAnimation()], up to its timeout, and the callback the
    timeout runs 400 ms later. *)
Definition triggerPresetAnimation (grid : list Checkbox) : list Checkbox :=
  map (fun c =>
         if cbChecked c then c {{ cbHighlighted := true; cbPresetApplied := true }}
         else c {{ cbHighlighted := false }})
      grid.

Definition presetAnimationDone (grid : list Checkbox) : list Checkbox :=
  map (fun c => c {{ cbPresetApplied := false }}) grid.

Definition handlePresetTwoToTwelve (grid : list Checkbox) : list Checkbox :=
  triggerPresetAnimation (applyPreset (fun value => (value >=? 2) && (value <=? 12)) grid).

Definition handlePresetEasyTables (grid : list Checkbox) : list Checkbox :=
  triggerPresetAnimation
    (applyPreset (fun value => (value =? 2) || (value =? 5) || (value =? 10)) grid).

Definition handlePresetTenAndTwenty (grid : list Checkbox) : list Checkbox :=
  triggerPresetAnimation (applyPreset (fun value => (value =? 10) || (value =? 20)) grid).

Definition handlePresetThirteenToTwenty (grid : list Checkbox) : list Checkbox :=
  triggerPresetAnimation (applyPreset (fun value => (value >=? 13) && (value <=? 20)) grid).

Definition handlePresetClearAll (grid : list Checkbox) : list Checkbox :=
  map (fun c => c {{ cbHighlighted := false }})
      (map (fun c => c {{ cbChecked := false }}) grid).

(** What can happen to the grid once it is created. *)
Inductive GridEvent : Type :=
| PresetTwoToTwelve
| PresetEasyTables
| PresetTenAndTwenty
| PresetThirteenToTwenty
| PresetClearAll
| CheckboxClicked (i : nat)
| PresetAnimationDone.

Definition gridStep (grid : list Checkbox) (e : GridEvent) : list Checkbox :=
  match e with
  | PresetTwoToTwelve => handlePresetTwoToTwelve grid
  | PresetEasyTables => handlePresetEasyTables grid
  | PresetTenAndTwenty => handlePresetTenAndTwenty grid
  | PresetThirteenToTwenty => handlePresetThirteenToTwenty grid
  | PresetClearAll => handlePresetClearAll grid
  | CheckboxClicked i => clickCheckbox i grid
  | PresetAnimationDone => presetAnimationDone grid
  end.

Definition gridAfter (events : list GridEvent) : list Checkbox :=
  fold_left gridStep events createTimesTableCheckboxes.

(* ================================================================== *)
(** ** The page as a state machine *)

(** The event handlers read the form, the browser and the script's
    global variables and write the document.  [App] holds all of that;
    every handler is a function on it.  Closures the script creates and
    registers as listeners are told apart by a number, timers by the
    number [setTimeout] returns. *)

Module Dom.

(** The callbacks the script hands to [setTimeout]. *)
Inductive Callback : Type :=
| ResizeUpdate      (* setupPresentationResizeHandler, 150 ms *)
| HideTooltip       (* hideHelpTooltip, 200 ms *)
| AddClickOutside   (* setupClickOutsideHandler, 0 ms *)
| AutoHideTooltip.  (* autoShowHelpTooltip, 3000 ms *)

Record Timer : Type := mkTimer {
  timerId : nat;
  timerDue : Z;
  timerCallback : Callback
}.

(** Calls of the fullscreen API, by call site. *)
Inductive FullscreenRequest : Type :=
| RequestFullscreen
| ExitFullscreenFromToggle
| ExitFullscreenFromClose.

(** One [div.presentation-question]: its text and, when answers are
    shown, the content of its [span.presentation-answer]. *)
Record PresentationItem : Type := mkPresentationItem {
  itemText : string;
  itemAnswer : option string
}.

Record KeyEvent : Type := mkKeyEvent {
  key : string;
  targetTagName : string;
  targetIsContentEditable : bool
}.

#[local] Set Primitive Projections.

Record App : Type := mkApp {
  (* the form *)
  numQuestionsValue : option Z;       (* parseInt(value, 10); None is NaN *)
  tablesGrid : list Checkbox;
  includeDivisionChecked : bool;
  (* the browser *)
  randomSource : RandomSource;
  innerHeight : Q;
  fullscreenEnabled : bool;
  fullscreenElement : bool;
  clock : Z;
  helpBtnExists : bool;
  helpTooltipExists : bool;
  (* global variables of the script *)
  currentQuestions : list Question;
  presentationAnswersVisible : bool;
  presentationResizeHandler : option nat;
  presentationKeyboardHandler : option nat;
  helpTooltipAutoShowTimeout : option nat;
  helpTooltipClickOutsideHandler : option nat;
  (* closures and their captured variables *)
  nextClosure : nat;
  resizeTimeout : nat -> option nat;
  (* pending timers *)
  nextTimer : nat;
  timers : list Timer;
  (* registered listeners *)
  windowResizeListeners : list nat;
  fullscreenchangeResizeListeners : list nat;
  fullscreenchangeTextListeners : nat;
  keydownListeners : list nat;
  documentClickListeners : list nat;
  helpBtnClickListeners : nat;
  closeBtnListens : bool;
  toggleAnswersBtnListens : bool;
  fullscreenBtnListens : bool;
  (* the document *)
  numQuestionsError : string;
  tablesError : string;
  questionsList : WorksheetView;
  answersList : list string;
  overlayDisplay : string;
  presentationColumnsVar : option Z;
  presentationFontSizeVar : option Z;
  presentationQuestionsList : list PresentationItem;
  toggleAnswersBtnText : string;
  fullscreenBtnText : string;
  fullscreenBtnDisplay : string;
  listenersSetup : bool;
  bodyOverflow : string;
  activeElement : string;
  helpTooltipDisplay : string;
  helpTooltipFadeOut : bool;
  (* what left the page *)
  fullscreenRequests : list FullscreenRequest;
  savedPdfs : list (list DocOp)
}.

#[local] Unset Primitive Projections.

(** The setters behind the update notation [st {{ field := value }}]. *)
#[global] Instance set_numQuestionsValue : Setter numQuestionsValue := _.
#[global] Instance set_tablesGrid : Setter tablesGrid := _.
#[global] Instance set_includeDivisionChecked : Setter includeDivisionChecked := _.
#[global] Instance set_randomSource : Setter randomSource := _.
#[global] Instance set_innerHeight : Setter innerHeight := _.
#[global] Instance set_fullscreenEnabled : Setter fullscreenEnabled := _.
#[global] Instance set_fullscreenElement : Setter fullscreenElement := _.
#[global] Instance set_clock : Setter clock := _.
#[global] Instance set_helpBtnExists : Setter helpBtnExists := _.
#[global] Instance set_helpTooltipExists : Setter helpTooltipExists := _.
#[global] Instance set_currentQuestions : Setter currentQuestions := _.
#[global] Instance set_presentationAnswersVisible : Setter presentationAnswersVisible := _.
#[global] Instance set_presentationResizeHandler : Setter presentationResizeHandler := _.
#[global] Instance set_presentationKeyboardHandler : Setter presentationKeyboardHandler := _.
#[global] Instance set_helpTooltipAutoShowTimeout : Setter helpTooltipAutoShowTimeout := _.
#[global] Instance set_helpTooltipClickOutsideHandler : Setter helpTooltipClickOutsideHandler := _.
#[global] Instance set_nextClosure : Setter nextClosure := _.
#[global] Instance set_resizeTimeout : Setter resizeTimeout := _.
#[global] Instance set_nextTimer : Setter nextTimer := _.
#[global] Instance set_timers : Setter timers := _.
#[global] Instance set_windowResizeListeners : Setter windowResizeListeners := _.
#[global] Instance set_fullscreenchangeResizeListeners : Setter fullscreenchangeResizeListeners := _.
#[global] Instance set_fullscreenchangeTextListeners : Setter fullscreenchangeTextListeners := _.
#[global] Instance set_keydownListeners : Setter keydownListeners := _.
#[global] Instance set_documentClickListeners : Setter documentClickListeners := _.
#[global] Instance set_helpBtnClickListeners : Setter helpBtnClickListeners := _.
#[global] Instance set_closeBtnListens : Setter closeBtnListens := _.
#[global] Instance set_toggleAnswersBtnListens : Setter toggleAnswersBtnListens := _.
#[global] Instance set_fullscreenBtnListens : Setter fullscreenBtnListens := _.
#[global] Instance set_numQuestionsError : Setter numQuestionsError := _.
#[global] Instance set_tablesError : Setter tablesError := _.
#[global] Instance set_questionsList : Setter questionsList := _.
#[global] Instance set_answersList : Setter answersList := _.
#[global] Instance set_overlayDisplay : Setter overlayDisplay := _.
#[global] Instance set_presentationColumnsVar : Setter presentationColumnsVar := _.
#[global] Instance set_presentationFontSizeVar : Setter presentationFontSizeVar := _.
#[global] Instance set_presentationQuestionsList : Setter presentationQuestionsList := _.
#[global] Instance set_toggleAnswersBtnText : Setter toggleAnswersBtnText := _.
#[global] Instance set_fullscreenBtnText : Setter fullscreenBtnText := _.
#[global] Instance set_fullscreenBtnDisplay : Setter fullscreenBtnDisplay := _.
#[global] Instance set_listenersSetup : Setter listenersSetup := _.
#[global] Instance set_bodyOverflow : Setter bodyOverflow := _.
#[global] Instance set_activeElement : Setter activeElement := _.
#[global] Instance set_helpTooltipDisplay : Setter helpTooltipDisplay := _.
#[global] Instance set_helpTooltipFadeOut : Setter helpTooltipFadeOut := _.
#[global] Instance set_fullscreenRequests : Setter fullscreenRequests := _.
#[global] Instance set_savedPdfs : Setter savedPdfs := _.


(** [setTimeout] and [clearTimeout]; [clearTimeout(undefined)] does
    nothing. *)
Definition setTimeout (callback : Callback) (delay : Z) (st : App) : nat * App :=
  (nextTimer st,
   st {{ timers := timers st ++ [mkTimer (nextTimer st) (clock st + delay) callback];
         nextTimer := S (nextTimer st) }}).

Definition clearTimeout (id : option nat) (st : App) : App :=
  match id with
  | None => st
  | Some i => st {{ timers := filter (fun t => negb (Nat.eqb (timerId t) i)) (timers st) }}
  end.

(** [addEventListener] ignores a listener that is already registered;
    [removeEventListener] removes it. *)
Definition addListener (h : nat) (listeners : list nat) : list nat :=
  if existsb (Nat.eqb h) listeners then listeners else listeners ++ [h].

Definition removeListener (h : nat) (listeners : list nat) : list nat :=
  filter (fun x => negb (Nat.eqb x h)) listeners.

(** [String.prototype.toLowerCase] on the letters A to Z; no other
    character becomes one of the letters the keyboard handler compares
    with. *)
Definition ascii_toLowerCase (c : ascii) : ascii :=
  let n := nat_of_ascii c in
  if ((65 <=? n) && (n <=? 90))%nat then ascii_of_nat (n + 32) else c.

Fixpoint String_toLowerCase (s : string) : string :=
  match s with
  | EmptyString => EmptyString
  | String c rest => String (ascii_toLowerCase c) (String_toLowerCase rest)
  end.

(** The generated array holds question objects only; [None] when a
    question came out with an undefined base. *)
Fixpoint definedQuestions (questions : list (option Question)) : option (list Question) :=
  match questions with
  | [] => Some []
  | Some q :: rest => option_map (cons q) (definedQuestions rest)
  | None :: _ => None
  end.

(** The [forEach] of [renderPresentationWorksheet]. *)
Fixpoint presentationItems (index : Z) (questions : list Question) (showAnswers : bool)
  : list PresentationItem :=
  match questions with
  | [] => []
  | question :: rest =>
      (if showAnswers then
         let questionText := str_replace "______" "" (questionText question) in
         {| itemText := (String_of_int (index + 1) ++ ") " ++ questionText)%string;
            itemAnswer := Some (String_of_int (answer question)) |}
       else
         let questionText := str_replace "______" "" (questionText question) in
         {| itemText := (String_of_int (index + 1) ++ ") " ++ questionText)%string;
            itemAnswer := None |})
      :: presentationItems (index + 1) rest showAnswers
  end.

Section Handlers.

Variable Math_pow : Q -> Q -> Q.
Variables pageWidth pageHeight : Q.
Variable splitTextToSize : Q -> string -> Q -> list string.
Variable getTextWidth : Q -> string -> Q.
Variable timestamp : string.

(** [clearErrors()] and [showError(errorId, message)] *)
Definition clearErrors (st : App) : App :=
  st {{ numQuestionsError := ""%string; tablesError := ""%string }}.

(** The two error elements; both exist, [clearErrors] writes to them
    unguarded. *)
Inductive ErrorId : Type := numQuestionsErrorId | tablesErrorId.

Definition showError (errorId : ErrorId) (message : string) (st : App) : App :=
  match errorId with
  | numQuestionsErrorId => st {{ numQuestionsError := message }}
  | tablesErrorId => st {{ tablesError := message }}
  end.

(** [validateInputs()] *)
Definition validateInputs (st : App) : bool * App :=
  let isValid := true in
  let st := clearErrors st in
  let numQuestions := numQuestionsValue st in
  let '(isValid, st) :=
    if match numQuestions with
       | None => true
       | Some numQuestions => (numQuestions <? 1) || (numQuestions >? 99)
       end
    then (false, showError numQuestionsErrorId "Please enter a number between 1 and 99" st)
    else (isValid, st) in
  let selectedTables := getSelectedTables (tablesGrid st) in
  let '(isValid, st) :=
    if Nat.eqb (List.length selectedTables) 0
    then (false, showError tablesErrorId "Please select at least one times table" st)
    else (isValid, st) in
  (isValid, st).

(** [renderWorksheet(questions)] and [renderAnswers(questions)] *)
Definition renderWorksheet (questions : list Question) (st : App) : App :=
  st {{ questionsList := renderWorksheet Math_pow questions }}.

Definition renderAnswers (questions : list Question) (st : App) : App :=
  st {{ answersList := renderAnswers questions }}.

(** The loop [for (let i = 0; i < numQuestions; i++)]; it does not run
    when [numQuestions] is NaN. *)
Definition generateLoop (st : App) : option (list Question) * App :=
  let numQuestions := numQuestionsValue st in
  let selectedTables := getSelectedTables (tablesGrid st) in
  let includeDivision := includeDivisionChecked st in
  let '(questions, random) :=
    generateQuestions (match numQuestions with Some n => Z.to_nat n | None => O end)
      selectedTables includeDivision (randomSource st) in
  (definedQuestions questions, st {{ randomSource := random }}).

(** [generateWorksheet()] *)
Definition generateWorksheet (st : App) : option App :=
  let '(isValid, st) := validateInputs st in
  if negb isValid then Some st
  else
    let '(questions, st) := generateLoop st in
    match questions with
    | None => None
    | Some questions =>
        let st := st {{ currentQuestions := questions }} in
        let st := renderWorksheet (currentQuestions st) st in
        Some (renderAnswers (currentQuestions st) st)
    end.

(** [updatePresentationLayout()] *)
Definition updatePresentationLayout (st : App) : App :=
  if String.eqb (overlayDisplay st) "none" then st
  else if Nat.eqb (List.length (currentQuestions st)) 0 then st
  else
    let layout :=
      calculatePresentationLayout (innerHeight st)
        (Z.of_nat (List.length (currentQuestions st))) in
    st {{ presentationColumnsVar := Some (presentationColumns layout);
          presentationFontSizeVar := Some (fontSizePx layout) }}.

(** [renderPresentationWorksheet(questions, showAnswers)] *)
Definition renderPresentationWorksheet (questions : list Question) (showAnswers : bool)
  (st : App) : App :=
  let st := st {{ presentationQuestionsList := presentationItems 0 questions showAnswers }} in
  updatePresentationLayout st.

(** [updateAnswersToggleButton()] *)
Definition updateAnswersToggleButton (st : App) : App :=
  if presentationAnswersVisible st
  then st {{ toggleAnswersBtnText := "Hide answers"%string }}
  else st {{ toggleAnswersBtnText := "Show answers"%string }}.

(** [togglePresentationAnswers()] *)
Definition togglePresentationAnswers (st : App) : App :=
  let st := st {{ presentationAnswersVisible := negb (presentationAnswersVisible st) }} in
  let st := renderPresentationWorksheet (currentQuestions st) (presentationAnswersVisible st) st in
  updateAnswersToggleButton st.

(** [toggleFullscreen()], up to the promise, and the callbacks of the
    two promises. *)
Definition toggleFullscreen (st : App) : App :=
  if negb (fullscreenElement st)
  then st {{ fullscreenRequests := fullscreenRequests st ++ [RequestFullscreen] }}
  else st {{ fullscreenRequests := fullscreenRequests st ++ [ExitFullscreenFromToggle] }}.

Definition requestFullscreenDone (st : App) : App :=
  st {{ fullscreenBtnText := "Exit full screen"%string }}.

Definition requestFullscreenFailed (st : App) : App :=
  st {{ fullscreenBtnDisplay := "none"%string }}.

Definition exitFullscreenDone (st : App) : App :=
  st {{ fullscreenBtnText := "Go full screen"%string }}.

(** [setupPresentationEventListeners()] *)
Definition setupPresentationEventListeners (st : App) : App :=
  if listenersSetup st then st
  else
    let st := st {{ closeBtnListens := true }} in
    let st := st {{ toggleAnswersBtnListens := true }} in
    let st :=
      if fullscreenEnabled st
      then st {{ fullscreenBtnListens := true;
                 fullscreenchangeTextListeners := S (fullscreenchangeTextListeners st) }}
      else st {{ fullscreenBtnDisplay := "none"%string }} in
    st {{ listenersSetup := true }}.

(** [removePresentationResizeHandler()] *)
Definition removePresentationResizeHandler (st : App) : App :=
  match presentationResizeHandler st with
  | Some h =>
      st {{ windowResizeListeners := removeListener h (windowResizeListeners st);
            fullscreenchangeResizeListeners :=
              removeListener h (fullscreenchangeResizeListeners st);
            presentationResizeHandler := None }}
  | None => st
  end.

(** [setupPresentationResizeHandler()]: the new closure [h] starts with
    its [resizeTimeout] undefined. *)
Definition setupPresentationResizeHandler (st : App) : App :=
  let st := removePresentationResizeHandler st in
  let h := nextClosure st in
  st {{ nextClosure := S h;
        resizeTimeout := fun c => if Nat.eqb c h then None else resizeTimeout st c;
        presentationResizeHandler := Some h;
        windowResizeListeners := addListener h (windowResizeListeners st);
        fullscreenchangeResizeListeners :=
          addListener h (fullscreenchangeResizeListeners st) }}.

(** The body of the closure [presentationResizeHandler]. *)
Definition resizeHandlerBody (h : nat) (st : App) : App :=
  let st := clearTimeout (resizeTimeout st h) st in
  let '(t, st) := setTimeout ResizeUpdate 150 st in
  st {{ resizeTimeout := fun c => if Nat.eqb c h then Some t else resizeTimeout st c }}.

(** [removePresentationKeyboardShortcuts()] *)
Definition removePresentationKeyboardShortcuts (st : App) : App :=
  match presentationKeyboardHandler st with
  | Some h =>
      st {{ keydownListeners := removeListener h (keydownListeners st);
            presentationKeyboardHandler := None }}
  | None => st
  end.

(** [setupPresentationKeyboardShortcuts()] *)
Definition setupPresentationKeyboardShortcuts (st : App) : App :=
  let st := removePresentationKeyboardShortcuts st in
  let h := nextClosure st in
  st {{ nextClosure := S h;
        presentationKeyboardHandler := Some h;
        keydownListeners := addListener h (keydownListeners st) }}.

(** [setupHelpTooltip()] *)
Definition setupHelpTooltip (st : App) : App :=
  if negb (helpBtnExists st) || negb (helpTooltipExists st) then st
  else st {{ helpBtnClickListeners := S (helpBtnClickListeners st) }}.

(** [removeClickOutsideHandler()] *)
Definition removeClickOutsideHandler (st : App) : App :=
  match helpTooltipClickOutsideHandler st with
  | Some h =>
      st {{ documentClickListeners := removeListener h (documentClickListeners st);
            helpTooltipClickOutsideHandler := None }}
  | None => st
  end.

(** [setupClickOutsideHandler()] *)
Definition setupClickOutsideHandler (st : App) : App :=
  let st := removeClickOutsideHandler st in
  let h := nextClosure st in
  let st := st {{ nextClosure := S h; helpTooltipClickOutsideHandler := Some h }} in
  snd (setTimeout AddClickOutside 0 st).

(** [showHelpTooltip()] *)
Definition showHelpTooltip (st : App) : App :=
  if negb (helpTooltipExists st) then st
  else
    let st := st {{ helpTooltipFadeOut := false }} in
    let st := st {{ helpTooltipDisplay := "block"%string }} in
    setupClickOutsideHandler st.

(** [hideHelpTooltip()] *)
Definition hideHelpTooltip (st : App) : App :=
  if negb (helpTooltipExists st) then st
  else
    let st := st {{ helpTooltipFadeOut := true }} in
    let st := snd (setTimeout HideTooltip 200 st) in
    removeClickOutsideHandler st.

(** [toggleHelpTooltip()] *)
Definition toggleHelpTooltip (st : App) : App :=
  if negb (helpTooltipExists st) then st
  else
    let isVisible := negb (String.eqb (helpTooltipDisplay st) "none") in
    if isVisible then hideHelpTooltip st else showHelpTooltip st.

(** [autoShowHelpTooltip()] *)
Definition autoShowHelpTooltip (st : App) : App :=
  let st :=
    match helpTooltipAutoShowTimeout st with
    | Some t => clearTimeout (Some t) st
    | None => st
    end in
  let st := showHelpTooltip st in
  let '(t, st) := setTimeout AutoHideTooltip 3000 st in
  st {{ helpTooltipAutoShowTimeout := Some t }}.

(** [removeHelpTooltip()] *)
Definition removeHelpTooltip (st : App) : App :=
  let st :=
    match helpTooltipAutoShowTimeout st with
    | Some t =>
        let st := clearTimeout (Some t) st in
        st {{ helpTooltipAutoShowTimeout := None }}
    | None => st
    end in
  let st := removeClickOutsideHandler st in
  if helpTooltipExists st
  then st {{ helpTooltipDisplay := "none"%string; helpTooltipFadeOut := false }}
  else st.

(** [openPresentationMode()] *)
Definition openPresentationMode (st : App) : App :=
  if Nat.eqb (List.length (currentQuestions st)) 0 then st
  else
    let st := st {{ overlayDisplay := "flex"%string }} in
    let st := st {{ presentationAnswersVisible := false }} in
    let st := updateAnswersToggleButton st in
    let st := renderPresentationWorksheet (currentQuestions st) false st in
    let st := setupPresentationEventListeners st in
    let st := setupPresentationResizeHandler st in
    let st := setupPresentationKeyboardShortcuts st in
    let st := setupHelpTooltip st in
    let st := st {{ activeElement := "closePresentationBtn"%string }} in
    st {{ bodyOverflow := "hidden"%string }}.

(** [closePresentationMode()] *)
Definition closePresentationMode (st : App) : App :=
  let st := st {{ overlayDisplay := "none"%string }} in
  let st := st {{ bodyOverflow := ""%string }} in
  let st := removePresentationResizeHandler st in
  let st := removePresentationKeyboardShortcuts st in
  let st := removeHelpTooltip st in
  if fullscreenElement st
  then st {{ fullscreenRequests := fullscreenRequests st ++ [ExitFullscreenFromClose] }}
  else st.

(** [handleGenerate()] *)
Definition handleGenerate (st : App) : option App :=
  match generateWorksheet st with
  | None => None
  | Some st =>
      if (0 <? List.length (currentQuestions st))%nat
      then Some (openPresentationMode st)
      else Some st
  end.

(** [handleDownload()] *)
Definition handleDownload (st : App) : option App :=
  let '(isValid, st) := validateInputs st in
  if negb isValid then Some st
  else
    let '(pdfQuestions, st) := generateLoop st in
    match pdfQuestions with
    | None => None
    | Some pdfQuestions =>
        let st := st {{ currentQuestions := pdfQuestions }} in
        let st := renderWorksheet pdfQuestions st in
        let st := renderAnswers pdfQuestions st in
        Some (st {{ savedPdfs :=
                      savedPdfs st
                      ++ [downloadWorksheetPdf Math_pow pageWidth pageHeight
                            splitTextToSize getTextWidth timestamp pdfQuestions] }})
    end.

(** The body of the closure [presentationKeyboardHandler]; the flag
    tells whether [event.preventDefault()] was called. *)
Definition keyboardHandlerBody (event : KeyEvent) (st : App) : bool * App :=
  if String.eqb (overlayDisplay st) "none" then (false, st)
  else if String.eqb (targetTagName event) "INPUT"
          || String.eqb (targetTagName event) "TEXTAREA"
          || targetIsContentEditable event
  then (false, st)
  else
    let k := String_toLowerCase (key event) in
    if String.eqb k "a" then (true, togglePresentationAnswers st)
    else if String.eqb k "f" then (true, toggleFullscreen st)
    else if String.eqb k "escape" then (true, closePresentationMode st)
    else (false, st).

(** The body of the closure [helpTooltipClickOutsideHandler];
    [inTooltip] and [inHelpBtn] say where the click landed. *)
Definition clickOutsideBody (inTooltip inHelpBtn : bool) (st : App) : App :=
  if helpTooltipExists st && inTooltip then st
  else if helpBtnExists st && inHelpBtn then st
  else hideHelpTooltip st.

(** The callback of a timer. *)
Definition runCallback (callback : Callback) (st : App) : App :=
  match callback with
  | ResizeUpdate =>
      if negb (String.eqb (overlayDisplay st) "none")
      then updatePresentationLayout st
      else st
  | HideTooltip =>
      st {{ helpTooltipDisplay := "none"%string; helpTooltipFadeOut := false }}
  | AddClickOutside =>
      match helpTooltipClickOutsideHandler st with
      | Some h => st {{ documentClickListeners := addListener h (documentClickListeners st) }}
      | None => st
      end
  | AutoHideTooltip =>
      let st := hideHelpTooltip st in
      st {{ helpTooltipAutoShowTimeout := None }}
  end.

(** *** What the browser does *)

(** A pending timer fires: it leaves the list and its callback runs. *)
Definition timerFires (id : nat) (st : App) : App :=
  match find (fun t => Nat.eqb (timerId t) id) (timers st) with
  | None => st
  | Some t =>
      let st := st {{ timers := filter (fun t => negb (Nat.eqb (timerId t) id)) (timers st);
                      clock := Z.max (clock st) (timerDue t) }} in
      runCallback (timerCallback t) st
  end.

(** An event is dispatched to the listeners registered when it starts;
    one removed meanwhile is skipped. *)
Definition dispatch (listeners : App -> list nat) (body : nat -> App -> App) (st : App)
  : App :=
  fold_left (fun st h => if existsb (Nat.eqb h) (listeners st) then body h st else st)
            (listeners st) st.

(** The window is resized to a new height at a given time. *)
Definition windowResized (time : Z) (height : Q) (st : App) : App :=
  let st := st {{ clock := Z.max (clock st) time; innerHeight := height }} in
  dispatch windowResizeListeners resizeHandlerBody st.

(** A key goes down. *)
Definition keydown (event : KeyEvent) (st : App) : App :=
  dispatch keydownListeners (fun _ st => snd (keyboardHandlerBody event st)) st.

(** A click on the help button runs each of its listeners; they stop
    the click from reaching the document. *)
Definition helpBtnClicked (st : App) : App :=
  Nat.iter (helpBtnClickListeners st) toggleHelpTooltip st.

(** A click elsewhere reaches the listeners of the document. *)
Definition documentClicked (inTooltip : bool) (st : App) : App :=
  dispatch documentClickListeners (fun _ => clickOutsideBody inTooltip false) st.

(** The buttons of the overlay, when their listeners are set up. *)
Definition closeBtnClicked (st : App) : App :=
  if closeBtnListens st then closePresentationMode st else st.

Definition toggleAnswersBtnClicked (st : App) : App :=
  if toggleAnswersBtnListens st then togglePresentationAnswers st else st.

Definition fullscreenBtnClicked (st : App) : App :=
  if fullscreenBtnListens st then toggleFullscreen st else st.

(** The body of the anonymous [fullscreenchange] listener of
    [setupPresentationEventListeners]. *)
Definition fullscreenTextBody (st : App) : App :=
  if fullscreenElement st
  then st {{ fullscreenBtnText := "Exit full screen"%string }}
  else st {{ fullscreenBtnText := "Go full screen"%string }}.

(** The document enters or leaves fullscreen and [fullscreenchange]
    is dispatched. *)
Definition fullscreenChanged (active : bool) (st : App) : App :=
  let st := st {{ fullscreenElement := active }} in
  let st := Nat.iter (fullscreenchangeTextListeners st) fullscreenTextBody st in
  dispatch fullscreenchangeResizeListeners resizeHandlerBody st.

(** The oldest pending fullscreen promise settles. *)
Definition fullscreenSettled (fulfilled : bool) (st : App) : App :=
  match fullscreenRequests st with
  | [] => st
  | request :: rest =>
      let st := st {{ fullscreenRequests := rest }} in
      match request, fulfilled with
      | RequestFullscreen, true => requestFullscreenDone st
      | RequestFullscreen, false => requestFullscreenFailed st
      | ExitFullscreenFromToggle, true => exitFullscreenDone st
      | _, _ => st
      end
  end.

(** *** The page as a transition system *)

Inductive PageEvent : Type :=
| FormEdited (numQuestions : option Z) (grid : list Checkbox) (includeDivision : bool)
| PresentClicked
| DownloadClicked
| CloseClicked
| ToggleAnswersClicked
| FullscreenClicked
| HelpClicked
| DocumentClicked (inTooltip : bool)
| KeyDown (event : KeyEvent)
| WindowResized (time : Z) (height : Q)
| TimerFired (id : nat)
| FullscreenChanged (active : bool)
| FullscreenSettled (fulfilled : bool).

Definition pageStep (st : App) (e : PageEvent) : option App :=
  match e with
  | FormEdited numQuestions grid includeDivision =>
      Some (st {{ numQuestionsValue := numQuestions;
                  tablesGrid := grid;
                  includeDivisionChecked := includeDivision }})
  | PresentClicked => handleGenerate st
  | DownloadClicked => handleDownload st
  | CloseClicked => Some (closeBtnClicked st)
  | ToggleAnswersClicked => Some (toggleAnswersBtnClicked st)
  | FullscreenClicked => Some (fullscreenBtnClicked st)
  | HelpClicked => Some (helpBtnClicked st)
  | DocumentClicked inTooltip => Some (documentClicked inTooltip st)
  | KeyDown event => Some (keydown event st)
  | WindowResized time height => Some (windowResized time height st)
  | TimerFired id => Some (timerFires id st)
  | FullscreenChanged active => Some (fullscreenChanged active st)
  | FullscreenSettled fulfilled => Some (fullscreenSettled fulfilled st)
  end.

Fixpoint pageRun (events : list PageEvent) (st : App) : option App :=
  match events with
  | [] => Some st
  | e :: rest =>
      match pageStep st e with
      | Some st => pageRun rest st
      | None => None
      end
  end.

End Handlers.

End Dom.

(** The page right after [initializeApp()]: the script's variables
    have their initial values, nothing is registered beyond the
    listeners of the form, no timer is pending. *)
Definition freshPage (st : Dom.App) : Prop :=
  Dom.currentQuestions st = []
  /\ Dom.presentationAnswersVisible st = false
  /\ Dom.presentationResizeHandler st = None
  /\ Dom.presentationKeyboardHandler st = None
  /\ Dom.helpTooltipAutoShowTimeout st = None
  /\ Dom.helpTooltipClickOutsideHandler st = None
  /\ Dom.timers st = []
  /\ Dom.windowResizeListeners st = []
  /\ Dom.fullscreenchangeResizeListeners st = []
  /\ Dom.fullscreenchangeTextListeners st = O
  /\ Dom.keydownListeners st = []
  /\ Dom.documentClickListeners st = []
  /\ Dom.helpBtnClickListeners st = O
  /\ Dom.closeBtnListens st = false
  /\ Dom.toggleAnswersBtnListens st = false
  /\ Dom.fullscreenBtnListens st = false
  /\ Dom.listenersSetup st = false
  /\ Dom.fullscreenRequests st = []
  /\ Dom.savedPdfs st = [].

(** A fresh page with the default form: ten questions, the tables 2
    to 12, division included. *)
Definition sample_page : Dom.App :=
  {| Dom.numQuestionsValue := Some 10;
     Dom.tablesGrid := createTimesTableCheckboxes;
     Dom.includeDivisionChecked := true;
     Dom.randomSource := sample_draws;
     Dom.innerHeight := 900;
     Dom.fullscreenEnabled := true;
     Dom.fullscreenElement := false;
     Dom.clock := 0;
     Dom.helpBtnExists := true;
     Dom.helpTooltipExists := true;
     Dom.currentQuestions := [];
     Dom.presentationAnswersVisible := false;
     Dom.presentationResizeHandler := None;
     Dom.presentationKeyboardHandler := None;
     Dom.helpTooltipAutoShowTimeout := None;
     Dom.helpTooltipClickOutsideHandler := None;
     Dom.nextClosure := O;
     Dom.resizeTimeout := fun _ => None;
     Dom.nextTimer := 1%nat;
     Dom.timers := [];
     Dom.windowResizeListeners := [];
     Dom.fullscreenchangeResizeListeners := [];
     Dom.fullscreenchangeTextListeners := O;
     Dom.keydownListeners := [];
     Dom.documentClickListeners := [];
     Dom.helpBtnClickListeners := O;
     Dom.closeBtnListens := false;
     Dom.toggleAnswersBtnListens := false;
     Dom.fullscreenBtnListens := false;
     Dom.numQuestionsError := ""%string;
     Dom.tablesError := ""%string;
     Dom.questionsList := mkWorksheetView 0 0 0 [];
     Dom.answersList := [];
     Dom.overlayDisplay := "none"%string;
     Dom.presentationColumnsVar := None;
     Dom.presentationFontSizeVar := None;
     Dom.presentationQuestionsList := [];
     Dom.toggleAnswersBtnText := "Show answers"%string;
     Dom.fullscreenBtnText := "Go full screen"%string;
     Dom.fullscreenBtnDisplay := ""%string;
     Dom.listenersSetup := false;
     Dom.bodyOverflow := ""%string;
     Dom.activeElement := "body"%string;
     Dom.helpTooltipDisplay := "none"%string;
     Dom.helpTooltipFadeOut := false;
     Dom.fullscreenRequests := [];
     Dom.savedPdfs := [] |}.

(** The listeners of the presentation are those of the closures the
    script still holds, and it holds none while the overlay is
    hidden. *)
Definition heldListener (handler : option nat) : list nat :=
  match handler with
  | Some h => [h]
  | None => []
  end.

Definition listenersTidy (st : Dom.App) : Prop :=
  Dom.windowResizeListeners st = heldListener (Dom.presentationResizeHandler st)
  /\ Dom.fullscreenchangeResizeListeners st = heldListener (Dom.presentationResizeHandler st)
  /\ Dom.keydownListeners st = heldListener (Dom.presentationKeyboardHandler st)
  /\ (Dom.documentClickListeners st = []
      \/ Dom.documentClickListeners st = heldListener (Dom.helpTooltipClickOutsideHandler st))
  /\ (Dom.overlayDisplay st = "none"%string ->
      Dom.presentationResizeHandler st = None
      /\ Dom.presentationKeyboardHandler st = None).

Definition gridInvariant (grid : list Checkbox) : Prop :=
  map cbValue grid = Z_range 1 20
  /\ Forall (fun c => cbHighlighted c = cbChecked c) grid.


(* ================================================================== *)
(** ** Reasoning about page states *)

(** Reads a field through the updates before it. *)
Ltac simpl_state :=
  cbn [apply_update constant fst snd negb andb orb Dom.set_numQuestionsValue Dom.set_tablesGrid
       Dom.set_includeDivisionChecked Dom.set_randomSource Dom.set_innerHeight
       Dom.set_fullscreenEnabled Dom.set_fullscreenElement Dom.set_clock Dom.set_helpBtnExists
       Dom.set_helpTooltipExists Dom.set_currentQuestions Dom.set_presentationAnswersVisible
       Dom.set_presentationResizeHandler Dom.set_presentationKeyboardHandler
       Dom.set_helpTooltipAutoShowTimeout Dom.set_helpTooltipClickOutsideHandler
       Dom.set_nextClosure Dom.set_resizeTimeout Dom.set_nextTimer Dom.set_timers
       Dom.set_windowResizeListeners Dom.set_fullscreenchangeResizeListeners
       Dom.set_fullscreenchangeTextListeners Dom.set_keydownListeners
       Dom.set_documentClickListeners Dom.set_helpBtnClickListeners Dom.set_closeBtnListens
       Dom.set_toggleAnswersBtnListens Dom.set_fullscreenBtnListens Dom.set_numQuestionsError
       Dom.set_tablesError Dom.set_questionsList Dom.set_answersList Dom.set_overlayDisplay
       Dom.set_presentationColumnsVar Dom.set_presentationFontSizeVar
       Dom.set_presentationQuestionsList Dom.set_toggleAnswersBtnText Dom.set_fullscreenBtnText
       Dom.set_fullscreenBtnDisplay Dom.set_listenersSetup Dom.set_bodyOverflow
       Dom.set_activeElement Dom.set_helpTooltipDisplay Dom.set_helpTooltipFadeOut
       Dom.set_fullscreenRequests Dom.set_savedPdfs Dom.numQuestionsValue Dom.tablesGrid
       Dom.includeDivisionChecked Dom.randomSource Dom.innerHeight Dom.fullscreenEnabled
       Dom.fullscreenElement Dom.clock Dom.helpBtnExists Dom.helpTooltipExists
       Dom.currentQuestions Dom.presentationAnswersVisible Dom.presentationResizeHandler
       Dom.presentationKeyboardHandler Dom.helpTooltipAutoShowTimeout
       Dom.helpTooltipClickOutsideHandler Dom.nextClosure Dom.resizeTimeout Dom.nextTimer
       Dom.timers Dom.windowResizeListeners Dom.fullscreenchangeResizeListeners
       Dom.fullscreenchangeTextListeners Dom.keydownListeners Dom.documentClickListeners
       Dom.helpBtnClickListeners Dom.closeBtnListens Dom.toggleAnswersBtnListens
       Dom.fullscreenBtnListens Dom.numQuestionsError Dom.tablesError Dom.questionsList
       Dom.answersList Dom.overlayDisplay Dom.presentationColumnsVar Dom.presentationFontSizeVar
       Dom.presentationQuestionsList Dom.toggleAnswersBtnText Dom.fullscreenBtnText
       Dom.fullscreenBtnDisplay Dom.listenersSetup Dom.bodyOverflow Dom.activeElement
       Dom.helpTooltipDisplay Dom.helpTooltipFadeOut Dom.fullscreenRequests Dom.savedPdfs] in *;
  unfold Dom.numQuestionsValue, Dom.tablesGrid, Dom.includeDivisionChecked, Dom.randomSource,
    Dom.innerHeight, Dom.fullscreenEnabled, Dom.fullscreenElement, Dom.clock,
    Dom.helpBtnExists, Dom.helpTooltipExists, Dom.currentQuestions,
    Dom.presentationAnswersVisible, Dom.presentationResizeHandler,
    Dom.presentationKeyboardHandler, Dom.helpTooltipAutoShowTimeout,
    Dom.helpTooltipClickOutsideHandler, Dom.nextClosure, Dom.resizeTimeout, Dom.nextTimer,
    Dom.timers, Dom.windowResizeListeners, Dom.fullscreenchangeResizeListeners,
    Dom.fullscreenchangeTextListeners, Dom.keydownListeners, Dom.documentClickListeners,
    Dom.helpBtnClickListeners, Dom.closeBtnListens, Dom.toggleAnswersBtnListens,
    Dom.fullscreenBtnListens, Dom.numQuestionsError, Dom.tablesError, Dom.questionsList,
    Dom.answersList, Dom.overlayDisplay, Dom.presentationColumnsVar,
    Dom.presentationFontSizeVar, Dom.presentationQuestionsList, Dom.toggleAnswersBtnText,
    Dom.fullscreenBtnText, Dom.fullscreenBtnDisplay, Dom.listenersSetup, Dom.bodyOverflow,
    Dom.activeElement, Dom.helpTooltipDisplay, Dom.helpTooltipFadeOut, Dom.fullscreenRequests,
    Dom.savedPdfs in *;
  repeat match goal with
         | |- context [@constant ?E ?v ?x] => change (@constant E v x) with v
         end;
  cbv beta.

Ltac by_branches st :=
  cbv zeta; destruct st;
  repeat (simpl_state;
          first
            [ match goal with
              | |- context [match ?x with Some _ => _ | None => _ end] => is_var x; destruct x
              end
            | match goal with
              | |- context [if ?b then _ else _] => is_var b; destruct b
              end
            | match goal with
              | |- context [negb ?b] => is_var b; destruct b
              | |- context [andb ?b _] => is_var b; destruct b
              | |- context [orb ?b _] => is_var b; destruct b
              | |- context [andb _ ?b] => is_var b; destruct b
              | |- context [orb _ ?b] => is_var b; destruct b
              end ]);
  repeat (simpl_state;
          match goal with
          | |- context [if ?b then _ else _] => destruct b
          | |- context [match ?x with Some _ => _ | None => _ end] => destruct x
          end);
  reflexivity.

(** Closes a goal about a state from the same fact about the state
    before, when the handler in between leaves alone the fields the
    fact reads; [frame] says which fields these are. *)
Ltac frame_by frame := eapply frame; [reflexivity .. | assumption].

(** A burst of resize events, each with its time and the new window
    height. *)
Definition resizeBurst (resizes : list (Z * Q)) (st : Dom.App) : Dom.App :=
  fold_left (fun st r => Dom.windowResized (fst r) (snd r) st) resizes st.

(** The pending timers whose callback is the layout update that the
    resize handler schedules. *)
Definition isLayoutUpdate (t : Dom.Timer) : bool :=
  match Dom.timerCallback t with
  | Dom.ResizeUpdate => true
  | _ => false
  end.

Definition pendingLayoutUpdates (st : Dom.App) : list Dom.Timer :=
  filter isLayoutUpdate (Dom.timers st).

(** The state between two events of a burst, seen from the state
    [st0] before it: the closure [h] is the only resize listener and
    its timer [i] is the newest one. *)
Definition debouncing (h i : nat) (kept : list Dom.Timer) (st0 st : Dom.App) : Prop :=
  Dom.windowResizeListeners st = [h]
  /\ Dom.resizeTimeout st h = Some i
  /\ Dom.timers st = kept ++ [Dom.mkTimer i (Dom.clock st + 150) Dom.ResizeUpdate]
  /\ Dom.nextTimer st = S i
  /\ Dom.overlayDisplay st = Dom.overlayDisplay st0
  /\ Dom.currentQuestions st = Dom.currentQuestions st0.

(** The sample page with a worksheet already generated. *)
Definition sample_generated : Dom.App :=
  sample_page {{ Dom.currentQuestions := sample_questions }}.

(** A session on the sample page. *)
Definition sample_session : list Dom.PageEvent :=
  [Dom.PresentClicked;
   Dom.WindowResized 20 700;
   Dom.HelpClicked;
   Dom.KeyDown (Dom.mkKeyEvent "A" "BODY" false);
   Dom.TimerFired 1;
   Dom.KeyDown (Dom.mkKeyEvent "Escape" "BODY" false);
   Dom.PresentClicked;
   Dom.HelpClicked].

(* ================================================================== *)
(** ** Bounded checks *)

(** [forall_range lo len p]: [p] holds of [lo], [lo + 1], ..., [len] values. *)
Fixpoint forall_range (lo : Z) (len : nat) (p : Z -> bool) : bool :=
  match len with
  | O => true
  | S k => p lo && forall_range (lo + 1) k p
  end.

(** Linear arithmetic over tenths: [lra] after [x / 10] is turned into
    a product. *)
Ltac tenths :=
  unfold Qdiv in *; change (/ 10)%Q with (1 # 10)%Q in *; lra.

(* ================================================================== *)
(** * Properties *)

(** ** Rounding and comparison *)

Lemma Qltb_spec (x y : Q) : Qltb x y = true <-> (x < y)%Q.
Proof.
  unfold Qltb. rewrite negb_true_iff. split; intro H.
  - apply Qnot_le_lt. intro Hle. apply Qle_bool_iff in Hle. congruence.
  - destruct (Qle_bool y x) eqn:E; [|reflexivity].
    apply Qle_bool_iff in E. exfalso. apply (Qlt_not_le _ _ H E).
Qed.

Lemma Qgtb_spec (x y : Q) : Qgtb x y = true <-> (y < x)%Q.
Proof. unfold Qgtb. apply Qltb_spec. Qed.

Lemma Qgtb_false (x y : Q) : Qgtb x y = false <-> (x <= y)%Q.
Proof.
  split; intro H.
  - apply Qnot_lt_le. intro Hlt. apply Qgtb_spec in Hlt. congruence.
  - destruct (Qgtb x y) eqn:E; [|reflexivity].
    apply Qgtb_spec in E. exfalso. apply (Qlt_not_le _ _ E H).
Qed.

Lemma Math_round_mono (x y : Q) : (x <= y)%Q -> Math_round x <= Math_round y.
Proof. intro H. unfold Math_round. apply Qfloor_resp_le. lra. Qed.

Lemma Math_round_upper (x : Q) : (inject_Z (Math_round x) <= x + (1 # 2))%Q.
Proof. unfold Math_round. apply Qfloor_le. Qed.

Lemma Math_round_lower (x : Q) : (x - (1 # 2) < inject_Z (Math_round x))%Q.
Proof.
  unfold Math_round. pose proof (Qlt_floor (x + (1 # 2))) as H.
  rewrite inject_Z_plus in H. change (inject_Z 1) with 1%Q in H. lra.
Qed.

Lemma inject_Z_le (a b : Z) : a <= b -> (inject_Z a <= inject_Z b)%Q.
Proof. intro H. rewrite <- Zle_Qle. exact H. Qed.

(** Rounding to one decimal, as [Math.round(x * 10) / 10]. *)
Lemma round1_upper (x : Q) : (inject_Z (Math_round (x * 10)) / 10 <= x + (1 # 20))%Q.
Proof. pose proof (Math_round_upper (x * 10)). tenths. Qed.

Lemma round1_lower (x : Q) : (x - (1 # 20) < inject_Z (Math_round (x * 10)) / 10)%Q.
Proof. pose proof (Math_round_lower (x * 10)). tenths. Qed.

Lemma round1_mono (x y : Q) :
  (x <= y)%Q -> (inject_Z (Math_round (x * 10)) / 10 <= inject_Z (Math_round (y * 10)) / 10)%Q.
Proof.
  intro H. assert (Math_round (x * 10) <= Math_round (y * 10)) as Hr
    by (apply Math_round_mono; lra).
  apply inject_Z_le in Hr. tenths.
Qed.

Lemma Math_max_lb_l (x y : Q) : (x <= Math_max x y)%Q.
Proof. apply Q.le_max_l. Qed.

Lemma Math_max_lub (x y z : Q) : (x <= z)%Q -> (y <= z)%Q -> (Math_max x y <= z)%Q.
Proof. apply Q.max_lub. Qed.

Lemma Math_min_le_l (x y : Q) : (Math_min x y <= x)%Q.
Proof. apply Q.le_min_l. Qed.

Lemma Math_min_le_r (x y : Q) : (Math_min x y <= y)%Q.
Proof. apply Q.le_min_r. Qed.

(** The two clamps of the print font: the result stays in [9.5, 20]
    whatever the interpolated size is, and is capped by the line-height
    bound unless the floor takes over. *)
Lemma clamp_font_bounds (f cap : Q) :
  let c := Math_max (19 # 2) (Math_min 20 (Math_min f cap)) in
  ((19 # 2) <= c /\ c <= 20 /\ c <= Math_max (19 # 2) cap)%Q.
Proof.
  intro c. subst c. repeat split.
  - apply Math_max_lb_l.
  - apply Math_max_lub; [lra | apply Math_min_le_l].
  - apply Math_max_lub; [apply Math_max_lb_l|].
    eapply Qle_trans; [apply Math_min_le_r|].
    eapply Qle_trans; [apply Math_min_le_r|].
    unfold Math_max. apply Q.le_max_r.
Qed.

(** ** Checking a property on every count of a range *)
Lemma forall_range_sound (p : Z -> bool) :
  forall len lo, forall_range lo len p = true ->
  forall n, lo <= n < lo + Z.of_nat len -> p n = true.
Proof.
  induction len as [|len IH]; intros lo H n Hn.
  - simpl in Hn. lia.
  - simpl in H. apply andb_true_iff in H as [Hlo Hrest].
    destruct (Z.eq_dec n lo) as [->|Hne]; [exact Hlo|].
    apply (IH (lo + 1) Hrest). lia.
Qed.

Lemma all_counts (p : Z -> bool) :
  forall_range 1 99 p = true -> forall n, 1 <= n <= 99 -> p n = true.
Proof. intros H n Hn. apply (forall_range_sound p 99 1 H). lia. Qed.

(* ================================================================== *)
(** ** Print layout *)

Section PrintLayoutFacts.

Variable Math_pow : Q -> Q -> Q.

Lemma columns_unfold (n : Z) :
  columns (calculateOptimalLayout Math_pow n) =
    if n <=? 5 then 1
    else if n <=? 10 then 2
    else if n <=? 20 then 2
    else if n <=? 33 then 3
    else if n <=? 50 then 3
    else if n <=? 66 then 3
    else if (Z.rem n 3 =? 0) || (n >=? 90) then 3
    else 4.
Proof. reflexivity. Qed.

Lemma fontSize_unfold (n : Z) :
  fontSize (calculateOptimalLayout Math_pow n) =
    (inject_Z (Math_round (l_clampedFontSize (layoutLocals Math_pow n) * 10)) / 10)%Q.
Proof. reflexivity. Qed.

Lemma lineHeight_unfold (n : Z) :
  lineHeight (calculateOptimalLayout Math_pow n) =
    (inject_Z (Math_round (l_finalLineHeight (layoutLocals Math_pow n) * 10)) / 10)%Q.
Proof. reflexivity. Qed.

(** Step 6, whatever the interpolated size of step 4 is. *)
Lemma clampedFontSize_bounds (n : Z) :
  let l := layoutLocals Math_pow n in
  ((19 # 2) <= l_clampedFontSize l /\ l_clampedFontSize l <= 20 /\
   l_clampedFontSize l <= Qmax (19 # 2) ((85 # 100) * l_lineHeight l))%Q.
Proof.
  intro l.
  pose proof (clamp_font_bounds (l_fontSize l) (l_maxFontFromLineHeight l)) as H.
  change (l_maxFontFromLineHeight l) with (l_lineHeight l * (85 # 100))%Q in H.
  cbv zeta in H. destruct H as (H1 & H2 & H3).
  repeat split; [exact H1 | exact H2 |].
  eapply Qle_trans; [exact H3|]. unfold Math_max.
  apply Q.max_le_compat_l. lra.
Qed.

(** Step 7 never lowers the line height. *)
Lemma finalLineHeight_ge (n : Z) :
  let l := layoutLocals Math_pow n in (l_lineHeight l <= l_finalLineHeight l)%Q.
Proof.
  intro l. subst l. unfold layoutLocals. cbn [l_lineHeight l_finalLineHeight].
  destruct (n <=? 5); [apply Q.le_max_l|].
  destruct (n <=? 10); [apply Q.le_max_l|]. apply Qle_refl.
Qed.

Lemma fontSize_bounds (n : Z) :
  ((19 # 2) <= fontSize (calculateOptimalLayout Math_pow n) /\
   fontSize (calculateOptimalLayout Math_pow n) <= 20)%Q.
Proof.
  rewrite fontSize_unfold.
  destruct (clampedFontSize_bounds n) as (Hlo & Hhi & _). split.
  - eapply Qle_trans; [|apply round1_mono; exact Hlo].
    vm_compute. discriminate.
  - eapply Qle_trans; [apply round1_mono; exact Hhi|].
    vm_compute. discriminate.
Qed.

Lemma lineHeight_positive (n : Z) :
  1 <= n <= 99 -> (0 < lineHeight (calculateOptimalLayout Math_pow n))%Q.
Proof.
  intro Hn. apply Qltb_spec.
  revert n Hn. apply all_counts. vm_compute. reflexivity.
Qed.

End PrintLayoutFacts.

(** C1.  The column count of the print layout is the step function of
    the question count: on 1..99 it is 1 up to 5, 2 on 6..20, 3 on
    21..66, and on 67..99 it is 3 when the count is a multiple of 3 or at
    least 90 and 4 otherwise; at the boundaries 5, 6, 20, 21, 66, 67, 69
    and 90 it is 1, 2, 2, 3, 3, 4, 3 and 3. *)
Theorem print_columns_step_function (Math_pow : Q -> Q -> Q) (n : Z) :
  1 <= n <= 99 ->
  let cols := fun k => columns (calculateOptimalLayout Math_pow k) in
  ((n <= 5 -> cols n = 1) /\
   (6 <= n <= 20 -> cols n = 2) /\
   (21 <= n <= 66 -> cols n = 3) /\
   (67 <= n -> n mod 3 = 0 \/ 90 <= n -> cols n = 3) /\
   (67 <= n -> n mod 3 <> 0 -> n < 90 -> cols n = 4)) /\
  (cols 5 = 1 /\ cols 6 = 2 /\ cols 20 = 2 /\ cols 21 = 3 /\
   cols 66 = 3 /\ cols 67 = 4 /\ cols 69 = 3 /\ cols 90 = 3).
Proof.
  intros Hn cols. split; [|repeat split].
  subst cols. cbv beta. rewrite columns_unfold.
  rewrite Z.rem_mod_nonneg by lia.
  destruct (Z.eqb_spec (n mod 3) 0) as [Hm|Hm];
    destruct (Z.geb_spec n 90) as [H90|H90]; cbn [orb];
    repeat match goal with
           | |- context [?a <=? ?b] => destruct (Z.leb_spec a b)
           end;
    repeat split; intros; try reflexivity; lia.
Qed.

Lemma print_columns_step_function_witness :
  1 <= 67 <= 99 /\
  columns (calculateOptimalLayout (fun _ _ => 0%Q) 67) = 4.
Proof.
  split; [lia|].
  refine (proj2 (proj2 (proj2 (proj2 (proj1
    (print_columns_step_function (fun _ _ => 0%Q) 67 _))))) _ _ _);
    [lia | lia | discriminate | lia].
Defined.

(** C2.  On every count of 1..99 the print layout returns a plan (the
    function is total) with 1, 2, 3 or 4 columns, a font size between
    9.5 and 20 and a positive line height. *)
Theorem print_layout_total_and_bounded (Math_pow : Q -> Q -> Q) (n : Z) :
  1 <= n <= 99 ->
  exists plan : LayoutPlan,
    calculateOptimalLayout Math_pow n = plan /\
    (columns plan = 1 \/ columns plan = 2 \/ columns plan = 3 \/ columns plan = 4) /\
    ((19 # 2) <= fontSize plan /\ fontSize plan <= 20)%Q /\
    (0 < lineHeight plan)%Q.
Proof.
  intro Hn. eexists. split; [reflexivity|]. split; [|split].
  - rewrite columns_unfold.
    repeat match goal with
           | |- context [if ?b then _ else _] => destruct b
           end; auto.
  - apply fontSize_bounds.
  - apply lineHeight_positive. exact Hn.
Qed.

Lemma print_layout_total_and_bounded_witness :
  1 <= 43 <= 99 /\
  exists plan : LayoutPlan,
    calculateOptimalLayout (fun _ _ => 1 # 2)%Q 43 = plan /\
    (columns plan = 1 \/ columns plan = 2 \/ columns plan = 3 \/ columns plan = 4) /\
    ((19 # 2) <= fontSize plan /\ fontSize plan <= 20)%Q /\
    (0 < lineHeight plan)%Q.
Proof.
  split; [lia|]. apply (print_layout_total_and_bounded (fun _ _ => 1 # 2)%Q 43). lia.
Defined.

(** C3, as stated, fails: for 66 questions the three columns hold 22
    rows of 11 mm, the 85% cap is 9.35 mm, and the floor of step 6 puts
    the font back to 9.5 mm, whatever [Math.pow] returns. *)
Lemma font_exceeds_line_height_cap_at_66 :
  ~ exists Math_pow : Q -> Q -> Q,
      (fontSize (calculateOptimalLayout Math_pow 66)
       <= (85 # 100) * lineHeight (calculateOptimalLayout Math_pow 66))%Q.
Proof.
  intros [Math_pow H].
  pose proof (proj1 (fontSize_bounds Math_pow 66)) as Hlo.
  assert (lineHeight (calculateOptimalLayout Math_pow 66) = (110 # 10)%Q) as Hl
    by (vm_compute; reflexivity).
  rewrite Hl in H. lra.
Qed.

(** C3, amended.  On every count of 1..99: before rounding, the clamped
    font size is at most the larger of the 9.5 mm floor and 85% of the
    line height of step 3 (the floor wins when they conflict); after
    rounding to one decimal, the returned font size is at most the larger
    of 9.5 and 85% of the returned line height plus 0.1. *)
Theorem print_font_capped_unless_floor (Math_pow : Q -> Q -> Q) (n : Z) :
  1 <= n <= 99 ->
  let l := layoutLocals Math_pow n in
  let plan := calculateOptimalLayout Math_pow n in
  (l_clampedFontSize l <= Qmax (19 # 2) ((85 # 100) * l_lineHeight l) /\
   fontSize plan <= Qmax (19 # 2) ((85 # 100) * lineHeight plan + (1 # 10)))%Q.
Proof.
  intros _ l plan.
  destruct (clampedFontSize_bounds Math_pow n) as (Hlo & _ & Hcap).
  fold l in Hlo, Hcap. split; [exact Hcap|].
  subst plan. rewrite fontSize_unfold, lineHeight_unfold. fold l.
  pose proof (finalLineHeight_ge Math_pow n) as Hfl. cbv zeta in Hfl. fold l in Hfl.
  pose proof (round1_lower (l_finalLineHeight l)) as Hdown.
  destruct (Q.max_spec (19 # 2) ((85 # 100) * l_lineHeight l)) as [[Hlt Heq]|[Hge Heq]];
    rewrite Heq in Hcap.
  - (* the cap applies *)
    eapply Qle_trans; [|apply Q.le_max_r].
    pose proof (round1_upper (l_clampedFontSize l)) as Hup. tenths.
  - (* the floor applies: the clamped size is exactly 9.5 *)
    eapply Qle_trans; [|apply Q.le_max_l].
    eapply Qle_trans; [apply round1_mono; exact Hcap|].
    vm_compute. discriminate.
Qed.

Lemma print_font_capped_unless_floor_witness :
  1 <= 66 <= 99 /\
  (l_clampedFontSize (layoutLocals (fun _ _ => 1) 66)
     <= Qmax (19 # 2) ((85 # 100) * l_lineHeight (layoutLocals (fun _ _ => 1) 66)) /\
   fontSize (calculateOptimalLayout (fun _ _ => 1) 66)
     <= Qmax (19 # 2)
          ((85 # 100) * lineHeight (calculateOptimalLayout (fun _ _ => 1) 66) + (1 # 10)))%Q.
Proof.
  split; [lia|]. apply (print_font_capped_unless_floor (fun _ _ => 1%Q) 66). lia.
Defined.

(** The slack of 0.1 in the amended C3 is needed: with 43 questions and
    any [Math.pow] whose value at 3/7 is at most 0.59 (the exact power is
    about 0.553), the font is rounded up to 13.7 mm while 85% of the
    returned 16.1 mm is 13.685 mm. *)
Lemma font_rounded_above_cap_at_43 (Math_pow : Q -> Q -> Q) :
  (Math_pow ((inject_Z 43 - 1) / (99 - 1)) (7 # 10) <= 59 # 100)%Q ->
  (fontSize (calculateOptimalLayout Math_pow 43) == 137 # 10 /\
   lineHeight (calculateOptimalLayout Math_pow 43) == 161 # 10 /\
   (85 # 100) * lineHeight (calculateOptimalLayout Math_pow 43)
     < fontSize (calculateOptimalLayout Math_pow 43))%Q.
Proof.
  intro Hp.
  assert (lineHeight (calculateOptimalLayout Math_pow 43) = (161 # 10)%Q) as Hl
    by (vm_compute; reflexivity).
  assert (l_clampedFontSize (layoutLocals Math_pow 43) == (242 # 15) * (85 # 100))%Q as Hc.
  { unfold layoutLocals. cbn [l_clampedFontSize].
    set (p := Math_pow _ _) in *.
    match goal with
    | |- context [Math_min (20 - _ * p) ?c] =>
        let v := eval vm_compute in c in change c with v
    end.
    unfold Math_min, Math_max.
    rewrite (Q.min_r (20 - (20 - (19 # 2)) * p) _)%Q by lra.
    rewrite Q.min_r by (vm_compute; discriminate).
    rewrite Q.max_r by (vm_compute; discriminate). vm_compute. reflexivity. }
  assert (fontSize (calculateOptimalLayout Math_pow 43) == 137 # 10)%Q as Hf.
  { rewrite fontSize_unfold.
    assert (Math_round (l_clampedFontSize (layoutLocals Math_pow 43) * 10) = 137) as ->.
    { unfold Math_round. 
      assert (l_clampedFontSize (layoutLocals Math_pow 43) * 10 + (1 # 2)
              == (242 # 15) * (85 # 100) * 10 + (1 # 2))%Q as Hq by (rewrite Hc; reflexivity).
      rewrite (Qfloor_comp _ _ Hq). vm_compute. reflexivity. }
    vm_compute. reflexivity. }
  rewrite Hl. split; [exact Hf | split; [reflexivity | lra]].
Qed.

Lemma font_rounded_above_cap_at_43_witness :
  ((553 # 1000) <= 59 # 100 /\
   (85 # 100) * lineHeight (calculateOptimalLayout (fun _ _ => 553 # 1000) 43)
     < fontSize (calculateOptimalLayout (fun _ _ => 553 # 1000) 43))%Q.
Proof.
  split; [vm_compute; discriminate|].
  apply (font_rounded_above_cap_at_43 (fun _ _ => 553 # 1000)%Q). vm_compute. discriminate.
Defined.

(* ================================================================== *)
(** ** Strings *)

Lemma str_append_assoc (a b c : string) : ((a ++ b) ++ c = a ++ (b ++ c))%string.
Proof. induction a as [|x a IH]; simpl; [reflexivity | now rewrite IH]. Qed.

Lemma str_append_nil_r (a : string) : (a ++ "" = a)%string.
Proof. induction a as [|x a IH]; simpl; [reflexivity | now rewrite IH]. Qed.

Lemma no_underscore_app (a b : string) :
  no_underscore (a ++ b) = no_underscore a && no_underscore b.
Proof.
  induction a as [|x a IH]; simpl; [reflexivity|].
  rewrite IH. now rewrite andb_assoc.
Qed.

Lemma no_underscore_uint (d : Decimal.uint) :
  no_underscore (NilEmpty.string_of_uint d) = true.
Proof. induction d; simpl; auto. Qed.

Lemma no_underscore_String_of_int (n : Z) : no_underscore (String_of_int n) = true.
Proof.
  unfold String_of_int. destruct (Z.to_int n); simpl; apply no_underscore_uint.
Qed.

Lemma str_indexOf_blank (pre : string) :
  no_underscore pre = true ->
  str_indexOf "______" (pre ++ "______") = Some (String.length pre).
Proof.
  induction pre as [|c pre IH]; intro H.
  - reflexivity.
  - simpl in H. apply andb_true_iff in H as [Hc Hpre].
    apply negb_true_iff in Hc.
    change (str_indexOf "______" (String c pre ++ "______"))
      with (if prefix "______" (String c (pre ++ "______")) then Some O
            else option_map S (str_indexOf "______" (pre ++ "______"))).
    assert (prefix "______" (String c (pre ++ "______")) = false) as ->.
    { cbn [prefix]. destruct (ascii_dec "_" c) as [<-|Hne]; [discriminate Hc | reflexivity]. }
    rewrite (IH Hpre). reflexivity.
Qed.

Lemma str_take_app (a b : string) : str_take (String.length a) (a ++ b) = a.
Proof. induction a as [|x a IH]; simpl; [now destruct b | now rewrite IH]. Qed.

Lemma str_drop_app (a b : string) (k : nat) :
  str_drop (String.length a + k) (a ++ b) = str_drop k b.
Proof. induction a as [|x a IH]; simpl; [reflexivity | exact IH]. Qed.

(** Filling the blank at the end of a line that has no other underscore. *)
Lemma str_replace_blank (pre r : string) :
  no_underscore pre = true ->
  str_replace "______" r (pre ++ "______") = (pre ++ r)%string.
Proof.
  intro H. unfold str_replace. rewrite (str_indexOf_blank pre H).
  rewrite str_take_app, str_drop_app.
  change (str_drop (String.length "______") "______") with EmptyString.
  now rewrite str_append_nil_r.
Qed.

(* ================================================================== *)
(** ** Random draws *)

Lemma unit_draws_tail (s : RandomSource) : unit_draws s -> unit_draws (draws_tail s).
Proof. intros H k. apply (H (S k)). Qed.

Lemma Math_random_run (s : RandomSource) : Math_random s = (s O, draws_tail s).
Proof. reflexivity. Qed.

(** [Math.floor(r * m)] for a draw [r] of [0, 1) and a positive integer
    [m] is one of [0 .. m - 1]. *)
Lemma floor_scaled_draw (r : Q) (m : Z) :
  (0 <= r /\ r < 1)%Q -> 0 < m -> 0 <= Math_floor (r * inject_Z m) < m.
Proof.
  intros [Hlo Hhi] Hm. unfold Math_floor.
  assert (0 < inject_Z m)%Q as HmQ by (change (inject_Z 0 < inject_Z m)%Q; rewrite <- Zlt_Qlt; exact Hm).
  split.
  - change 0 with (Qfloor 0). apply Qfloor_resp_le.
    apply Qmult_le_0_compat; [exact Hlo | apply Qlt_le_weak; exact HmQ].
  - rewrite Zlt_Qlt. eapply Qle_lt_trans; [apply Qfloor_le|].
    setoid_replace (inject_Z m) with (1 * inject_Z m)%Q at 2 by ring.
    apply Qmult_lt_compat_r; assumption.
Qed.

Lemma array_get_in_range {A : Type} (array : list A) (i : Z) :
  0 <= i < Z.of_nat (List.length array) ->
  exists x, array_get array i = Some x /\ In x array.
Proof.
  intros [Hlo Hhi]. unfold array_get.
  destruct (Z.ltb_spec i 0) as [Hneg|_]; [lia|].
  destruct (nth_error array (Z.to_nat i)) as [x|] eqn:E.
  - exists x. split; [reflexivity | eapply nth_error_In; exact E].
  - apply nth_error_None in E. lia.
Qed.

Lemma pickRandom_run {A : Type} (array : list A) (s : RandomSource) :
  pickRandom array s =
    (array_get array (Math_floor (s O * inject_Z (Z.of_nat (List.length array)))),
     draws_tail s).
Proof. reflexivity. Qed.

Lemma randomInt_run (min max : Z) (s : RandomSource) :
  randomInt min max s = (Math_floor (s O * inject_Z (max - min + 1)) + min, draws_tail s).
Proof. reflexivity. Qed.

Lemma pickRandom_in_bounds {A : Type} (array : list A) (s : RandomSource) :
  array <> [] -> unit_draws s ->
  0 <= Math_floor (s O * inject_Z (Z.of_nat (List.length array)))
    <= Z.of_nat (List.length array) - 1 /\
  exists x, pickRandom array s = (Some x, draws_tail s) /\ In x array.
Proof.
  intros Hne Hs.
  assert (0 < Z.of_nat (List.length array)) as Hlen
    by (destruct array; [congruence | simpl; lia]).
  pose proof (floor_scaled_draw (s O) _ (Hs O) Hlen) as Hidx.
  split; [lia|].
  destruct (array_get_in_range array _ Hidx) as (x & Hx & Hin).
  exists x. rewrite pickRandom_run, Hx. auto.
Qed.

Lemma randomInt_1_12 (s : RandomSource) :
  unit_draws s -> 1 <= fst (randomInt 1 12 s) <= 12.
Proof.
  intro Hs. rewrite randomInt_run. cbn [fst].
  pose proof (floor_scaled_draw (s O) (12 - 1 + 1) (Hs O) ltac:(lia)). lia.
Qed.

Lemma sample_draws_unit : unit_draws sample_draws.
Proof.
  intro k. unfold sample_draws, Qle, Qlt. cbn [Qnum Qden].
  pose proof (Nat.mod_upper_bound k 7 ltac:(discriminate)). lia.
Qed.

(* ================================================================== *)
(** ** Question generation *)

(** Filling the blank of a question line. *)
Lemma fill_blank (a x b r : string) :
  no_underscore a = true -> no_underscore x = true -> no_underscore b = true ->
  str_replace "______" r (a ++ x ++ b ++ " = ______") = (a ++ x ++ b ++ " = " ++ r)%string.
Proof.
  intros Ha Hx Hb.
  change (" = ______")%string with (" = " ++ "______")%string.
  rewrite <- !str_append_assoc.
  rewrite str_replace_blank; [reflexivity|].
  rewrite !no_underscore_app, Ha, Hx, Hb. reflexivity.
Qed.

(** What one call of [generateQuestion] does to a source of unit draws. *)
Lemma generateQuestion_run (selectedTables : list Z) (includeDivision : bool)
  (s : RandomSource) :
  selectedTables <> [] -> unit_draws s ->
  exists (q : Question) (s' : RandomSource),
    generateQuestion selectedTables includeDivision s = (Some q, s') /\
    unit_draws s' /\
    In (base q) selectedTables /\
    1 <= other q <= 12 /\
    (includeDivision = false -> type q = multiplication).
Proof.
  intros Hne Hs.
  destruct (pickRandom_in_bounds selectedTables s Hne Hs) as (_ & b & Hpick & Hin).
  pose proof (unit_draws_tail s Hs) as Hs1.
  pose proof (randomInt_1_12 (draws_tail s) Hs1) as Hother.
  pose proof (unit_draws_tail _ Hs1) as Hs2.
  unfold generateQuestion, bind. rewrite Hpick.
  destruct (randomInt 1 12 (draws_tail s)) as [o s2] eqn:Hr.
  rewrite randomInt_run in Hr. injection Hr as Ho Hs2'. subst s2.
  cbn [fst] in Hother. clear Ho.
  destruct includeDivision.
  - rewrite Math_random_run.
    destruct (Qltb (draws_tail (draws_tail s) O) (1 # 2));
      eexists; eexists; (split; [reflexivity|]); cbn [base other type];
      (split; [apply unit_draws_tail; exact Hs2|]);
      (split; [exact Hin|]); (split; [exact Hother|]); discriminate.
  - eexists; eexists; (split; [reflexivity|]); cbn [base other type].
    split; [exact Hs2|]. split; [exact Hin|]. split; [exact Hother|]. reflexivity.
Qed.

(** C7.  Every question [generateQuestion] produces is a true statement
    once its blank is filled with its answer: a multiplication shows
    base and operand, its answer is their product; a division shows the
    dividend base * operand and the divisor base, its answer is the
    operand, and (bases being non-zero) the quotient is the answer. *)
Theorem generated_question_is_true (selectedTables : list Z) (includeDivision : bool)
  (s s' : RandomSource) (q : Question) :
  generateQuestion selectedTables includeDivision s = (Some q, s') ->
  match type q with
  | multiplication =>
      answer q = base q * other q /\
      questionText q =
        (String_of_int (base q) ++ " × " ++ String_of_int (other q) ++ " = ______")%string /\
      answerLine q =
        (String_of_int (base q) ++ " × " ++ String_of_int (other q) ++ " = "
           ++ String_of_int (base q * other q))%string
  | division =>
      product q = Some (base q * other q) /\
      answer q = other q /\
      questionText q =
        (String_of_int (base q * other q) ++ " ÷ " ++ String_of_int (base q)
           ++ " = ______")%string /\
      answerLine q =
        (String_of_int (base q * other q) ++ " ÷ " ++ String_of_int (base q) ++ " = "
           ++ String_of_int (other q))%string /\
      (base q <> 0 ->
       (base q * other q) / base q = answer q /\ (base q * other q) mod base q = 0)
  end.
Proof.
  unfold generateQuestion, bind. rewrite pickRandom_run, randomInt_run.
  set (o := Math_floor _ + 1).
  destruct (array_get selectedTables _) as [b|];
    (destruct includeDivision; [rewrite Math_random_run; destruct (Qltb _ _)|]);
    unfold ret; intros [= <- _]; unfold answerLine;
    cbn [type base other product answer questionText].
  - (* a division *)
    repeat split.
    + apply (fill_blank (String_of_int (b * o)) " ÷ " (String_of_int b) (String_of_int o));
        try apply no_underscore_String_of_int; reflexivity.
    + rewrite Z.mul_comm. apply Z.div_mul. assumption.
    + rewrite Z.mul_comm. apply Z.mod_mul. assumption.
  - (* a multiplication, division being enabled *)
    repeat split.
    apply (fill_blank (String_of_int b) " × " (String_of_int o) (String_of_int (b * o)));
      try apply no_underscore_String_of_int; reflexivity.
  - (* a multiplication, division being disabled *)
    repeat split.
    apply (fill_blank (String_of_int b) " × " (String_of_int o) (String_of_int (b * o)));
      try apply no_underscore_String_of_int; reflexivity.
Qed.

Lemma generated_question_is_true_witness :
  let q := {| type := division; base := 2; other := 2; product := Some 4;
              questionText := "4 ÷ 2 = ______"; answer := 2 |} in
  generateQuestion [2; 5; 10] true sample_draws = (Some q, fun k => sample_draws (3 + k)%nat) /\
  answerLine q = "4 ÷ 2 = 2"%string /\ 4 / 2 = 2.
Proof.
  assert (generateQuestion [2; 5; 10] true sample_draws
          = (Some {| type := division; base := 2; other := 2; product := Some 4;
                     questionText := "4 ÷ 2 = ______"; answer := 2 |},
             fun k => sample_draws (3 + k)%nat)) as Hrun by reflexivity.
  pose proof (generated_question_is_true _ _ _ _ _ Hrun) as H.
  cbn [type base other answer] in H.
  destruct H as (_ & _ & _ & Hline & Hdiv).
  split; [exact Hrun|]. split; [exact Hline|].
  exact (proj1 (Hdiv ltac:(discriminate))).
Defined.

(** The generation loop without division, on a source of unit draws. *)
Lemma generateQuestions_multiplication (selectedTables : list Z) :
  selectedTables <> [] ->
  forall (iterations : nat) (s : RandomSource),
    unit_draws s ->
    exists (qs : list Question) (s' : RandomSource),
      generateQuestions iterations selectedTables false s = (map Some qs, s') /\
      unit_draws s' /\
      List.length qs = iterations /\
      Forall (fun q => type q = multiplication /\ In (base q) selectedTables /\
                       1 <= other q <= 12) qs.
Proof.
  intro Hne. induction iterations as [|k IH]; intros s Hs.
  - exists [], s. split; [reflexivity|]. split; [exact Hs|].
    split; [reflexivity | constructor].
  - destruct (generateQuestion_run selectedTables false s Hne Hs)
      as (q & s1 & Hq & Hs1 & Hbase & Hother & Htype).
    destruct (IH s1 Hs1) as (qs & s2 & Hqs & Hs2 & Hlen & Hall).
    exists (q :: qs), s2.
    split; [|split; [exact Hs2 | split]].
    + cbn [generateQuestions]. unfold bind at 1. rewrite Hq.
      unfold bind at 1. rewrite Hqs. reflexivity.
    + simpl. now rewrite Hlen.
    + constructor; [|exact Hall]. auto.
Qed.

(** C8.  With a non-empty selection, a count of 1..99 and division
    switched off, generation yields exactly that many questions, each a
    multiplication whose base is a selected table and whose operand is
    one of 1..12. *)
Theorem worksheet_without_division (selectedTables : list Z) (n : Z) (s : RandomSource) :
  selectedTables <> [] -> 1 <= n <= 99 -> unit_draws s ->
  exists qs : list Question,
    fst (generateWorksheet n selectedTables false s) = Some (map Some qs) /\
    Z.of_nat (List.length qs) = n /\
    Forall (fun q => type q = multiplication /\ In (base q) selectedTables /\
                     1 <= other q <= 12) qs.
Proof.
  intros Hne Hn Hs.
  destruct (generateQuestions_multiplication selectedTables Hne (Z.to_nat n) s Hs)
    as (qs & s' & Hrun & _ & Hlen & Hall).
  exists qs. split; [|split; [lia | exact Hall]].
  unfold generateWorksheet.
  assert (validateInputs n selectedTables = true) as ->.
  { unfold validateInputs.
    destruct (Z.ltb_spec n 1); [lia|]. destruct (Z.gtb_spec n 99); [lia|].
    destruct selectedTables; [congruence | reflexivity]. }
  unfold bind. rewrite Hrun. reflexivity.
Qed.

Lemma worksheet_without_division_witness :
  [2; 5; 10] <> [] /\ 1 <= 10 <= 99 /\ unit_draws sample_draws /\
  exists qs : list Question,
    fst (generateWorksheet 10 [2; 5; 10] false sample_draws) = Some (map Some qs) /\
    Z.of_nat (List.length qs) = 10 /\
    Forall (fun q => type q = multiplication /\ In (base q) [2; 5; 10] /\
                     1 <= other q <= 12) qs.
Proof.
  split; [discriminate|]. split; [lia|]. split; [exact sample_draws_unit|].
  apply (worksheet_without_division [2; 5; 10] 10 sample_draws);
    [discriminate | lia | exact sample_draws_unit].
Defined.

(** C10.  For a non-empty array and draws in [0, 1) the index
    [pickRandom] computes is one of [0 .. length - 1], so the read is in
    bounds; [randomInt(1, 12)] is one of 1..12; and [generateQuestion]
    returns a well-formed question for every non-empty selection. *)
Theorem generateQuestion_stays_in_bounds (A : Type) (array : list A)
  (selectedTables : list Z) (includeDivision : bool) (s : RandomSource) :
  array <> [] -> selectedTables <> [] -> unit_draws s ->
  (0 <= Math_floor (s O * inject_Z (Z.of_nat (List.length array)))
     <= Z.of_nat (List.length array) - 1) /\
  (exists x, fst (pickRandom array s) = Some x /\ In x array) /\
  1 <= fst (randomInt 1 12 s) <= 12 /\
  (exists q, fst (generateQuestion selectedTables includeDivision s) = Some q).
Proof.
  intros Harr Htab Hs.
  destruct (pickRandom_in_bounds array s Harr Hs) as (Hidx & x & Hpick & Hin).
  split; [exact Hidx|]. split; [|split].
  - exists x. rewrite Hpick. auto.
  - apply randomInt_1_12. exact Hs.
  - destruct (generateQuestion_run selectedTables includeDivision s Htab Hs)
      as (q & s' & Hq & _).
    exists q. rewrite Hq. reflexivity.
Qed.

Lemma generateQuestion_stays_in_bounds_witness :
  [3; 4; 6; 7] <> [] /\ unit_draws (draws_tail sample_draws) /\
  (0 <= Math_floor (draws_tail sample_draws O * inject_Z 4) <= 4 - 1) /\
  (exists x, fst (pickRandom [3; 4; 6; 7] (draws_tail sample_draws)) = Some x
             /\ In x [3; 4; 6; 7]) /\
  1 <= fst (randomInt 1 12 (draws_tail sample_draws)) <= 12 /\
  (exists q, fst (generateQuestion [3; 4; 6; 7] true (draws_tail sample_draws)) = Some q).
Proof.
  split; [discriminate|].
  split; [exact (unit_draws_tail _ sample_draws_unit)|].
  apply (generateQuestion_stays_in_bounds Z [3; 4; 6; 7] [3; 4; 6; 7] true
           (draws_tail sample_draws));
    [discriminate | discriminate | exact (unit_draws_tail _ sample_draws_unit)].
Defined.

(* ================================================================== *)
(** ** Presentation layout *)

Lemma presentationColumns_unfold (innerHeight : Q) (n : Z) :
  presentationColumns (calculatePresentationLayout innerHeight n)
  = updatePresentationColumns n.
Proof. reflexivity. Qed.

Lemma updatePresentationColumns_tiers (n : Z) :
  1 <= n ->
  (n <= 9 -> updatePresentationColumns n = 3) /\
  (10 <= n <= 20 -> updatePresentationColumns n = 4) /\
  (21 <= n -> updatePresentationColumns n = 5).
Proof.
  intro Hn. unfold updatePresentationColumns.
  destruct (Z.geb_spec n 1); [|lia].
  destruct (Z.leb_spec n 9); destruct (Z.geb_spec n 10); destruct (Z.leb_spec n 20);
    destruct (Z.geb_spec n 21); destruct (Z.leb_spec n 40); cbn [andb];
    repeat split; intros; try reflexivity; lia.
Qed.

(** C5.  The presentation column count is 3 up to 9 questions, 4 on
    10..20 and 5 from 21 on; it never decreases as the count grows and
    stays 5 above 21; 9, 10, 21 and 100 questions give 3, 4, 5 and 5. *)
Theorem presentation_columns_tiers (innerHeight : Q) (n m : Z) :
  1 <= n -> n <= m ->
  let cols := fun k => presentationColumns (calculatePresentationLayout innerHeight k) in
  ((n <= 9 -> cols n = 3) /\
   (10 <= n <= 20 -> cols n = 4) /\
   (21 <= n -> cols n = 5)) /\
  cols n <= cols m /\
  (cols 9 = 3 /\ cols 10 = 4 /\ cols 21 = 5 /\ cols 100 = 5).
Proof.
  intros Hn Hm cols. subst cols. cbv beta. rewrite !presentationColumns_unfold.
  pose proof (updatePresentationColumns_tiers n Hn) as (Hn3 & Hn4 & Hn5).
  pose proof (updatePresentationColumns_tiers m ltac:(lia)) as (Hm3 & Hm4 & Hm5).
  split; [auto|]. split; [|repeat split].
  destruct (Z.le_gt_cases n 9); destruct (Z.le_gt_cases n 20);
    destruct (Z.le_gt_cases m 9); destruct (Z.le_gt_cases m 20);
    try lia;
    repeat match goal with
           | H : ?P -> updatePresentationColumns _ = _ |- _ =>
               first [rewrite H by lia | clear H]
           end; lia.
Qed.

Lemma presentation_columns_tiers_witness :
  1 <= 10 /\ 10 <= 21 /\
  presentationColumns (calculatePresentationLayout 1080 10) = 4 /\
  presentationColumns (calculatePresentationLayout 1080 10)
    <= presentationColumns (calculatePresentationLayout 1080 21).
Proof.
  split; [lia|]. split; [lia|].
  pose proof (presentation_columns_tiers 1080 10 21 ltac:(lia) ltac:(lia)) as H.
  cbv zeta beta in H. destruct H as ((_ & H4 & _) & Hmono & _).
  split; [apply H4; lia | exact Hmono].
Defined.

(** The older revision chooses the columns with the font tier: 3 up to
    12 questions, 4 on 13..40, 5 from 41 on, so that 10 and 21 questions
    get 3 and 4 columns there. *)
Lemma legacy_presentation_columns (innerHeight : Q) (n : Z) :
  let cols := fun k => presentationColumns (Legacy.calculatePresentationLayout innerHeight k) in
  ((n <= 12 -> cols n = 3) /\
   (13 <= n <= 40 -> cols n = 4) /\
   (41 <= n -> cols n = 5)) /\
  (cols 9 = 3 /\ cols 10 = 3 /\ cols 21 = 4 /\ cols 100 = 5).
Proof.
  intro cols. split; [|repeat split]. subst cols. cbv beta.
  unfold Legacy.calculatePresentationLayout.
  destruct (Z.leb_spec n 12); [|destruct (Z.leb_spec n 24); [|destruct (Z.leb_spec n 40);
    [|destruct (Z.leb_spec n 60)]]]; cbn [presentationColumns];
    repeat split; intros; try reflexivity; lia.
Qed.

Lemma presentation_font_tiers :
  presentationBaseFont 12 = 40%Q /\ presentationBaseFont 13 = 32%Q /\
  presentationBaseFont 60 = 22%Q /\ presentationBaseFont 61 = 18%Q.
Proof. repeat split. Qed.

(** Both revisions compute the same font size. *)
Lemma legacy_presentation_font (innerHeight : Q) (n : Z) :
  fontSizePx (Legacy.calculatePresentationLayout innerHeight n)
  = fontSizePx (calculatePresentationLayout innerHeight n).
Proof.
  unfold Legacy.calculatePresentationLayout, calculatePresentationLayout,
    presentationClampedFont, presentationBaseFont.
  destruct (n <=? 12); [reflexivity|]. destruct (n <=? 24); [reflexivity|].
  destruct (n <=? 40); [reflexivity|]. destruct (n <=? 60); reflexivity.
Qed.

(** C6.  The font of the presentation layout is clamped as
    max(18, min(base, min(44, height / 18))), then rounded to a whole
    pixel; for every count from 1 and every positive viewport height the
    returned size is at least 18, the floor winning over the viewport
    ceiling: 12 questions on a viewport 100 high get 18 > 100 / 18. *)
Theorem presentation_font_floor (innerHeight : Q) (n : Z) :
  1 <= n -> (0 < innerHeight)%Q ->
  (presentationClampedFont innerHeight n
   == Qmax 18 (Qmin (presentationBaseFont n) (Qmin 44 (innerHeight / 18))))%Q /\
  fontSizePx (calculatePresentationLayout innerHeight n)
  = Math_round (presentationClampedFont innerHeight n) /\
  18 <= fontSizePx (calculatePresentationLayout innerHeight n) /\
  (fontSizePx (calculatePresentationLayout 100 12) = 18 /\ (100 / 18 < 18)%Q).
Proof.
  intros _ _. split; [reflexivity|]. split; [reflexivity|]. split; [|split; reflexivity].
  cbn [calculatePresentationLayout fontSizePx].
  change 18 with (Math_round 18). apply Math_round_mono.
  unfold presentationClampedFont. apply Math_max_lb_l.
Qed.

Lemma presentation_font_floor_witness :
  1 <= 12 /\ (0 < 400)%Q /\
  fontSizePx (calculatePresentationLayout 400 12) = Math_round (400 / 18) /\
  18 <= fontSizePx (calculatePresentationLayout 400 12).
Proof.
  split; [lia|]. split; [reflexivity|].
  pose proof (presentation_font_floor 400 12 ltac:(lia) ltac:(reflexivity))
    as (_ & _ & Hfloor & _).
  split; [reflexivity | exact Hfloor].
Defined.

(* ================================================================== *)
(** ** PDF export: the question loops *)


Section PdfLoops.

Variable splitTextToSize : Q -> string -> Q -> list string.
Variable getTextWidth : Q -> string -> Q.
Variable questions : list Question.
Variable layout : LayoutPlan.
Variables margin columnWidth columnGap startY maxY : Q.
Variable questionsPerColumn : Z.
Variable lineSpacing : Q.
Variable showAnswers : bool.

Local Abbreviation draw :=
  (drawLines getTextWidth layout maxY lineSpacing showAnswers).
Local Abbreviation qloop :=
  (questionLoop splitTextToSize getTextWidth questions layout columnWidth maxY
     questionsPerColumn lineSpacing showAnswers).
Local Abbreviation cloop :=
  (columnLoop splitTextToSize getTextWidth questions layout margin columnWidth
     columnGap startY maxY questionsPerColumn lineSpacing showAnswers).

(** The text of a question as the loop hands it to [splitTextToSize]. *)
Local Abbreviation numbered index question :=
  ((if showAnswers then
      String_of_int (index + 1) ++ ")" ++ (if index + 1 >=? 10 then "  " else " ")
        ++ str_replace "______" "" (questionText question)
        ++ String_of_int (answer question)
    else
      String_of_int (index + 1) ++ ")" ++ (if index + 1 >=? 10 then "  " else " ")
        ++ questionText question)%string).

(** Drawing the lines of a question never moves the pen up. *)
Lemma drawLines_mono (columnX : Q) (answerValue : option string) (total : Z) :
  (0 <= lineSpacing)%Q ->
  forall (lines : list string) (lineIndex : Z) (y : Q),
    (y <= snd (draw columnX answerValue total lines lineIndex y))%Q.
Proof.
  intro Hls. induction lines as [|line rest IH]; intros lineIndex y.
  - apply Qle_refl.
  - cbn [drawLines]. destruct (Qgtb y (maxY - lineSpacing)); [apply IH|].
    set (y' := if lineIndex <? total - 1 then _ else _).
    specialize (IH (lineIndex + 1) y').
    destruct (draw columnX answerValue total rest (lineIndex + 1) y') as [ops' yEnd].
    cbn [snd] in *. eapply Qle_trans; [|exact IH].
    subst y'. destruct (lineIndex <? total - 1); lra.
Qed.

(** A question that fits on one line leaves the pen where it was. *)
Lemma drawLines_single (columnX : Q) (answerValue : option string) (line : string) (y : Q) :
  snd (draw columnX answerValue (Z.of_nat (List.length [line])) [line] 0 y) = y.
Proof.
  cbn [drawLines List.length]. destruct (Qgtb y (maxY - lineSpacing)); [reflexivity|].
  reflexivity.
Qed.

(** What holds of every iteration of one column's loop that draws. *)
Lemma questionLoop_placed :
  forall (remaining : nat) (col : Z) (columnX : Q) (i : Z) (y : Q) (p : Placed),
    In p (qloop remaining col columnX i y) ->
    placedColumn p = col /\
    placedX p = columnX /\
    i <= placedRow p < i + Z.of_nat remaining /\
    placedIndex p = col * questionsPerColumn + placedRow p /\
    0 <= placedIndex p < Z.of_nat (List.length questions) /\
    (exists question,
        array_get questions (placedIndex p) = Some question /\
        placedText p = numbered (placedIndex p) question) /\
    (placedY p <= maxY - lineSpacing)%Q /\
    ((0 <= lineSpacing)%Q ->
     (y + inject_Z (placedRow p - i) * lineSpacing <= placedY p)%Q) /\
    ((forall fs s w, exists line, splitTextToSize fs s w = [line]) ->
     (placedY p == y + inject_Z (placedRow p - i) * lineSpacing)%Q).
Proof.
  induction remaining as [|k IH]; intros col columnX i y p Hin; [destruct Hin|].
  cbn [questionLoop] in Hin. cbv zeta in Hin.
  destruct (Z.geb_spec (col * questionsPerColumn + i) (Z.of_nat (List.length questions)))
    as [|Hlt]; [destruct Hin|].
  destruct (Qgtb y (maxY - lineSpacing)) eqn:Hfit; [destruct Hin|].
  apply Qgtb_false in Hfit.
  destruct (array_get questions (col * questionsPerColumn + i)) as [question|] eqn:Hget;
    [|destruct Hin].
  match type of Hin with
  | In _ (let (_, _) := ?d in _) => destruct d as [ops yEnd] eqn:Hdraw
  end.
  destruct Hin as [<-|Hin].
  - cbn [placedColumn placedX placedRow placedIndex placedY placedText].
    assert (0 <= col * questionsPerColumn + i) as Hnonneg.
    { unfold array_get in Hget.
      destruct (Z.ltb_spec (col * questionsPerColumn + i) 0); [discriminate | lia]. }
    repeat split; try reflexivity; try lia; try exact Hfit.
    + exists question. split; [exact Hget|].
      destruct showAnswers; reflexivity.
    + intros _. rewrite Z.sub_diag. change (inject_Z 0) with 0%Q. lra.
    + rewrite Z.sub_diag. change (inject_Z 0) with 0%Q. lra.
  - specialize (IH col columnX (i + 1) (yEnd + lineSpacing)%Q p Hin).
    destruct IH as (Hc & Hx & Hrow & Hidx & Hrange & Htext & Hmax & Hmono & Hsingle).
    repeat split; try assumption; try lia.
    + intro Hls. specialize (Hmono Hls).
      match type of Hdraw with
      | drawLines _ _ _ _ _ ?cx ?a ?t ?ls ?li ?yy = _ =>
          pose proof (drawLines_mono cx a t Hls ls li yy) as Hd
      end.
      rewrite Hdraw in Hd. cbn [snd] in Hd.
      eapply Qle_trans; [|exact Hmono].
      replace (placedRow p - i) with (placedRow p - (i + 1) + 1) by lia.
      rewrite inject_Z_plus. change (inject_Z 1) with 1%Q. lra.
    + intro Hone. specialize (Hsingle Hone). rewrite Hsingle.
      assert (yEnd = y) as ->.
      { match type of Hdraw with
        | drawLines _ _ _ _ _ _ ?a _ (splitTextToSize ?fs ?s ?w) _ _ = _ =>
            destruct (Hone fs s w) as [line Hline]; rewrite Hline in Hdraw;
            pose proof (drawLines_single columnX a line y) as Hs;
            rewrite Hdraw in Hs; exact Hs
        end. }
      replace (placedRow p - i) with (placedRow p - (i + 1) + 1) by lia.
      rewrite inject_Z_plus. change (inject_Z 1) with 1%Q. ring.
Qed.

(** The same for the loop over the columns. *)
Lemma columnLoop_placed :
  forall (remaining : nat) (col : Z) (p : Placed),
    In p (cloop remaining col) ->
    col <= placedColumn p < col + Z.of_nat remaining /\
    placedX p = (margin + inject_Z (placedColumn p) * (columnWidth + columnGap))%Q /\
    0 <= placedRow p < Z.of_nat (Z.to_nat questionsPerColumn) /\
    placedIndex p = placedColumn p * questionsPerColumn + placedRow p /\
    0 <= placedIndex p < Z.of_nat (List.length questions) /\
    (exists question,
        array_get questions (placedIndex p) = Some question /\
        placedText p = numbered (placedIndex p) question) /\
    (placedY p <= maxY - lineSpacing)%Q /\
    ((0 <= lineSpacing)%Q ->
     (startY + inject_Z (placedRow p) * lineSpacing <= placedY p)%Q) /\
    ((forall fs s w, exists line, splitTextToSize fs s w = [line]) ->
     (placedY p == startY + inject_Z (placedRow p) * lineSpacing)%Q).
Proof.
  induction remaining as [|k IH]; intros col p Hin; [destruct Hin|].
  cbn [columnLoop] in Hin. cbv zeta in Hin. apply in_app_or in Hin as [Hin|Hin].
  - apply questionLoop_placed in Hin.
    destruct Hin as (Hc & Hx & Hrow & Hidx & Hrange & Htext & Hmax & Hmono & Hsingle).
    rewrite Z.sub_0_r in Hmono, Hsingle. subst col.
    repeat split; try assumption; lia.
  - specialize (IH (col + 1) p Hin).
    destruct IH as (Hc & Hx & Hrow & Hidx & Hrange & Htext & Hmax & Hmono & Hsingle).
    repeat split; try assumption; lia.
Qed.


End PdfLoops.

(* ================================================================== *)
(** ** PDF export: the pages *)

Section PdfFacts.

Variable Math_pow : Q -> Q -> Q.
Variables pageWidth pageHeight : Q.
Variable splitTextToSize : Q -> string -> Q -> list string.
Variable getTextWidth : Q -> string -> Q.

(** The layout of a valid count has at least one column and one row,
    and a line height between 0 and the usable 242 mm. *)
Lemma layout_grid (n : Z) :
  1 <= n <= 99 ->
  let layout := calculateOptimalLayout Math_pow n in
  1 <= columns layout /\
  1 <= Math_ceil (inject_Z n / inject_Z (columns layout)) /\
  (0 <= lineHeight layout /\ lineHeight layout <= 242)%Q.
Proof.
  intros Hn layout. subst layout.
  assert ((fun k =>
             let layout := calculateOptimalLayout Math_pow k in
             (1 <=? columns layout)
             && (1 <=? Math_ceil (inject_Z k / inject_Z (columns layout)))
             && Qle_bool 0 (lineHeight layout)
             && Qle_bool (lineHeight layout) 242) n = true) as H.
  { revert n Hn. apply all_counts. vm_compute. reflexivity. }
  cbv beta zeta in H. repeat (apply andb_true_iff in H as [H ?]).
  repeat split; try (apply Z.leb_le; assumption); apply Qle_bool_iff; assumption.
Qed.

(** Every question drawn on a page of the PDF: where it is, and that a
    whole line fits below its pen position. *)
Lemma pdfPlaced_placed (questions : list Question) (showAnswers : bool) (p : Placed) :
  1 <= Z.of_nat (List.length questions) <= 99 ->
  In p (pdfPlaced Math_pow pageWidth pageHeight splitTextToSize getTextWidth
          questions showAnswers) ->
  let layout := calculateOptimalLayout Math_pow (Z.of_nat (List.length questions)) in
  let questionsPerColumn := pdfQuestionsPerColumn questions layout in
  0 <= placedColumn p < columns layout /\
  0 <= placedRow p < questionsPerColumn /\
  placedIndex p = placedColumn p * questionsPerColumn + placedRow p /\
  0 <= placedIndex p < Z.of_nat (List.length questions) /\
  (placedX p == 15 + inject_Z (placedColumn p) * (pdfColumnWidth pageWidth layout + 5))%Q /\
  (40 + inject_Z (placedRow p + 1) * lineHeight layout <= pageHeight - 15)%Q /\
  (40 + inject_Z (placedRow p) * lineHeight layout <= placedY p)%Q /\
  ((forall fs s w, exists line, splitTextToSize fs s w = [line]) ->
   (placedY p == 40 + inject_Z (placedRow p) * lineHeight layout)%Q).
Proof.
  intros Hn Hin layout questionsPerColumn.
  destruct (layout_grid _ Hn) as (Hcols & Hrows & Hl0 & Hl242).
  fold layout in Hcols, Hrows, Hl0, Hl242.
  unfold pdfPlaced, placeQuestions in Hin. cbv zeta in Hin.
  apply columnLoop_placed in Hin.
  destruct Hin as (Hc & Hx & Hrow & Hidx & Hrange & _ & Hmax & Hmono & Hsingle).
  fold layout in Hc, Hx, Hrow, Hidx, Hmax, Hmono, Hsingle.
  fold questionsPerColumn in Hrow, Hidx.
  specialize (Hmono Hl0).
  assert (1 <= questionsPerColumn) as Hq by exact Hrows.
  repeat split; try lia.
  - rewrite Hx. ring.
  - rewrite inject_Z_plus. change (inject_Z 1) with 1%Q. lra.
  - lra.
  - intro Hone. rewrite (Hsingle Hone). ring.
Qed.

End PdfFacts.

(** The older revision paints one page only: its loops never call
    [addPage] and its document holds none, where the current one always
    has one. *)
Section LegacyPdfFacts.

Variable splitTextToSize : Q -> string -> Q -> list string.
Variable questions : list Question.
Variable layout : LayoutPlan.
Variables margin columnWidth columnGap startY maxY : Q.
Variable questionsPerColumn : Z.
Variable lineSpacing : Q.




End LegacyPdfFacts.


(* ================================================================== *)
(** ** PDF export: rows that do not fit *)

(** The counts of 1..99 whose rows, at the rounded line height, need
    more than the usable 242 mm: those where rounding to one decimal
    rounds the line height up. *)
Lemma overflowing_counts (Math_pow : Q -> Q -> Q) :
  filter (rowsOverflow Math_pow) (Z_range 1 99)
  = [3; 6; 13; 14; 15; 16; 17; 18; 21; 22; 23; 24; 25; 26; 27; 34; 35; 36;
     40; 41; 42; 72; 75; 81; 90; 94; 95; 96].
Proof. vm_compute. reflexivity. Qed.

(** When the rows overflow they do so by at least 0.1 mm, and the last
    row of the first column is a question of the worksheet. *)
Lemma rowsOverflow_margin (Math_pow : Q -> Q -> Q) (n : Z) :
  1 <= n <= 99 -> rowsOverflow Math_pow n = true ->
  let layout := calculateOptimalLayout Math_pow n in
  let questionsPerColumn := Math_ceil (inject_Z n / inject_Z (columns layout)) in
  ((2421 # 10) <= inject_Z questionsPerColumn * lineHeight layout)%Q /\
  1 <= questionsPerColumn <= n.
Proof.
  intros Hn Hover layout questionsPerColumn.
  assert ((fun k =>
             let layout := calculateOptimalLayout Math_pow k in
             let questionsPerColumn := Math_ceil (inject_Z k / inject_Z (columns layout)) in
             implb (rowsOverflow Math_pow k)
               (Qle_bool (2421 # 10) (inject_Z questionsPerColumn * lineHeight layout))
             && (1 <=? questionsPerColumn) && (questionsPerColumn <=? k)) n = true) as H.
  { revert n Hn Hover layout questionsPerColumn. intros n Hn _. revert n Hn.
    apply all_counts. vm_compute. reflexivity. }
  cbv beta zeta in H. rewrite Hover in H. cbn [implb] in H.
  repeat (apply andb_true_iff in H as [H ?]).
  split; [apply Qle_bool_iff; assumption|].
  split; apply Z.leb_le; assumption.
Qed.

(** Whenever the rows overflow, the question in the last row of the
    first column is drawn on neither page, whatever the text
    measurement does (page height below 297.1 mm). *)
Lemma pdf_overflow_drops_last_row (Math_pow : Q -> Q -> Q) (pageWidth pageHeight : Q)
  (splitTextToSize : Q -> string -> Q -> list string) (getTextWidth : Q -> string -> Q)
  (questions : list Question) (showAnswers : bool) :
  let n := Z.of_nat (List.length questions) in
  let layout := calculateOptimalLayout Math_pow n in
  let questionsPerColumn := pdfQuestionsPerColumn questions layout in
  1 <= n <= 99 -> rowsOverflow Math_pow n = true -> (pageHeight < 2971 # 10)%Q ->
  0 <= questionsPerColumn - 1 < n /\
  forall p,
    In p (pdfPlaced Math_pow pageWidth pageHeight splitTextToSize getTextWidth
            questions showAnswers) ->
    placedIndex p <> questionsPerColumn - 1.
Proof.
  intros n layout questionsPerColumn Hn Hover Hph.
  destruct (rowsOverflow_margin Math_pow n Hn Hover) as (Hmargin & Hq).
  fold layout in Hmargin, Hq. change (Math_ceil _) with questionsPerColumn in Hmargin, Hq.
  split; [lia|]. intros p Hin Hidx.
  pose proof (pdfPlaced_placed Math_pow pageWidth pageHeight splitTextToSize
                getTextWidth questions showAnswers p Hn Hin) as Hp.
  cbv zeta in Hp. fold n in Hp. fold layout in Hp. fold questionsPerColumn in Hp.
  destruct Hp as (Hc & Hrow & Hi & _ & _ & Hfit & _).
  assert (placedColumn p = 0) as Hcol0.
  { destruct (Z.eq_dec (placedColumn p) 0) as [|Hne]; [assumption|].
    assert (1 * questionsPerColumn <= placedColumn p * questionsPerColumn)
      by (apply Z.mul_le_mono_nonneg_r; lia).
    lia. }
  assert (placedRow p = questionsPerColumn - 1) as Hlast by lia.
  rewrite Hlast in Hfit.
  replace (questionsPerColumn - 1 + 1) with questionsPerColumn in Hfit by lia.
  lra.
Qed.

(** C4 fails on the code at three questions: one column of three rows,
    line height 242 / 3 rounded up to 80.7 mm, so the rows need 242.1 mm
    of the usable 242 and the bound check of the loop leaves the third
    question (index 2) off the page, with blanks and with answers alike,
    whatever the text measurement returns. *)
Theorem pdf_drops_third_of_three (Math_pow : Q -> Q -> Q) (pageWidth pageHeight : Q)
  (splitTextToSize : Q -> string -> Q -> list string) (getTextWidth : Q -> string -> Q)
  (q0 q1 q2 : Question) (showAnswers : bool) :
  (pageHeight < 2971 # 10)%Q ->
  let layout := calculateOptimalLayout Math_pow 3 in
  let l := layoutLocals Math_pow 3 in
  columns layout = 1 /\
  l_questionsPerColumn l = 3 /\
  pdfQuestionsPerColumn [q0; q1; q2] layout = 3 /\
  (lineHeight layout == 807 # 10)%Q /\
  (inject_Z (l_usableHeight l) < inject_Z (l_questionsPerColumn l) * lineHeight layout)%Q /\
  forall p,
    In p (pdfPlaced Math_pow pageWidth pageHeight splitTextToSize getTextWidth
            [q0; q1; q2] showAnswers) ->
    placedIndex p <> 2.
Proof.
  intros Hph layout l.
  split; [reflexivity|]. split; [reflexivity|]. split; [reflexivity|].
  split; [reflexivity|]. split; [reflexivity|].
  apply (pdf_overflow_drops_last_row Math_pow pageWidth pageHeight splitTextToSize
           getTextWidth [q0; q1; q2] showAnswers);
    [simpl; lia | reflexivity | exact Hph].
Qed.

Lemma pdf_drops_third_of_three_witness :
  (297 < 2971 # 10)%Q /\
  map placedIndex
    (pdfPlaced (fun _ _ => 1 # 2)%Q 210 297 noWrap unitWidth sample_questions false)
  = [0; 1] /\
  forall p,
    In p (pdfPlaced (fun _ _ => 1 # 2)%Q 210 297 noWrap unitWidth sample_questions false) ->
    placedIndex p <> 2.
Proof.
  split; [reflexivity|]. split; [vm_compute; reflexivity|].
  refine (proj2 (proj2 (proj2 (proj2 (proj2
    (pdf_drops_third_of_three (fun _ _ => 1 # 2)%Q 210 297 noWrap unitWidth
       _ _ _ false _)))))).
  reflexivity.
Defined.

(* ================================================================== *)
(** ** PDF export: rows that fit *)

Section PdfLoopsComplete.

Variable splitTextToSize : Q -> string -> Q -> list string.
Variable getTextWidth : Q -> string -> Q.
Variable questions : list Question.
Variable layout : LayoutPlan.
Variables margin columnWidth columnGap startY maxY : Q.
Variable questionsPerColumn : Z.
Variable lineSpacing : Q.
Variable showAnswers : bool.

Hypothesis single_line : forall fs s w, exists line, splitTextToSize fs s w = [line].
Hypothesis lineSpacing_nonneg : (0 <= lineSpacing)%Q.

Local Abbreviation qloop :=
  (questionLoop splitTextToSize getTextWidth questions layout columnWidth maxY
     questionsPerColumn lineSpacing showAnswers).
Local Abbreviation cloop :=
  (columnLoop splitTextToSize getTextWidth questions layout margin columnWidth
     columnGap startY maxY questionsPerColumn lineSpacing showAnswers).



End PdfLoopsComplete.



(* ================================================================== *)
(** ** PDF export: the calls of a page *)

(** *** Strings that end with the answer *)









Section PdfOps.

Variable splitTextToSize : Q -> string -> Q -> list string.
Variable getTextWidth : Q -> string -> Q.
Variable questions : list Question.
Variable layout : LayoutPlan.
Variables margin columnWidth columnGap startY maxY : Q.
Variable questionsPerColumn : Z.
Variable lineSpacing : Q.
Variable showAnswers : bool.

Local Abbreviation draw :=
  (drawLines getTextWidth layout maxY lineSpacing showAnswers).
Local Abbreviation qloop :=
  (questionLoop splitTextToSize getTextWidth questions layout columnWidth maxY
     questionsPerColumn lineSpacing showAnswers).
Local Abbreviation cloop :=
  (columnLoop splitTextToSize getTextWidth questions layout margin columnWidth
     columnGap startY maxY questionsPerColumn lineSpacing showAnswers).

(** The document calls of a drawn question are those of its lines. *)
Lemma questionLoop_ops :
  forall (remaining : nat) (col : Z) (columnX : Q) (i : Z) (y : Q) (p : Placed),
    In p (qloop remaining col columnX i y) ->
    (placedY p <= maxY - lineSpacing)%Q /\
    exists question,
      array_get questions (placedIndex p) = Some question /\
      placedOps p =
        fst (draw (placedX p)
               (if showAnswers then Some (String_of_int (answer question)) else None)
               (Z.of_nat (List.length
                  (splitTextToSize (fontSize layout) (placedText p) (columnWidth - 8))))
               (splitTextToSize (fontSize layout) (placedText p) (columnWidth - 8))
               0 (placedY p)).
Proof.
  induction remaining as [|k IH]; intros col columnX i y p Hin; [destruct Hin|].
  cbn [questionLoop] in Hin. cbv zeta in Hin.
  destruct (_ >=? _) in Hin; [destruct Hin|].
  destruct (Qgtb y (maxY - lineSpacing)) eqn:Hfit; [destruct Hin|].
  apply Qgtb_false in Hfit.
  destruct (array_get questions (col * questionsPerColumn + i)) as [question|] eqn:Hget;
    [|destruct Hin].
  match type of Hin with
  | In _ (let (_, _) := ?d in _) => destruct d as [ops yEnd] eqn:Hdraw
  end.
  destruct Hin as [<-|Hin]; [|eapply IH; exact Hin].
  cbn [placedIndex placedX placedY placedText placedOps].
  split; [exact Hfit|]. exists question. split; [exact Hget|].
  rewrite Hdraw. reflexivity.
Qed.

Lemma columnLoop_ops :
  forall (remaining : nat) (col : Z) (p : Placed),
    In p (cloop remaining col) ->
    (placedY p <= maxY - lineSpacing)%Q /\
    exists question,
      array_get questions (placedIndex p) = Some question /\
      placedOps p =
        fst (draw (placedX p)
               (if showAnswers then Some (String_of_int (answer question)) else None)
               (Z.of_nat (List.length
                  (splitTextToSize (fontSize layout) (placedText p) (columnWidth - 8))))
               (splitTextToSize (fontSize layout) (placedText p) (columnWidth - 8))
               0 (placedY p)).
Proof.
  induction remaining as [|k IH]; intros col p Hin; [destruct Hin|].
  cbn [columnLoop] in Hin. cbv zeta in Hin. apply in_app_or in Hin as [Hin|Hin].
  - eapply questionLoop_ops. exact Hin.
  - eapply IH. exact Hin.
Qed.

End PdfOps.




Section PdfCalls.

Variable splitTextToSize : Q -> string -> Q -> list string.
Variable getTextWidth : Q -> string -> Q.
Variable questions : list Question.
Variable layout : LayoutPlan.
Variables margin columnWidth columnGap startY maxY : Q.
Variable questionsPerColumn : Z.
Variable lineSpacing : Q.
Variable showAnswers : bool.

Local Abbreviation draw :=
  (drawLines getTextWidth layout maxY lineSpacing showAnswers).
Local Abbreviation cloop :=
  (columnLoop splitTextToSize getTextWidth questions layout margin columnWidth
     columnGap startY maxY questionsPerColumn lineSpacing showAnswers).



End PdfCalls.

Section PdfPages.

Variable Math_pow : Q -> Q -> Q.
Variables pageWidth pageHeight : Q.
Variable splitTextToSize : Q -> string -> Q -> list string.
Variable getTextWidth : Q -> string -> Q.
Variable questions : list Question.

Local Abbreviation placed :=
  (pdfPlaced Math_pow pageWidth pageHeight splitTextToSize getTextWidth questions).
Local Abbreviation page :=
  (pdfPage Math_pow pageWidth pageHeight splitTextToSize getTextWidth questions).
Local Abbreviation layout :=
  (calculateOptimalLayout Math_pow (Z.of_nat (List.length questions))).





Hypothesis no_wrap : forall fs s w, splitTextToSize fs s w = [s].



End PdfPages.

(** *** The older revision's page and the page with the blanks *)

Section LegacyAgrees.

Variable splitTextToSize : Q -> string -> Q -> list string.
Variable getTextWidth : Q -> string -> Q.
Variable questions : list Question.
Variable layout : LayoutPlan.
Variables margin columnWidth columnGap startY maxY : Q.
Variable questionsPerColumn : Z.
Variable lineSpacing : Q.

Lemma legacy_drawLines_agrees (columnX : Q) (total : Z) :
  forall (lines : list string) (lineIndex : Z) (y : Q),
    drawLines getTextWidth layout maxY lineSpacing false columnX None total lines lineIndex y
    = (flat_map (fun op => [setTextColor 0 0 0; op])
         (fst (Legacy.drawLines maxY lineSpacing columnX total lines lineIndex y)),
       snd (Legacy.drawLines maxY lineSpacing columnX total lines lineIndex y)).
Proof.
  induction lines as [|line rest IH]; intros lineIndex y; [reflexivity|].
  cbn [drawLines Legacy.drawLines].
  destruct (Qgtb y (maxY - lineSpacing)); [apply IH|].
  rewrite IH.
  destruct (Legacy.drawLines maxY lineSpacing columnX total rest (lineIndex + 1) _)
    as [ops' yEnd].
  reflexivity.
Qed.

Lemma legacy_questionLoop_agrees :
  forall (remaining : nat) (col : Z) (columnX : Q) (i : Z) (y : Q),
    questionLoop splitTextToSize getTextWidth questions layout columnWidth maxY
      questionsPerColumn lineSpacing false remaining col columnX i y
    = map withBlackText
        (Legacy.questionLoop splitTextToSize questions layout columnWidth maxY
           questionsPerColumn lineSpacing remaining col columnX i y).
Proof.
  induction remaining as [|k IH]; intros col columnX i y; [reflexivity|].
  cbn [questionLoop Legacy.questionLoop]. cbv zeta.
  destruct (_ >=? _); [reflexivity|].
  destruct (Qgtb y (maxY - lineSpacing)); [reflexivity|].
  destruct (array_get questions (col * questionsPerColumn + i)) as [question|];
    [|reflexivity].
  rewrite legacy_drawLines_agrees.
  destruct (Legacy.drawLines maxY lineSpacing columnX _ _ 0 y) as [ops yEnd].
  cbn [fst snd map]. rewrite IH. reflexivity.
Qed.

Lemma legacy_columnLoop_agrees :
  forall (remaining : nat) (col : Z),
    columnLoop splitTextToSize getTextWidth questions layout margin columnWidth columnGap
      startY maxY questionsPerColumn lineSpacing false remaining col
    = map withBlackText
        (Legacy.columnLoop splitTextToSize questions layout margin columnWidth columnGap
           startY maxY questionsPerColumn lineSpacing remaining col).
Proof.
  induction remaining as [|k IH]; intros col; [reflexivity|].
  cbn [columnLoop Legacy.columnLoop]. cbv zeta.
  rewrite map_app, legacy_questionLoop_agrees, IH. reflexivity.
Qed.

End LegacyAgrees.

(* ================================================================== *)
(** ** PDF export: the two pages *)




(* ================================================================== *)
(** * Further properties of the code *)

(** ** Random choices *)

Lemma Math_floor_unique (x : Q) (k : Z) :
  (inject_Z k <= x /\ x < inject_Z (k + 1))%Q -> Math_floor x = k.
Proof.
  intros [Hlo Hhi]. unfold Math_floor.
  pose proof (Qfloor_le x) as Hfl. pose proof (Qlt_floor x) as Hfu.
  assert (inject_Z (Qfloor x) < inject_Z (k + 1))%Q as H1 by lra.
  assert (inject_Z k < inject_Z (Qfloor x + 1))%Q as H2 by lra.
  rewrite <- Zlt_Qlt in H1, H2. lia.
Qed.

Lemma Math_floor_bounds (x : Q) :
  (inject_Z (Math_floor x) <= x /\ x < inject_Z (Math_floor x + 1))%Q.
Proof. split; [apply Qfloor_le | apply Qlt_floor]. Qed.

(** A number in the middle half of [k, k + 1) has floor [k], also after
    an error of less than a quarter. *)
Lemma Math_floor_middle (x : Q) (k : Z) :
  (inject_Z k + (1 # 4) <= x /\ x <= inject_Z k + (3 # 4))%Q -> Math_floor x = k.
Proof.
  intros [Hlo Hhi]. apply Math_floor_unique.
  rewrite inject_Z_plus. change (inject_Z 1) with 1%Q. split; lra.
Qed.

(** The draw at the middle of bucket [j] of [m]. *)
Lemma bucket_middle (j m : Z) :
  0 <= j < m ->
  let r := ((inject_Z j + (1 # 2)) / inject_Z m)%Q in
  (0 <= r /\ r < 1)%Q /\
  (inject_Z j + (1 # 4) <= r * inject_Z m /\ r * inject_Z m <= inject_Z j + (3 # 4))%Q.
Proof.
  intros Hj r.
  assert (0 < inject_Z m)%Q as Hm
    by (change (inject_Z 0 < inject_Z m)%Q; rewrite <- Zlt_Qlt; lia).
  assert (0 <= inject_Z j)%Q as Hj0
    by (change (inject_Z 0 <= inject_Z j)%Q; rewrite <- Zle_Qle; lia).
  assert (inject_Z j + 1 <= inject_Z m)%Q as Hj1.
  { change 1%Q with (inject_Z 1). rewrite <- inject_Z_plus, <- Zle_Qle. lia. }
  assert (r * inject_Z m == inject_Z j + (1 # 2))%Q as Heq
    by (subst r; field; lra).
  split; [split|rewrite Heq; split; lra].
  - subst r. apply Qle_shift_div_l; [exact Hm | lra].
  - subst r. apply Qlt_shift_div_r; [exact Hm | lra].
Qed.

(** X1.  [randomInt(min, max)] with [min <= max] (bounds within a
    million, where the code's arithmetic on them is exact) consumes one
    draw and returns one of [min .. max]; the result never decreases
    when the draw grows; a draw whose product with the number of values
    lies in the middle half of the bucket of [k], from [k - min + 1/4]
    to [k - min + 3/4], returns [k]; and every [k] of [min .. max] is
    returned for some draw of [0, 1). *)
Theorem randomInt_buckets (min max : Z) :
  min <= max -> -1000000 <= min -> max <= 1000000 ->
  (forall s : RandomSource,
      unit_draws s ->
      min <= fst (randomInt min max s) <= max
      /\ snd (randomInt min max s) = draws_tail s) /\
  (forall s s' : RandomSource,
      (s O <= s' O)%Q -> fst (randomInt min max s) <= fst (randomInt min max s')) /\
  (forall (k : Z) (s : RandomSource),
      (inject_Z (k - min) + (1 # 4) <= s O * inject_Z (max - min + 1)
       /\ s O * inject_Z (max - min + 1) <= inject_Z (k - min) + (3 # 4))%Q ->
      fst (randomInt min max s) = k) /\
  (forall k : Z,
      min <= k <= max ->
      exists r : Q,
        (0 <= r /\ r < 1)%Q /\
        forall s : RandomSource, s O = r -> fst (randomInt min max s) = k).
Proof.
  intros Hmm _ _.
  assert (forall (k : Z) (s : RandomSource),
      (inject_Z (k - min) + (1 # 4) <= s O * inject_Z (max - min + 1)
       /\ s O * inject_Z (max - min + 1) <= inject_Z (k - min) + (3 # 4))%Q ->
      fst (randomInt min max s) = k) as Hmiddle.
  { intros k s H. rewrite randomInt_run. cbn [fst].
    rewrite (Math_floor_middle _ _ H). lia. }
  split; [|split; [|split; [exact Hmiddle|]]].
  - intros s Hs. rewrite randomInt_run. cbn [fst snd]. split; [|reflexivity].
    pose proof (floor_scaled_draw (s O) (max - min + 1) (Hs O) ltac:(lia)). lia.
  - intros s s' Hle. rewrite !randomInt_run. cbn [fst].
    apply Z.add_le_mono_r. apply Qfloor_resp_le.
    apply Qmult_le_compat_r; [exact Hle|].
    change (inject_Z 0 <= inject_Z (max - min + 1))%Q. rewrite <- Zle_Qle. lia.
  - intros k Hk.
    destruct (bucket_middle (k - min) (max - min + 1) ltac:(lia)) as [Hunit Hmid].
    eexists. split; [exact Hunit|]. intros s Hs. apply Hmiddle. rewrite Hs. exact Hmid.
Qed.

Lemma randomInt_buckets_witness :
  1 <= 12 /\ -1000000 <= 1 /\ 12 <= 1000000 /\ unit_draws sample_draws /\
  fst (randomInt 1 12 (draws_tail sample_draws)) = 2 /\
  1 <= fst (randomInt 1 12 sample_draws) <= 12 /\
  exists r : Q,
    (0 <= r /\ r < 1)%Q /\
    forall s : RandomSource, s O = r -> fst (randomInt 1 12 s) = 12.
Proof.
  pose proof (randomInt_buckets 1 12 ltac:(lia) ltac:(lia) ltac:(lia))
    as (Hrange & _ & Hmiddle & Hreach).
  split; [lia|]. split; [lia|]. split; [lia|]. split; [exact sample_draws_unit|].
  split; [|split].
  - apply Hmiddle. split; vm_compute; discriminate.
  - exact (proj1 (Hrange sample_draws sample_draws_unit)).
  - apply Hreach. lia.
Defined.

(** X2.  [pickRandom(array)] on an array of one to a million elements
    consumes one draw and returns an element of the array; a draw whose
    product with the length lies in the middle half of the bucket of
    index [i], from [i + 1/4] to [i + 3/4], returns the element at [i];
    and every element of the array is returned for some draw of
    [0, 1). *)
Theorem pickRandom_buckets (A : Type) (array : list A) :
  array <> [] -> Z.of_nat (List.length array) <= 1000000 ->
  (forall s : RandomSource,
      unit_draws s ->
      exists x, pickRandom array s = (Some x, draws_tail s) /\ In x array) /\
  (forall (i : nat) (x : A),
      nth_error array i = Some x ->
      (forall s : RandomSource,
          (inject_Z (Z.of_nat i) + (1 # 4) <= s O * inject_Z (Z.of_nat (List.length array))
           /\ s O * inject_Z (Z.of_nat (List.length array))
              <= inject_Z (Z.of_nat i) + (3 # 4))%Q ->
          fst (pickRandom array s) = Some x) /\
      (exists r : Q,
          (0 <= r /\ r < 1)%Q /\
          forall s : RandomSource, s O = r -> fst (pickRandom array s) = Some x)).
Proof.
  intros Hne _. split.
  - intros s Hs. exact (proj2 (pickRandom_in_bounds array s Hne Hs)).
  - intros i x Hnth.
    assert (forall s : RandomSource,
      (inject_Z (Z.of_nat i) + (1 # 4) <= s O * inject_Z (Z.of_nat (List.length array))
       /\ s O * inject_Z (Z.of_nat (List.length array))
          <= inject_Z (Z.of_nat i) + (3 # 4))%Q ->
      fst (pickRandom array s) = Some x) as Hmiddle.
    { intros s H. rewrite pickRandom_run. cbn [fst].
      rewrite (Math_floor_middle _ _ H). unfold array_get.
      destruct (Z.ltb_spec (Z.of_nat i) 0); [lia|]. now rewrite Nat2Z.id. }
    split; [exact Hmiddle|].
    assert (i < List.length array)%nat as Hlt by (apply nth_error_Some; congruence).
    destruct (bucket_middle (Z.of_nat i) (Z.of_nat (List.length array)) ltac:(lia))
      as [Hunit Hmid].
    eexists. split; [exact Hunit|]. intros s Hs. apply Hmiddle. rewrite Hs. exact Hmid.
Qed.

Lemma pickRandom_buckets_witness :
  [2; 5; 10] <> [] /\ Z.of_nat (List.length [2; 5; 10]) <= 1000000 /\
  nth_error [2; 5; 10] 2 = Some 10 /\
  fst (pickRandom [2; 5; 10] (fun _ => 5 # 6)) = Some 10 /\
  exists x, pickRandom [2; 5; 10] sample_draws = (Some x, draws_tail sample_draws)
            /\ In x [2; 5; 10].
Proof.
  assert ([2; 5; 10] <> []) as Hne by discriminate.
  assert (Z.of_nat (List.length [2; 5; 10]) <= 1000000) as Hlen by (simpl; lia).
  pose proof (pickRandom_buckets Z [2; 5; 10] Hne Hlen) as [Hin Hbucket].
  split; [exact Hne|]. split; [exact Hlen|]. split; [reflexivity|]. split.
  - refine (proj1 (Hbucket 2%nat 10 eq_refl) (fun _ => 5 # 6) _).
    split; vm_compute; discriminate.
  - exact (Hin sample_draws sample_draws_unit).
Defined.

(** ** Generated questions *)

(** The two shapes of a generated question. *)
Lemma generateQuestion_shape (selectedTables : list Z) (includeDivision : bool)
  (s s' : RandomSource) (q : Question) :
  generateQuestion selectedTables includeDivision s = (Some q, s') ->
  (type q = multiplication /\ product q = None /\ answer q = base q * other q /\
   questionText q =
     (String_of_int (base q) ++ " × " ++ String_of_int (other q) ++ " = ______")%string)
  \/
  (includeDivision = true /\
   type q = division /\ product q = Some (base q * other q) /\ answer q = other q /\
   questionText q =
     (String_of_int (base q * other q) ++ " ÷ " ++ String_of_int (base q)
        ++ " = ______")%string).
Proof.
  unfold generateQuestion, bind. rewrite pickRandom_run, randomInt_run.
  destruct (array_get selectedTables _) as [b|];
    (destruct includeDivision; [rewrite Math_random_run; destruct (Qltb _ _)|]);
    unfold ret; intros [= <- _]; cbn [type base other product answer questionText];
    first [left; repeat split; reflexivity | right; repeat split; reflexivity].
Qed.

(** X3.  With a non-empty selection of tables between 1 and 20 (what the
    checkbox grid offers) every generated question, division enabled or
    not, has its base in 1..20, its operand in 1..12 and its answer in
    1..240; a division shows a dividend of at most 240 that is the base
    times the answer. *)
Theorem generated_question_ranges (selectedTables : list Z) (includeDivision : bool)
  (s : RandomSource) :
  selectedTables <> [] -> Forall (fun t => 1 <= t <= 20) selectedTables -> unit_draws s ->
  exists (q : Question) (s' : RandomSource),
    generateQuestion selectedTables includeDivision s = (Some q, s') /\
    In (base q) selectedTables /\
    1 <= base q <= 20 /\ 1 <= other q <= 12 /\ 1 <= answer q <= 240 /\
    (type q = division ->
     exists dividend, product q = Some dividend /\
                      dividend = base q * answer q /\ 1 <= dividend <= 240).
Proof.
  intros Hne Hall Hs.
  destruct (generateQuestion_run selectedTables includeDivision s Hne Hs)
    as (q & s' & Hq & _ & Hin & Hother & _).
  exists q, s'. split; [exact Hq|]. split; [exact Hin|].
  assert (1 <= base q <= 20) as Hbase
    by (rewrite Forall_forall in Hall; exact (Hall _ Hin)).
  destruct (generateQuestion_shape _ _ _ _ _ Hq)
    as [(Ht & _ & Ha & _) | (_ & Ht & Hp & Ha & _)].
  - repeat split; try lia; try nia. intro Hd. congruence.
  - repeat split; try lia. intros _. exists (base q * other q).
    rewrite Ha. repeat split; try assumption; nia.
Qed.

Lemma generated_question_ranges_witness :
  [2; 5; 10] <> [] /\ Forall (fun t => 1 <= t <= 20) [2; 5; 10] /\
  unit_draws sample_draws /\
  exists (q : Question) (s' : RandomSource),
    generateQuestion [2; 5; 10] true sample_draws = (Some q, s') /\
    In (base q) [2; 5; 10] /\
    1 <= base q <= 20 /\ 1 <= other q <= 12 /\ 1 <= answer q <= 240 /\
    (type q = division ->
     exists dividend, product q = Some dividend /\
                      dividend = base q * answer q /\ 1 <= dividend <= 240).
Proof.
  assert (Forall (fun t => 1 <= t <= 20) [2; 5; 10]) as Hall
    by (repeat constructor; lia).
  split; [discriminate|]. split; [exact Hall|]. split; [exact sample_draws_unit|].
  apply (generated_question_ranges [2; 5; 10] true sample_draws);
    [discriminate | exact Hall | exact sample_draws_unit].
Defined.

(** The generation loop on a source of unit draws, division enabled or
    not. *)
Lemma generateQuestions_run (selectedTables : list Z) (includeDivision : bool) :
  selectedTables <> [] ->
  forall (iterations : nat) (s : RandomSource),
    unit_draws s ->
    exists (qs : list Question) (s' : RandomSource),
      generateQuestions iterations selectedTables includeDivision s = (map Some qs, s') /\
      unit_draws s' /\
      List.length qs = iterations /\
      Forall (fun q => In (base q) selectedTables /\ 1 <= other q <= 12 /\
                       (answer q = base q * other q \/ answer q = other q)) qs.
Proof.
  intro Hne. induction iterations as [|k IH]; intros s Hs.
  - exists [], s. split; [reflexivity|]. split; [exact Hs|].
    split; [reflexivity | constructor].
  - destruct (generateQuestion_run selectedTables includeDivision s Hne Hs)
      as (q & s1 & Hq & Hs1 & Hbase & Hother & _).
    destruct (IH s1 Hs1) as (qs & s2 & Hqs & Hs2 & Hlen & Hall).
    exists (q :: qs), s2.
    split; [|split; [exact Hs2 | split]].
    + cbn [generateQuestions]. unfold bind at 1. rewrite Hq.
      unfold bind at 1. rewrite Hqs. reflexivity.
    + simpl. now rewrite Hlen.
    + constructor; [|exact Hall].
      split; [exact Hbase|]. split; [exact Hother|].
      destruct (generateQuestion_shape _ _ _ _ _ Hq)
        as [(_ & _ & Ha & _) | (_ & _ & _ & Ha & _)]; auto.
Qed.

(** X4.  For a count of 1..99 and a non-empty selection,
    [generateWorksheet] yields exactly that many well-formed questions
    also when division is enabled: each has its base in the selection,
    its operand in 1..12, and as answer the product or the operand. *)
Theorem worksheet_with_division (selectedTables : list Z) (n : Z)
  (includeDivision : bool) (s : RandomSource) :
  selectedTables <> [] -> 1 <= n <= 99 -> unit_draws s ->
  exists qs : list Question,
    fst (generateWorksheet n selectedTables includeDivision s) = Some (map Some qs) /\
    Z.of_nat (List.length qs) = n /\
    Forall (fun q => In (base q) selectedTables /\ 1 <= other q <= 12 /\
                     (answer q = base q * other q \/ answer q = other q)) qs.
Proof.
  intros Hne Hn Hs.
  destruct (generateQuestions_run selectedTables includeDivision Hne (Z.to_nat n) s Hs)
    as (qs & s' & Hrun & _ & Hlen & Hall).
  exists qs. split; [|split; [lia | exact Hall]].
  unfold generateWorksheet.
  assert (validateInputs n selectedTables = true) as ->.
  { unfold validateInputs.
    destruct (Z.ltb_spec n 1); [lia|]. destruct (Z.gtb_spec n 99); [lia|].
    destruct selectedTables; [congruence | reflexivity]. }
  unfold bind. rewrite Hrun. reflexivity.
Qed.

Lemma worksheet_with_division_witness :
  [3; 7] <> [] /\ 1 <= 20 <= 99 /\ unit_draws sample_draws /\
  exists qs : list Question,
    fst (generateWorksheet 20 [3; 7] true sample_draws) = Some (map Some qs) /\
    Z.of_nat (List.length qs) = 20 /\
    Forall (fun q => In (base q) [3; 7] /\ 1 <= other q <= 12 /\
                     (answer q = base q * other q \/ answer q = other q)) qs.
Proof.
  split; [discriminate|]. split; [lia|]. split; [exact sample_draws_unit|].
  apply (worksheet_with_division [3; 7] 20 true sample_draws);
    [discriminate | lia | exact sample_draws_unit].
Defined.

(** When validation fails (a count outside 1..99 or no table
    selected) [generateWorksheet] generates nothing and draws nothing:
    the result is absent and the randomness source is untouched. *)
Theorem worksheet_rejected (selectedTables : list Z) (n : Z) (includeDivision : bool)
  (s : RandomSource) :
  n < 1 \/ 99 < n \/ selectedTables = [] ->
  generateWorksheet n selectedTables includeDivision s = (None, s).
Proof.
  intro H. unfold generateWorksheet.
  assert (validateInputs n selectedTables = false) as ->; [|reflexivity].
  unfold validateInputs. destruct H as [H|[H|H]].
  - destruct (Z.ltb_spec n 1); [reflexivity | lia].
  - destruct (Z.gtb_spec n 99); [|lia]. now rewrite orb_true_r.
  - subst. cbn. apply andb_false_r.
Qed.

Lemma worksheet_rejected_witness :
  (100 < 1 \/ 99 < 100 \/ [2; 5] = []) /\
  generateWorksheet 100 [2; 5] true sample_draws = (None, sample_draws).
Proof.
  assert (100 < 1 \/ 99 < 100 \/ [2; 5] = []) as H by (right; left; lia).
  split; [exact H|]. exact (worksheet_rejected [2; 5] 100 true sample_draws H).
Defined.

(** Every question of the generation loop comes from a call of
    [generateQuestion] on unit draws. *)
Lemma generateQuestions_each (selectedTables : list Z) (includeDivision : bool) :
  selectedTables <> [] ->
  forall (iterations : nat) (s : RandomSource),
    unit_draws s ->
    exists (qs : list Question) (s' : RandomSource),
      generateQuestions iterations selectedTables includeDivision s = (map Some qs, s') /\
      unit_draws s' /\
      List.length qs = iterations /\
      Forall (fun q => exists s0 s1,
                  unit_draws s0 /\
                  generateQuestion selectedTables includeDivision s0 = (Some q, s1)) qs.
Proof.
  intro Hne. induction iterations as [|k IH]; intros s Hs.
  - exists [], s. split; [reflexivity|]. split; [exact Hs|].
    split; [reflexivity | constructor].
  - destruct (generateQuestion_run selectedTables includeDivision s Hne Hs)
      as (q & s1 & Hq & Hs1 & _).
    destruct (IH s1 Hs1) as (qs & s2 & Hqs & Hs2 & Hlen & Hall).
    exists (q :: qs), s2.
    split; [|split; [exact Hs2 | split]].
    + cbn [generateQuestions]. unfold bind at 1. rewrite Hq.
      unfold bind at 1. rewrite Hqs. reflexivity.
    + simpl. now rewrite Hlen.
    + constructor; [|exact Hall]. exists s, s1. auto.
Qed.

Lemma str_includes_blank (pre : string) :
  str_includes "______" (pre ++ "______") = true.
Proof.
  unfold str_includes.
  induction pre as [|c pre IH]; [reflexivity|].
  change (str_indexOf "______" (String c pre ++ "______"))
    with (if prefix "______" (String c (pre ++ "______")) then Some O
          else option_map S (str_indexOf "______" (pre ++ "______"))).
  destruct (prefix "______" (String c (pre ++ "______"))); [reflexivity|].
  destruct (str_indexOf "______" (pre ++ "______")); [reflexivity | discriminate].
Qed.

(** What the screen and the answer key show of a generated question. *)
Lemma generated_question_lines (selectedTables : list Z) (includeDivision : bool)
  (s s' : RandomSource) (q : Question) :
  generateQuestion selectedTables includeDivision s = (Some q, s') ->
  str_includes "______" (questionText q) = true /\
  no_underscore (answerLine q) = true /\
  no_underscore (str_replace "______" "" (questionText q)) = true.
Proof.
  intro Hq. unfold answerLine.
  destruct (generateQuestion_shape _ _ _ _ _ Hq)
    as [(_ & _ & _ & ->) | (_ & _ & _ & _ & ->)].
  - split; [|split].
    + change (" = ______")%string with (" = " ++ "______")%string.
      rewrite <- !str_append_assoc. apply str_includes_blank.
    + rewrite fill_blank by (try apply no_underscore_String_of_int; reflexivity).
      rewrite !no_underscore_app, !no_underscore_String_of_int. reflexivity.
    + rewrite fill_blank by (try apply no_underscore_String_of_int; reflexivity).
      rewrite !no_underscore_app, !no_underscore_String_of_int. reflexivity.
  - split; [|split].
    + change (" = ______")%string with (" = " ++ "______")%string.
      rewrite <- !str_append_assoc. apply str_includes_blank.
    + rewrite fill_blank by (try apply no_underscore_String_of_int; reflexivity).
      rewrite !no_underscore_app, !no_underscore_String_of_int. reflexivity.
    + rewrite fill_blank by (try apply no_underscore_String_of_int; reflexivity).
      rewrite !no_underscore_app, !no_underscore_String_of_int. reflexivity.
Qed.

(** X5.  On a generated worksheet every question text holds the blank
    and [renderAnswers] produces one line per question in which no
    underscore is left: the answer key never shows a blank. *)
Theorem answer_key_fills_every_blank (selectedTables : list Z) (n : Z)
  (includeDivision : bool) (s : RandomSource) :
  selectedTables <> [] -> 1 <= n <= 99 -> unit_draws s ->
  exists qs : list Question,
    fst (generateWorksheet n selectedTables includeDivision s) = Some (map Some qs) /\
    Z.of_nat (List.length (renderAnswers qs)) = n /\
    Forall (fun q => str_includes "______" (questionText q) = true) qs /\
    Forall (fun line => no_underscore line = true) (renderAnswers qs).
Proof.
  intros Hne Hn Hs.
  destruct (generateQuestions_each selectedTables includeDivision Hne (Z.to_nat n) s Hs)
    as (qs & s' & Hrun & _ & Hlen & Hall).
  exists qs. split; [|split; [|split]].
  - unfold generateWorksheet.
    assert (validateInputs n selectedTables = true) as ->.
    { unfold validateInputs.
      destruct (Z.ltb_spec n 1); [lia|]. destruct (Z.gtb_spec n 99); [lia|].
      destruct selectedTables; [congruence | reflexivity]. }
    unfold bind. rewrite Hrun. reflexivity.
  - unfold renderAnswers. rewrite length_map. lia.
  - eapply Forall_impl; [|exact Hall].
    intros q (s0 & s1 & _ & Hq). exact (proj1 (generated_question_lines _ _ _ _ _ Hq)).
  - unfold renderAnswers. apply Forall_map.
    eapply Forall_impl; [|exact Hall].
    intros q (s0 & s1 & _ & Hq).
    exact (proj1 (proj2 (generated_question_lines _ _ _ _ _ Hq))).
Qed.

Lemma answer_key_fills_every_blank_witness :
  [2; 5; 10] <> [] /\ 1 <= 10 <= 99 /\ unit_draws sample_draws /\
  exists qs : list Question,
    fst (generateWorksheet 10 [2; 5; 10] true sample_draws) = Some (map Some qs) /\
    Z.of_nat (List.length (renderAnswers qs)) = 10 /\
    Forall (fun q => str_includes "______" (questionText q) = true) qs /\
    Forall (fun line => no_underscore line = true) (renderAnswers qs).
Proof.
  split; [discriminate|]. split; [lia|]. split; [exact sample_draws_unit|].
  apply (answer_key_fills_every_blank [2; 5; 10] 10 true sample_draws);
    [discriminate | lia | exact sample_draws_unit].
Defined.

(** ** The on-screen worksheet *)

(** X6.  For a worksheet of at least one question (the only ones its
    callers render), [renderWorksheet] shows one list item per
    question, in order, and whatever the number of questions its font
    size stays between the 0.875 rem floor and 1.6 rem (20 mm at
    0.08 rem per mm). *)
Theorem renderWorksheet_font_bounds (Math_pow : Q -> Q -> Q) (questions : list Question) :
  questions <> [] ->
  let view := renderWorksheet Math_pow questions in
  listItems view = map questionText questions /\
  List.length (listItems view) = List.length questions /\
  ((875 # 1000) <= screenFontSizeRem view /\ screenFontSizeRem view <= 16 # 10)%Q.
Proof.
  intros _ view. subst view. unfold renderWorksheet. cbv zeta.
  cbn [listItems screenFontSizeRem].
  split; [reflexivity|]. split; [apply length_map|].
  destruct (fontSize_bounds Math_pow (Z.of_nat (List.length questions))) as [_ Hhi].
  split; [apply Math_max_lb_l|]. apply Math_max_lub; lra.
Qed.

Lemma renderWorksheet_font_bounds_witness :
  sample_questions <> [] /\
  listItems (renderWorksheet (fun _ _ => 1 # 2)%Q sample_questions)
  = ["2 × 7 = ______"; "60 ÷ 5 = ______"; "10 × 3 = ______"]%string /\
  (screenFontSizeRem (renderWorksheet (fun _ _ => 1 # 2)%Q sample_questions) <= 16 # 10)%Q.
Proof.
  assert (sample_questions <> []) as Hne by discriminate.
  split; [exact Hne|].
  destruct (renderWorksheet_font_bounds (fun _ _ => 1 # 2)%Q sample_questions Hne)
    as (Hitems & _ & _ & Hhi).
  split; [exact Hitems | exact Hhi].
Defined.

(** ** Presentation layout, further *)

Lemma presentationBaseFont_values (n : Z) :
  presentationBaseFont n = 40%Q \/ presentationBaseFont n = 32%Q \/
  presentationBaseFont n = 26%Q \/ presentationBaseFont n = 22%Q \/
  presentationBaseFont n = 18%Q.
Proof.
  unfold presentationBaseFont.
  destruct (n <=? 12); [auto|]. destruct (n <=? 24); [auto|].
  destruct (n <=? 40); [auto|]. destruct (n <=? 60); auto.
Qed.

Lemma presentationBaseFont_range (n : Z) :
  (18 <= presentationBaseFont n /\ presentationBaseFont n <= 40)%Q.
Proof.
  destruct (presentationBaseFont_values n) as [H|[H|[H|[H|H]]]]; rewrite H; lra.
Qed.

Lemma presentationBaseFont_antitone (n m : Z) :
  n <= m -> (presentationBaseFont m <= presentationBaseFont n)%Q.
Proof.
  intro H. unfold presentationBaseFont.
  destruct (Z.leb_spec n 12); destruct (Z.leb_spec m 12); try lia;
    destruct (Z.leb_spec n 24); destruct (Z.leb_spec m 24); try lia;
    destruct (Z.leb_spec n 40); destruct (Z.leb_spec m 40); try lia;
    destruct (Z.leb_spec n 60); destruct (Z.leb_spec m 60); try lia; lra.
Qed.

Lemma Math_round_integer (k : Z) : Math_round (inject_Z k) = k.
Proof.
  unfold Math_round. apply (Math_floor_unique (inject_Z k + (1 # 2)) k).
  rewrite inject_Z_plus. change (inject_Z 1) with 1%Q. lra.
Qed.

(** The clamp without the 44 px cap. *)
Lemma presentationClampedFont_no_cap (innerHeight : Q) (n : Z) :
  (presentationClampedFont innerHeight n
   == Qmax 18 (Qmin (presentationBaseFont n) (innerHeight / 18)))%Q.
Proof.
  unfold presentationClampedFont, Math_max, Math_min,
    PRESENTATION_MIN_FONT_PX, PRESENTATION_MAX_FONT_PX. cbv zeta.
  destruct (presentationBaseFont_range n) as [_ Hhi].
  rewrite Q.min_assoc.
  rewrite (Q.min_l (presentationBaseFont n) 44) by lra. reflexivity.
Qed.

(** X7.  For every question count and every viewport height (even a
    degenerate one) the presentation font is a whole number of pixels
    between 18 and 40, and the 44 px maximum never takes part: the result
    is the rounded max(18, min(tier, height / 18)). *)
Theorem presentation_font_range (innerHeight : Q) (n : Z) :
  18 <= fontSizePx (calculatePresentationLayout innerHeight n) <= 40 /\
  fontSizePx (calculatePresentationLayout innerHeight n)
  = Math_round (Qmax 18 (Qmin (presentationBaseFont n) (innerHeight / 18))).
Proof.
  cbn [calculatePresentationLayout fontSizePx].
  pose proof (presentationClampedFont_no_cap innerHeight n) as Heq.
  destruct (presentationBaseFont_range n) as [Hlo Hhi].
  assert (18 <= presentationClampedFont innerHeight n
          /\ presentationClampedFont innerHeight n <= 40)%Q as [H18 H40].
  { rewrite Heq. split; [apply Q.le_max_l|].
    apply Q.max_lub; [lra|]. eapply Qle_trans; [apply Q.le_min_l | exact Hhi]. }
  split.
  - split.
    + change 18 with (Math_round 18). apply Math_round_mono. exact H18.
    + change 40 with (Math_round 40). apply Math_round_mono. exact H40.
  - unfold Math_round. apply Qfloor_comp. rewrite Heq. reflexivity.
Qed.

(** X8.  The presentation font never grows with the number of questions
    and never shrinks with the viewport height. *)
Theorem presentation_font_monotone (h h' : Q) (n m : Z) :
  n <= m -> (h <= h')%Q ->
  fontSizePx (calculatePresentationLayout h m)
    <= fontSizePx (calculatePresentationLayout h n) /\
  fontSizePx (calculatePresentationLayout h n)
    <= fontSizePx (calculatePresentationLayout h' n).
Proof.
  intros Hnm Hh. cbn [calculatePresentationLayout fontSizePx].
  split; apply Math_round_mono; rewrite !presentationClampedFont_no_cap.
  - apply Q.max_le_compat_l. apply Q.min_le_compat_r.
    apply presentationBaseFont_antitone. exact Hnm.
  - apply Q.max_le_compat_l. apply Q.min_le_compat_l.
    unfold Qdiv. apply Qmult_le_compat_r; [exact Hh | discriminate].
Qed.

Lemma presentation_font_monotone_witness :
  12 <= 13 /\ (400 <= 1080)%Q /\
  fontSizePx (calculatePresentationLayout 400 13)
    <= fontSizePx (calculatePresentationLayout 400 12) /\
  fontSizePx (calculatePresentationLayout 400 12)
    <= fontSizePx (calculatePresentationLayout 1080 12).
Proof.
  split; [lia|]. split; [discriminate|].
  apply (presentation_font_monotone 400 1080 12 13); [lia | discriminate].
Defined.

(** X9.  On a viewport at least 720 px high the font is exactly the
    tier of the question count (40, 32, 26, 22 or 18 px); on one at most
    324 px high it is 18 px for every count. *)
Theorem presentation_font_by_viewport (innerHeight : Q) (n : Z) :
  ((720 <= innerHeight)%Q ->
   fontSizePx (calculatePresentationLayout innerHeight n)
   = if n <=? 12 then 40 else if n <=? 24 then 32 else if n <=? 40 then 26
     else if n <=? 60 then 22 else 18) /\
  ((innerHeight <= 324)%Q ->
   fontSizePx (calculatePresentationLayout innerHeight n) = 18).
Proof.
  cbn [calculatePresentationLayout fontSizePx]. unfold Math_round.
  destruct (presentationBaseFont_range n) as [Hlo Hhi].
  split; intro Hh.
  - assert (presentationClampedFont innerHeight n == presentationBaseFont n)%Q as Heq.
    { rewrite presentationClampedFont_no_cap.
      rewrite Q.min_l by (unfold Qdiv; change (/ 18)%Q with (1 # 18)%Q; lra).
      apply Q.max_r. exact Hlo. }
    rewrite (Qfloor_comp _ _ (Qplus_comp _ _ Heq _ _ (Qeq_refl (1 # 2)))).
    unfold presentationBaseFont.
    destruct (n <=? 12); [reflexivity|]. destruct (n <=? 24); [reflexivity|].
    destruct (n <=? 40); [reflexivity|]. destruct (n <=? 60); reflexivity.
  - assert (presentationClampedFont innerHeight n == 18)%Q as Heq.
    { rewrite presentationClampedFont_no_cap.
      apply Q.max_l. eapply Qle_trans; [apply Q.le_min_r|].
      unfold Qdiv. change (/ 18)%Q with (1 # 18)%Q. lra. }
    rewrite (Qfloor_comp _ _ (Qplus_comp _ _ Heq _ _ (Qeq_refl (1 # 2)))).
    reflexivity.
Qed.

Lemma presentation_font_by_viewport_witness :
  (720 <= 1080)%Q /\ (300 <= 324)%Q /\
  fontSizePx (calculatePresentationLayout 1080 30) = 26 /\
  fontSizePx (calculatePresentationLayout 300 30) = 18.
Proof.
  split; [discriminate|]. split; [discriminate|]. split.
  - exact (proj1 (presentation_font_by_viewport 1080 30) ltac:(discriminate)).
  - exact (proj2 (presentation_font_by_viewport 300 30) ltac:(discriminate)).
Defined.

(** [updatePresentationColumns] returns 3, 4 or 5 for every
    integer; outside 1..20, and so also for a count below 1, it falls
    through to 5. *)
Theorem presentation_columns_total (n : Z) :
  (updatePresentationColumns n = 3 \/ updatePresentationColumns n = 4 \/
   updatePresentationColumns n = 5) /\
  (updatePresentationColumns n = 5 <-> n < 1 \/ 20 < n).
Proof.
  unfold updatePresentationColumns.
  destruct (Z.geb_spec n 1); destruct (Z.leb_spec n 9); destruct (Z.geb_spec n 10);
    destruct (Z.leb_spec n 20); destruct (Z.geb_spec n 21); destruct (Z.leb_spec n 40);
    cbn [andb]; try lia; (split; [auto|]); split; intros; try lia; auto.
Qed.

(** ** Print layout, further *)

(** X10.  On 1..99 the minimum line heights of step 7 (15 mm up to 5
    questions, 12 mm up to 10) never apply: the line height stays the
    usable 242 mm divided by the rows of a column, which is at least
    48.4 mm for up to 10 questions, and the returned value is that
    quotient within 0.05 mm. *)
Theorem print_line_height_floor_unused (Math_pow : Q -> Q -> Q) (n : Z) :
  1 <= n <= 99 ->
  let l := layoutLocals Math_pow n in
  let plan := calculateOptimalLayout Math_pow n in
  (l_finalLineHeight l == l_lineHeight l /\
   l_lineHeight l == 242 / inject_Z (l_questionsPerColumn l) /\
   ((n <= 10)%Z -> (484 # 10) <= l_lineHeight l) /\
   l_lineHeight l - (1 # 20) < lineHeight plan /\
   lineHeight plan <= l_lineHeight l + (1 # 20))%Q.
Proof.
  intros Hn l plan.
  assert ((fun k =>
             let l := layoutLocals Math_pow k in
             Qeq_bool (l_finalLineHeight l) (l_lineHeight l)
             && Qeq_bool (l_lineHeight l) (242 / inject_Z (l_questionsPerColumn l))
             && implb (k <=? 10) (Qle_bool (484 # 10) (l_lineHeight l))) n = true) as H.
  { revert n Hn l plan. intros n Hn _ _. revert n Hn. apply all_counts.
    vm_compute. reflexivity. }
  cbv beta zeta in H. fold l in H.
  apply andb_true_iff in H as [H Himp]. apply andb_true_iff in H as [Hfin Hline].
  apply Qeq_bool_iff in Hfin, Hline.
  split; [exact Hfin|]. split; [exact Hline|]. split.
  - intro H10. destruct (Z.leb_spec n 10); [|lia]. cbn [implb] in Himp.
    apply Qle_bool_iff. exact Himp.
  - subst plan. rewrite lineHeight_unfold. fold l.
    pose proof (round1_lower (l_finalLineHeight l)).
    pose proof (round1_upper (l_finalLineHeight l)). split; lra.
Qed.

Lemma print_line_height_floor_unused_witness :
  1 <= 5 <= 99 /\
  (l_finalLineHeight (layoutLocals (fun _ _ => 1) 5)
   == l_lineHeight (layoutLocals (fun _ _ => 1) 5))%Q /\
  ((484 # 10) <= l_lineHeight (layoutLocals (fun _ _ => 1) 5))%Q.
Proof.
  split; [lia|].
  pose proof (print_line_height_floor_unused (fun _ _ => 1%Q) 5 ltac:(lia)) as H.
  cbv zeta in H. destruct H as (H1 & _ & H3 & _).
  split; [exact H1 | apply H3; lia].
Defined.

(** X11.  On 1..99 the grid of the print layout is tight: the columns
    times the rows per column hold all the questions, no column is left
    empty (the columns before the last are full and the last one gets
    at least one question), and a column has at most 33 rows. *)
Theorem print_grid_tight (Math_pow : Q -> Q -> Q) (n : Z) :
  1 <= n <= 99 ->
  let l := layoutLocals Math_pow n in
  n <= l_columns l * l_questionsPerColumn l /\
  (l_columns l - 1) * l_questionsPerColumn l < n /\
  1 <= l_questionsPerColumn l <= 33 /\
  l_questionsPerColumn l = (n + l_columns l - 1) / l_columns l.
Proof.
  intros Hn l.
  assert ((fun k =>
             let l := layoutLocals Math_pow k in
             (k <=? l_columns l * l_questionsPerColumn l)
             && ((l_columns l - 1) * l_questionsPerColumn l <? k)
             && (1 <=? l_questionsPerColumn l) && (l_questionsPerColumn l <=? 33)
             && (l_questionsPerColumn l =? (k + l_columns l - 1) / l_columns l)) n = true)
    as H.
  { revert n Hn l. intros n Hn _. revert n Hn. apply all_counts.
    vm_compute. reflexivity. }
  cbv beta zeta in H. fold l in H.
  repeat (apply andb_true_iff in H as [H ?]).
  repeat split;
    first [apply Z.leb_le; assumption | apply Z.ltb_lt; assumption
          | apply Z.eqb_eq; assumption].
Qed.

Lemma print_grid_tight_witness :
  1 <= 67 <= 99 /\
  67 <= l_columns (layoutLocals (fun _ _ => 1%Q) 67)
        * l_questionsPerColumn (layoutLocals (fun _ _ => 1%Q) 67) /\
  (l_columns (layoutLocals (fun _ _ => 1%Q) 67) - 1)
    * l_questionsPerColumn (layoutLocals (fun _ _ => 1%Q) 67) < 67.
Proof.
  split; [lia|].
  pose proof (print_grid_tight (fun _ _ => 1%Q) 67 ltac:(lia)) as H.
  cbv zeta in H. destruct H as (H1 & H2 & _). split; assumption.
Defined.

(** X12.  As soon as a column has 22 rows or more the 85% bound is below
    the minimum and the returned font is exactly 9.5 mm, whatever the
    interpolation of step 4 gives. *)
Theorem print_font_at_floor (Math_pow : Q -> Q -> Q) (n : Z) :
  1 <= n <= 99 -> 22 <= l_questionsPerColumn (layoutLocals Math_pow n) ->
  (l_clampedFontSize (layoutLocals Math_pow n) == 19 # 2 /\
   fontSize (calculateOptimalLayout Math_pow n) == 19 # 2)%Q.
Proof.
  intros Hn Hrows.
  assert ((fun k =>
             let l := layoutLocals Math_pow k in
             implb (22 <=? l_questionsPerColumn l)
               (Qle_bool (l_lineHeight l * (85 # 100)) (19 # 2))) n = true) as H.
  { revert n Hn Hrows. intros n Hn _. revert n Hn. apply all_counts.
    vm_compute. reflexivity. }
  cbv beta zeta in H.
  destruct (Z.leb_spec 22 (l_questionsPerColumn (layoutLocals Math_pow n))); [|lia].
  cbn [implb] in H. apply Qle_bool_iff in H.
  destruct (clampedFontSize_bounds Math_pow n) as (Hlo & _ & Hcap).
  assert (l_clampedFontSize (layoutLocals Math_pow n) == 19 # 2)%Q as Heq.
  { apply Qle_antisym; [|exact Hlo].
    eapply Qle_trans; [exact Hcap|]. apply Q.max_lub; lra. }
  split; [exact Heq|].
  rewrite fontSize_unfold.
  assert (Math_round (l_clampedFontSize (layoutLocals Math_pow n) * 10) = 95) as ->.
  { unfold Math_round.
    assert (l_clampedFontSize (layoutLocals Math_pow n) * 10 + (1 # 2)
            == (19 # 2) * 10 + (1 # 2))%Q as Hq by (rewrite Heq; reflexivity).
    rewrite (Qfloor_comp _ _ Hq). reflexivity. }
  reflexivity.
Qed.

Lemma print_font_at_floor_witness :
  1 <= 99 <= 99 /\ 22 <= l_questionsPerColumn (layoutLocals (fun _ _ => 0%Q) 99) /\
  (fontSize (calculateOptimalLayout (fun _ _ => 0%Q) 99) == 19 # 2)%Q.
Proof.
  split; [lia|]. split; [vm_compute; discriminate|].
  refine (proj2 (print_font_at_floor (fun _ _ => 0%Q) 99 _ _));
    [lia | vm_compute; discriminate].
Defined.

(* ================================================================== *)
(** ** PDF export, further *)

Section PdfDrawing.

Variable splitTextToSize : Q -> string -> Q -> list string.
Variable getTextWidth : Q -> string -> Q.
Variable questions : list Question.
Variable layout : LayoutPlan.
Variables margin columnWidth columnGap startY maxY : Q.
Variable questionsPerColumn : Z.
Variable lineSpacing : Q.
Variable showAnswers : bool.

Local Abbreviation draw :=
  (drawLines getTextWidth layout maxY lineSpacing showAnswers).
Local Abbreviation qloop :=
  (questionLoop splitTextToSize getTextWidth questions layout columnWidth maxY
     questionsPerColumn lineSpacing showAnswers).
Local Abbreviation cloop :=
  (columnLoop splitTextToSize getTextWidth questions layout margin columnWidth
     columnGap startY maxY questionsPerColumn lineSpacing showAnswers).

(** Every text call of a question's lines is made between the pen
    position at the start and the last position that leaves room for
    a line. *)
Lemma drawLines_text_bounds (columnX : Q) (answerValue : option string) (total : Z) :
  (0 <= lineSpacing)%Q ->
  forall (lines : list string) (lineIndex : Z) (y0 : Q) (s : string) (x y : Q) (c : bool),
    In (text s x y c) (fst (draw columnX answerValue total lines lineIndex y0)) ->
    (y0 <= y /\ y <= maxY - lineSpacing)%Q.
Proof.
  intro Hls. induction lines as [|line rest IH]; intros lineIndex y0 s x y c Hin;
    [destruct Hin|].
  cbn [drawLines] in Hin.
  destruct (Qgtb y0 (maxY - lineSpacing)) eqn:Hfit; [eapply IH; exact Hin|].
  apply Qgtb_false in Hfit.
  set (y' := if lineIndex <? total - 1 then _ else _) in Hin.
  assert (y0 <= y')%Q as Hy' by (subst y'; destruct (lineIndex <? total - 1); lra).
  specialize (IH (lineIndex + 1) y' s x y c).
  destruct (draw columnX answerValue total rest (lineIndex + 1) y') as [ops' yEnd].
  cbn [fst] in Hin, IH. apply in_app_or in Hin as [Hin|Hin].
  - assert (y = y0) as ->; [|split; [apply Qle_refl | exact Hfit]].
    destruct answerValue as [a|];
      [destruct (showAnswers && negb (a =? "")%string && (lineIndex =? total - 1)
                 && str_includes a line);
       [destruct (str_lastIndexOf a line);
        [destruct (negb (str_take n line =? "")%string)|]|]|];
      cbn in Hin;
      repeat (destruct Hin as [Hin|Hin]; [try discriminate Hin; now injection Hin|]);
      destruct Hin.
  - destruct (IH Hin) as [H1 H2]. split; [lra | exact H2].
Qed.

(** The height a question wrapped into several lines takes: each line
    but the last moves the pen down by 60% of the line spacing. *)
Lemma drawLines_wrapped (columnX : Q) (answerValue : option string) (total : Z) :
  (0 <= lineSpacing)%Q ->
  forall (lines : list string) (lineIndex : Z) (y : Q),
    lines <> [] ->
    total = lineIndex + Z.of_nat (List.length lines) ->
    (y + (6 # 10) * lineSpacing * inject_Z (Z.of_nat (List.length lines) - 1)
     <= maxY - lineSpacing)%Q ->
    (snd (draw columnX answerValue total lines lineIndex y)
     == y + (6 # 10) * lineSpacing * inject_Z (Z.of_nat (List.length lines) - 1))%Q.
Proof.
  intro Hls. induction lines as [|line rest IH]; intros lineIndex y Hne Htotal Hfit;
    [congruence|].
  cbn [drawLines].
  assert (0 <= inject_Z (Z.of_nat (List.length rest)))%Q as Hlen
    by (change 0%Q with (inject_Z 0); rewrite <- Zle_Qle; lia).
  assert (0 <= lineSpacing * inject_Z (Z.of_nat (List.length rest)))%Q as Hprod
    by (apply Qmult_le_0_compat; assumption).
  replace (Z.of_nat (List.length (line :: rest)) - 1)
    with (Z.of_nat (List.length rest)) in * by (cbn [List.length]; lia).
  assert (y <= maxY - lineSpacing)%Q as Hy by lra.
  apply Qgtb_false in Hy. rewrite Hy.
  destruct rest as [|line2 rest2].
  - cbn [List.length] in *.
    destruct (Z.ltb_spec lineIndex (total - 1)); [lia|].
    cbn [drawLines].
    cbn [snd]. change (inject_Z (Z.of_nat 0)) with 0%Q. ring.
  - destruct (Z.ltb_spec lineIndex (total - 1)); [|cbn [List.length] in Htotal; lia].
    specialize (IH (lineIndex + 1) (y + lineSpacing * (6 # 10))%Q ltac:(discriminate)).
    assert (Z.of_nat (List.length (line2 :: rest2)) - 1
            = Z.of_nat (List.length rest2)) as Hr by (cbn [List.length]; lia).
    assert (inject_Z (Z.of_nat (List.length (line2 :: rest2)))
            == inject_Z (Z.of_nat (List.length rest2)) + 1)%Q as Hq.
    { rewrite <- Hr. replace (Z.of_nat (List.length (line2 :: rest2)))
        with (Z.of_nat (List.length (line2 :: rest2)) - 1 + 1) at 1 by lia.
      rewrite inject_Z_plus. reflexivity. }
    rewrite Hr in IH.
    assert (total = lineIndex + 1 + Z.of_nat (List.length (line2 :: rest2))) as Ht
      by (cbn [List.length] in *; lia).
    specialize (IH Ht).
    rewrite Hq in Hfit.
    assert (y + lineSpacing * (6 # 10)
            + (6 # 10) * lineSpacing * inject_Z (Z.of_nat (List.length rest2))
            <= maxY - lineSpacing)%Q as Hfit' by lra.
    specialize (IH Hfit').
    destruct (draw columnX answerValue total (line2 :: rest2) (lineIndex + 1)
                (y + lineSpacing * (6 # 10))%Q) as [ops' yEnd].
    cbn [snd] in *. rewrite IH, Hq. ring.
Qed.

End PdfDrawing.

(** X13.  On either page of the PDF of 1..99 questions every text call
    of the question loops is made at a height between the first row
    (40 mm) and one line height above the bottom margin, whatever the
    text measurement returns: the loops never write into the bottom
    margin, where the footer stands. *)
Theorem pdf_text_stays_above_margin (Math_pow : Q -> Q -> Q) (pageWidth pageHeight : Q)
  (splitTextToSize : Q -> string -> Q -> list string) (getTextWidth : Q -> string -> Q)
  (questions : list Question) (showAnswers : bool)
  (p : Placed) (s : string) (x y : Q) (c : bool) :
  1 <= Z.of_nat (List.length questions) <= 99 ->
  In p (pdfPlaced Math_pow pageWidth pageHeight splitTextToSize getTextWidth
          questions showAnswers) ->
  In (text s x y c) (placedOps p) ->
  let layout := calculateOptimalLayout Math_pow (Z.of_nat (List.length questions)) in
  (40 <= y /\ y <= pageHeight - 15 - lineHeight layout /\ y < pageHeight - 8)%Q.
Proof.
  intros Hn Hin Hop layout.
  destruct (layout_grid Math_pow _ Hn) as (_ & _ & Hl0 & _). fold layout in Hl0.
  pose proof (pdfPlaced_placed Math_pow pageWidth pageHeight splitTextToSize
                getTextWidth questions showAnswers p Hn Hin) as Hp.
  cbv zeta in Hp. fold layout in Hp.
  destruct Hp as (_ & Hrow & _ & _ & _ & _ & Hy0 & _).
  unfold pdfPlaced, placeQuestions in Hin. cbv zeta in Hin. fold layout in Hin.
  apply columnLoop_ops in Hin. destruct Hin as (_ & question & _ & Hops).
  rewrite Hops in Hop.
  apply drawLines_text_bounds in Hop; [|exact Hl0].
  destruct Hop as [H1 H2].
  assert (0 <= inject_Z (placedRow p) * lineHeight layout)%Q as Hnn.
  { apply Qmult_le_0_compat; [|exact Hl0].
    change 0%Q with (inject_Z 0). rewrite <- Zle_Qle. lia. }
  repeat split; lra.
Qed.

Lemma pdf_text_stays_above_margin_witness :
  let p := {| placedIndex := 1; placedColumn := 0; placedRow := 1; placedX := 15;
              placedY := (40 + (807 # 10))%Q; placedText := "2) 60 ÷ 5 = ______";
              placedOps := [setTextColor 0 0 0;
                            text "2) 60 ÷ 5 = ______" 15 (40 + (807 # 10))%Q false] |} in
  1 <= Z.of_nat (List.length sample_questions) <= 99 /\
  In p (pdfPlaced (fun _ _ => 1 # 2)%Q 210 297 noWrap unitWidth sample_questions false) /\
  (40 <= 40 + (807 # 10)
   /\ 40 + (807 # 10)
      <= 297 - 15 - lineHeight (calculateOptimalLayout (fun _ _ => 1 # 2) 3)
   /\ 40 + (807 # 10) < 297 - 8)%Q.
Proof.
  intro p.
  assert (1 <= Z.of_nat (List.length sample_questions) <= 99) as Hn by (simpl; lia).
  assert (In p (pdfPlaced (fun _ _ => 1 # 2)%Q 210 297 noWrap unitWidth
                  sample_questions false)) as Hin by (right; left; reflexivity).
  split; [exact Hn|]. split; [exact Hin|].
  refine (pdf_text_stays_above_margin (fun _ _ => 1 # 2)%Q 210 297 noWrap unitWidth
            sample_questions false p "2) 60 ÷ 5 = ______" 15 (40 + (807 # 10))%Q false
            Hn Hin _).
  right. left. reflexivity.
Defined.

(** Two neighbours of a concatenation are neighbours in one of its
    parts, or the last of the first and the first of the second. *)
Lemma app_neighbours {A : Type} (l1 l2 before after : list A) (p next : A) :
  l1 ++ l2 = before ++ p :: next :: after ->
  (exists after', l1 = before ++ p :: next :: after') \/
  (In p l1 /\ In next l2) \/
  (exists before', l2 = before' ++ p :: next :: after).
Proof.
  revert before. induction l1 as [|a l1 IH]; intros before H.
  - right. right. exists before. exact H.
  - destruct before as [|b before].
    + cbn [app] in H. injection H as -> H. destruct l1 as [|a' l1].
      * right. left. split; [left; reflexivity|]. cbn [app] in H. rewrite H.
        left. reflexivity.
      * cbn [app] in H. injection H as -> H. left. exists l1. reflexivity.
    + cbn [app] in H. injection H as -> H.
      destruct (IH before H) as [(after' & ->)|[[Hp Hn]|(before' & ->)]].
      * left. exists after'. reflexivity.
      * right. left. split; [right; exact Hp | exact Hn].
      * right. right. exists before'. reflexivity.
Qed.

Section PdfNeighbours.

Variable splitTextToSize : Q -> string -> Q -> list string.
Variable getTextWidth : Q -> string -> Q.
Variable questions : list Question.
Variable layout : LayoutPlan.
Variables margin columnWidth columnGap startY maxY : Q.
Variable questionsPerColumn : Z.
Variable lineSpacing : Q.
Variable showAnswers : bool.

Local Abbreviation draw :=
  (drawLines getTextWidth layout maxY lineSpacing showAnswers).
Local Abbreviation qloop :=
  (questionLoop splitTextToSize getTextWidth questions layout columnWidth maxY
     questionsPerColumn lineSpacing showAnswers).
Local Abbreviation cloop :=
  (columnLoop splitTextToSize getTextWidth questions layout margin columnWidth
     columnGap startY maxY questionsPerColumn lineSpacing showAnswers).

(** The pen position after the lines of a drawn question. *)
Local Abbreviation penAfter p answerValue :=
  (snd (draw (placedX p) answerValue
          (Z.of_nat (List.length
             (splitTextToSize (fontSize layout) (placedText p) (columnWidth - 8))))
          (splitTextToSize (fontSize layout) (placedText p) (columnWidth - 8))
          0 (placedY p))).

(** The first iteration of a column's loop that draws starts at the
    loop's pen position. *)
Lemma questionLoop_head :
  forall (remaining : nat) (col : Z) (columnX : Q) (i : Z) (y : Q) (p : Placed)
         (rest : list Placed),
    qloop remaining col columnX i y = p :: rest ->
    placedIndex p = col * questionsPerColumn + i /\ placedRow p = i /\ placedY p = y.
Proof.
  intros [|k] col columnX i y p rest H; [discriminate H|].
  cbn [questionLoop] in H. cbv zeta in H.
  destruct (_ >=? _) in H; [discriminate H|].
  destruct (Qgtb y (maxY - lineSpacing)) in H; [discriminate H|].
  destruct (array_get questions (col * questionsPerColumn + i)) in H; [|discriminate H].
  match type of H with
  | (let (_, _) := ?d in _) = _ => destruct d as [ops yEnd]
  end.
  injection H as <- _. repeat split.
Qed.

(** The iteration after a drawn question starts one line spacing below
    the pen position its lines have left. *)
Lemma questionLoop_next :
  forall (remaining : nat) (col : Z) (columnX : Q) (i : Z) (y : Q)
         (before : list Placed) (p next : Placed) (after : list Placed),
    qloop remaining col columnX i y = before ++ p :: next :: after ->
    placedIndex next = placedIndex p + 1 /\
    placedRow next = placedRow p + 1 /\
    exists answerValue, placedY next = (penAfter p answerValue + lineSpacing)%Q.
Proof.
  induction remaining as [|k IH]; intros col columnX i y before p next after H.
  { destruct before; discriminate H. }
  cbn [questionLoop] in H. cbv zeta in H.
  destruct (_ >=? _) in H; [destruct before; discriminate H|].
  destruct (Qgtb y (maxY - lineSpacing)) in H; [destruct before; discriminate H|].
  destruct (array_get questions (col * questionsPerColumn + i)) as [question|] eqn:Hget;
    [|destruct before; discriminate H].
  match type of H with
  | (let (_, _) := ?d in _) = _ => destruct d as [ops yEnd] eqn:Hdraw
  end.
  destruct before as [|b before].
  - cbn [app] in H. injection H as <- H.
    apply questionLoop_head in H. destruct H as (Hidx & Hrow & Hy).
    split; [cbn [placedIndex]; lia|]. split; [exact Hrow|].
    exists (if showAnswers then Some (String_of_int (answer question)) else None).
    change yEnd with (snd (ops, yEnd)) in Hy. rewrite <- Hdraw in Hy. exact Hy.
  - cbn [app] in H. injection H as _ H. exact (IH _ _ _ _ _ _ _ _ H).
Qed.

Lemma columnLoop_next :
  forall (remaining : nat) (col : Z)
         (before : list Placed) (p next : Placed) (after : list Placed),
    cloop remaining col = before ++ p :: next :: after ->
    placedColumn next = placedColumn p ->
    placedIndex next = placedIndex p + 1 /\
    placedRow next = placedRow p + 1 /\
    exists answerValue, placedY next = (penAfter p answerValue + lineSpacing)%Q.
Proof.
  induction remaining as [|k IH]; intros col before p next after H Hcol.
  { destruct before; discriminate H. }
  cbn [columnLoop] in H. cbv zeta in H.
  apply app_neighbours in H as [(after' & H)|[[Hp Hn]|(before' & H)]].
  - exact (questionLoop_next _ _ _ _ _ _ _ _ _ H).
  - apply questionLoop_placed in Hp. apply columnLoop_placed in Hn.
    destruct Hp as (Hp & _). destruct Hn as (Hn & _). lia.
  - exact (IH _ _ _ _ _ H Hcol).
Qed.

End PdfNeighbours.

(** X14.  On a page of the PDF of 1..99 questions, take a drawn
    question whose text is split into one or more lines that all fit
    above the bottom margin.  Each of its lines but the last moves the
    pen down by 60% of the line spacing, and the question drawn next in
    the same column, which is the next question of the worksheet in the
    next row, starts one full line spacing below the last line. *)
Theorem pdf_wrapped_lines_spacing (Math_pow : Q -> Q -> Q) (pageWidth pageHeight : Q)
  (splitTextToSize : Q -> string -> Q -> list string) (getTextWidth : Q -> string -> Q)
  (questions : list Question) (showAnswers : bool)
  (before : list Placed) (p next : Placed) (after : list Placed) :
  1 <= Z.of_nat (List.length questions) <= 99 ->
  pdfPlaced Math_pow pageWidth pageHeight splitTextToSize getTextWidth questions showAnswers
  = before ++ p :: next :: after ->
  placedColumn next = placedColumn p ->
  let layout := calculateOptimalLayout Math_pow (Z.of_nat (List.length questions)) in
  let lineSpacing := lineHeight layout in
  let maxY := (pageHeight - 15)%Q in
  let lines :=
    splitTextToSize (fontSize layout) (placedText p) (pdfColumnWidth pageWidth layout - 8)%Q in
  let wrapped := ((6 # 10) * lineSpacing * inject_Z (Z.of_nat (List.length lines) - 1))%Q in
  lines <> [] ->
  (placedY p + wrapped <= maxY - lineSpacing)%Q ->
  (forall answerValue : option string,
      snd (drawLines getTextWidth layout maxY lineSpacing showAnswers (placedX p)
             answerValue (Z.of_nat (List.length lines)) lines 0 (placedY p))
      == placedY p + wrapped)%Q /\
  placedIndex next = placedIndex p + 1 /\
  placedRow next = placedRow p + 1 /\
  (placedY next == placedY p + wrapped + lineSpacing)%Q.
Proof.
  intros Hn Hplaced Hcol layout lineSpacing maxY lines wrapped Hne Hfit.
  destruct (layout_grid Math_pow _ Hn) as (_ & _ & Hl0 & _).
  fold layout in Hl0. fold lineSpacing in Hl0.
  assert (forall answerValue : option string,
      snd (drawLines getTextWidth layout maxY lineSpacing showAnswers (placedX p)
             answerValue (Z.of_nat (List.length lines)) lines 0 (placedY p))
      == placedY p + wrapped)%Q as Hpen.
  { intro answerValue. apply drawLines_wrapped; [exact Hl0 | exact Hne | lia | exact Hfit]. }
  unfold pdfPlaced, placeQuestions in Hplaced. cbv zeta in Hplaced.
  apply columnLoop_next in Hplaced; [|exact Hcol].
  destruct Hplaced as (Hidx & Hrow & answerValue & Hy).
  split; [exact Hpen|]. split; [exact Hidx|]. split; [exact Hrow|].
  rewrite Hy. fold layout. fold lineSpacing. fold maxY. fold lines.
  rewrite (Hpen answerValue). reflexivity.
Qed.

Lemma pdf_wrapped_lines_spacing_witness :
  let placed :=
    pdfPlaced (fun _ _ => 1 # 2)%Q 210 297 wrapAfterTen unitWidth sample_questions true in
  let p := nth 0 placed (mkPlaced 0 0 0 0 0 "" []) in
  let next := nth 1 placed (mkPlaced 0 0 0 0 0 "" []) in
  1 <= Z.of_nat (List.length sample_questions) <= 99 /\
  placed = [] ++ p :: next :: [] /\
  placedColumn next = placedColumn p /\
  wrapAfterTen 0 (placedText p) 0 = ["1) 2 × 7 "; "= 14"]%string /\
  (placedY p == 40)%Q /\
  (placedY next == 40 + (6 # 10) * (807 # 10) * 1 + (807 # 10))%Q.
Proof.
  cbv zeta.
  set (placed := pdfPlaced (fun _ _ => 1 # 2)%Q 210 297 wrapAfterTen unitWidth
                   sample_questions true).
  set (p := nth 0 placed (mkPlaced 0 0 0 0 0 "" [])).
  set (next := nth 1 placed (mkPlaced 0 0 0 0 0 "" [])).
  assert (1 <= Z.of_nat (List.length sample_questions) <= 99) as Hn by (simpl; lia).
  assert (placed = [] ++ p :: next :: []) as Hplaced by (vm_compute; reflexivity).
  assert (placedColumn next = placedColumn p) as Hcol by reflexivity.
  split; [exact Hn|]. split; [exact Hplaced|]. split; [exact Hcol|].
  split; [vm_compute; reflexivity|]. split; [reflexivity|].
  destruct (pdf_wrapped_lines_spacing (fun _ _ => 1 # 2)%Q 210 297 wrapAfterTen unitWidth
              sample_questions true [] p next [] Hn Hplaced Hcol
              ltac:(discriminate) ltac:(vm_compute; discriminate))
    as (_ & _ & _ & Hy).
  rewrite Hy. vm_compute. reflexivity.
Defined.



(** X16.  On a page at least 210 mm wide the columns of the PDF tile the
    width between the 15 mm margins: each column is at least 41.25 mm
    wide (so the wrapping width, 8 mm less, is positive), a drawn
    question starts at or right of the left margin, and its column ends
    at or left of the right margin. *)
Theorem pdf_columns_within_margins (Math_pow : Q -> Q -> Q) (pageWidth pageHeight : Q)
  (splitTextToSize : Q -> string -> Q -> list string) (getTextWidth : Q -> string -> Q)
  (questions : list Question) (showAnswers : bool) (p : Placed) :
  1 <= Z.of_nat (List.length questions) <= 99 -> (210 <= pageWidth)%Q ->
  In p (pdfPlaced Math_pow pageWidth pageHeight splitTextToSize getTextWidth
          questions showAnswers) ->
  let layout := calculateOptimalLayout Math_pow (Z.of_nat (List.length questions)) in
  let columnWidth := pdfColumnWidth pageWidth layout in
  ((165 # 4) <= columnWidth /\
   15 <= placedX p /\
   placedX p + columnWidth <= pageWidth - 15)%Q.
Proof.
  intros Hn Hpw Hin layout columnWidth.
  pose proof (pdfPlaced_placed Math_pow pageWidth pageHeight splitTextToSize
                getTextWidth questions showAnswers p Hn Hin) as Hp.
  cbv zeta in Hp. fold layout in Hp. fold columnWidth in Hp.
  destruct Hp as (Hc & _ & _ & _ & Hx & _).
  assert (columns layout = 1 \/ columns layout = 2 \/ columns layout = 3
          \/ columns layout = 4) as Hcols.
  { subst layout. rewrite columns_unfold.
    repeat match goal with
           | |- context [if ?b then _ else _] => destruct b
           end; auto. }
  assert (inject_Z (columns layout) * columnWidth
          == pageWidth - 30 - (inject_Z (columns layout) - 1) * 5)%Q as Hcw.
  { subst columnWidth. unfold pdfColumnWidth. cbv zeta.
    destruct Hcols as [H|[H|[H|H]]]; rewrite H; field. }
  assert (0 <= inject_Z (placedColumn p)
          /\ inject_Z (placedColumn p) <= inject_Z (columns layout) - 1)%Q as [Hc0 Hc1].
  { split.
    - change 0%Q with (inject_Z 0). rewrite <- Zle_Qle. lia.
    - setoid_replace (inject_Z (columns layout) - 1)%Q
        with (inject_Z (columns layout - 1))
        by (unfold Z.sub; rewrite inject_Z_plus; reflexivity).
      rewrite <- Zle_Qle. lia. }
  assert ((165 # 4) <= columnWidth)%Q as Hwide.
  { destruct Hcols as [H|[H|[H|H]]]; rewrite H in Hcw;
      [change (inject_Z 1) with 1%Q in Hcw | change (inject_Z 2) with 2%Q in Hcw
      | change (inject_Z 3) with 3%Q in Hcw | change (inject_Z 4) with 4%Q in Hcw]; lra. }
  assert (inject_Z (placedColumn p) * (columnWidth + 5)
          <= (inject_Z (columns layout) - 1) * (columnWidth + 5))%Q as Hmul
    by (apply Qmult_le_compat_r; lra).
  assert (0 <= inject_Z (placedColumn p) * (columnWidth + 5))%Q as Hnn
    by (apply Qmult_le_0_compat; lra).
  split; [exact Hwide|]. rewrite Hx. split; [lra|].
  assert ((inject_Z (columns layout) - 1) * (columnWidth + 5) + columnWidth
          == pageWidth - 30)%Q as Hedge.
  { setoid_replace ((inject_Z (columns layout) - 1) * (columnWidth + 5) + columnWidth)%Q
      with (inject_Z (columns layout) * columnWidth
            + (inject_Z (columns layout) - 1) * 5)%Q by ring.
    rewrite Hcw. ring. }
  lra.
Qed.

Lemma pdf_columns_within_margins_witness :
  1 <= Z.of_nat (List.length sample_questions) <= 99 /\ (210 <= 210)%Q /\
  forall p,
    In p (pdfPlaced (fun _ _ => 1 # 2)%Q 210 297 noWrap unitWidth sample_questions true) ->
    (15 <= placedX p
     /\ placedX p + pdfColumnWidth 210 (calculateOptimalLayout (fun _ _ => 1 # 2) 3)
        <= 210 - 15)%Q.
Proof.
  assert (1 <= Z.of_nat (List.length sample_questions) <= 99) as Hn by (simpl; lia).
  split; [exact Hn|]. split; [discriminate|]. intros p Hin.
  exact (proj2 (pdf_columns_within_margins (fun _ _ => 1 # 2)%Q 210 297 noWrap unitWidth
                  sample_questions true p Hn ltac:(discriminate) Hin)).
Defined.

(** X17.  The page with the blanks of the current revision is the page
    of the older revision: the same questions are drawn (and the same
    left out), with the same index, column, row, position and text, the
    only difference being a [setTextColor(0, 0, 0)] before each text
    call. *)
Theorem legacy_page_is_blanks_page (Math_pow : Q -> Q -> Q) (pageWidth pageHeight : Q)
  (splitTextToSize : Q -> string -> Q -> list string) (getTextWidth : Q -> string -> Q)
  (questions : list Question) :
  pdfPlaced Math_pow pageWidth pageHeight splitTextToSize getTextWidth questions false
  = map withBlackText
      (Legacy.pdfPlaced Math_pow pageWidth pageHeight splitTextToSize questions).
Proof.
  unfold pdfPlaced, placeQuestions, Legacy.pdfPlaced. cbv zeta.
  apply legacy_columnLoop_agrees.
Qed.



(** X19.  For each of the 28 counts whose rounded rows overflow, and
    every list of that many questions, the question in the last row of
    the first column is a question of the worksheet that neither page of
    the PDF shows, whatever the text measurement returns. *)
Theorem pdf_overflow_drops_question (Math_pow : Q -> Q -> Q) (pageWidth pageHeight : Q)
  (splitTextToSize : Q -> string -> Q -> list string) (getTextWidth : Q -> string -> Q)
  (questions : list Question) (showAnswers : bool) :
  let n := Z.of_nat (List.length questions) in
  In n [3; 6; 13; 14; 15; 16; 17; 18; 21; 22; 23; 24; 25; 26; 27; 34; 35; 36;
        40; 41; 42; 72; 75; 81; 90; 94; 95; 96] ->
  (pageHeight < 2971 # 10)%Q ->
  let dropped := l_questionsPerColumn (layoutLocals Math_pow n) - 1 in
  (exists question, array_get questions dropped = Some question) /\
  ~ In dropped
      (map placedIndex
         (pdfPlaced Math_pow pageWidth pageHeight splitTextToSize getTextWidth
            questions showAnswers)).
Proof.
  intros n Hin Hph dropped.
  rewrite <- (overflowing_counts Math_pow) in Hin.
  apply filter_In in Hin as [Hrange Hover].
  assert (1 <= n <= 99) as Hn.
  { clear - Hrange. revert Hrange. generalize n. clear n. intros n Hrange.
    assert (forall len lo k, In k (Z_range lo len) -> lo <= k < lo + Z.of_nat len) as Hr.
    { induction len as [|len IH]; intros lo k Hk; [destruct Hk|].
      destruct Hk as [<-|Hk]; [lia|]. apply IH in Hk. lia. }
    apply Hr in Hrange. lia. }
  destruct (pdf_overflow_drops_last_row Math_pow pageWidth pageHeight splitTextToSize
              getTextWidth questions showAnswers Hn Hover Hph) as [Hvalid Hnot].
  change (pdfQuestionsPerColumn questions
            (calculateOptimalLayout Math_pow (Z.of_nat (List.length questions))) - 1)
    with dropped in Hvalid, Hnot.
  split.
  - destruct (array_get_in_range questions dropped Hvalid) as (question & Hq & _).
    exists question. exact Hq.
  - intro Hmap. apply in_map_iff in Hmap as (p & Hidx & Hp).
    exact (Hnot p Hp Hidx).
Qed.

Lemma pdf_overflow_drops_question_witness :
  In 3 [3; 6; 13; 14; 15; 16; 17; 18; 21; 22; 23; 24; 25; 26; 27; 34; 35; 36;
        40; 41; 42; 72; 75; 81; 90; 94; 95; 96] /\
  (297 < 2971 # 10)%Q /\
  ~ In 2
      (map placedIndex
         (pdfPlaced (fun _ _ => 1 # 2)%Q 210 297 noWrap unitWidth sample_questions true)).
Proof.
  split; [left; reflexivity|]. split; [reflexivity|].
  exact (proj2 (pdf_overflow_drops_question (fun _ _ => 1 # 2)%Q 210 297 noWrap unitWidth
                  sample_questions true ltac:(left; reflexivity) ltac:(reflexivity))).
Defined.

(* ================================================================== *)
(** ** The checkbox grid *)

Lemma getSelectedTables_applyPreset (wanted : Z -> bool) (grid : list Checkbox) :
  getSelectedTables (triggerPresetAnimation (applyPreset wanted grid))
  = filter wanted (map cbValue grid).
Proof.
  unfold getSelectedTables, triggerPresetAnimation, applyPreset.
  rewrite !map_map.
  match goal with |- context [map ?f grid] => set (f' := f) end.
  assert (Hc : forall c, cbChecked (f' c) = wanted (cbValue c))
    by (intros [v ch hl pa]; subst f'; cbn; destruct (wanted v); reflexivity).
  assert (Hv : forall c, cbValue (f' c) = cbValue c)
    by (intros [v ch hl pa]; subst f'; cbn; destruct (wanted v); reflexivity).
  clearbody f'.
  induction grid as [|c grid IH]; [reflexivity|].
  cbn [map filter]. rewrite Hc.
  destruct (wanted (cbValue c)); cbn [map]; rewrite ?Hv, IH; reflexivity.
Qed.

Lemma getSelectedTables_clearAll (grid : list Checkbox) :
  getSelectedTables (handlePresetClearAll grid) = [].
Proof.
  unfold getSelectedTables, handlePresetClearAll.
  induction grid as [|c grid IH]; [reflexivity|]. cbn. exact IH.
Qed.

Lemma clickCheckbox_values (i : nat) (grid : list Checkbox) :
  map cbValue (clickCheckbox i grid) = map cbValue grid.
Proof.
  revert i; induction grid as [|c grid IH]; intros i; [destruct i; reflexivity|].
  destruct i as [|i]; cbn [clickCheckbox map].
  - unfold checkboxChanged. destruct (negb (cbChecked c)); reflexivity.
  - rewrite IH; reflexivity.
Qed.

Lemma clickCheckbox_highlight (i : nat) (grid : list Checkbox) :
  Forall (fun c => cbHighlighted c = cbChecked c) grid ->
  Forall (fun c => cbHighlighted c = cbChecked c) (clickCheckbox i grid).
Proof.
  revert i; induction grid as [|c grid IH]; intros i H; [destruct i; constructor|].
  inversion H as [|? ? Hc Hrest]; subst.
  destruct i as [|i]; cbn [clickCheckbox]; constructor; auto.
  unfold checkboxChanged. destruct (cbChecked c); reflexivity.
Qed.

Lemma applyPreset_values (wanted : Z -> bool) (grid : list Checkbox) :
  map cbValue (triggerPresetAnimation (applyPreset wanted grid)) = map cbValue grid.
Proof.
  unfold triggerPresetAnimation, applyPreset.
  induction grid as [|c grid IH]; [reflexivity|].
  cbn [map]. rewrite IH. f_equal.
  destruct c as [v ch hl pa]; cbn. destruct (wanted v); reflexivity.
Qed.

Lemma applyPreset_highlight (wanted : Z -> bool) (grid : list Checkbox) :
  Forall (fun c => cbHighlighted c = cbChecked c)
         (triggerPresetAnimation (applyPreset wanted grid)).
Proof.
  unfold triggerPresetAnimation, applyPreset.
  induction grid as [|c grid IH]; [constructor|].
  cbn [map]. constructor; [|exact IH].
  destruct c as [v ch hl pa]; cbn. destruct (wanted v); reflexivity.
Qed.

Lemma gridStep_invariant (grid : list Checkbox) (e : GridEvent) :
  gridInvariant grid -> gridInvariant (gridStep grid e).
Proof.
  intros [Hv Hh]. unfold gridInvariant.
  destruct e; cbn [gridStep];
    try (unfold handlePresetTwoToTwelve, handlePresetEasyTables,
           handlePresetTenAndTwenty, handlePresetThirteenToTwenty;
         rewrite applyPreset_values; split; [exact Hv | apply applyPreset_highlight]).
  - unfold handlePresetClearAll. split.
    + rewrite <- Hv. rewrite !map_map. reflexivity.
    + rewrite map_map. apply Forall_forall. intros c Hin.
      apply in_map_iff in Hin. destruct Hin as [c0 [<- _]]. reflexivity.
  - split; [rewrite clickCheckbox_values; exact Hv | apply clickCheckbox_highlight; exact Hh].
  - unfold presetAnimationDone. split.
    + rewrite <- Hv. rewrite map_map. reflexivity.
    + apply Forall_forall. intros c Hin.
      apply in_map_iff in Hin. destruct Hin as [c0 [<- Hin0]].
      rewrite Forall_forall in Hh. exact (Hh c0 Hin0).
Qed.

Lemma fold_gridStep_invariant (events : list GridEvent) (grid : list Checkbox) :
  gridInvariant grid -> gridInvariant (fold_left gridStep events grid).
Proof.
  revert grid; induction events as [|e events IH]; intros grid H; [exact H|].
  cbn [fold_left]. apply IH, gridStep_invariant, H.
Qed.

Lemma gridAfter_invariant (events : list GridEvent) : gridInvariant (gridAfter events).
Proof.
  apply fold_gridStep_invariant. split; [reflexivity|].
  vm_compute. repeat constructor.
Qed.

(** X20.  Whatever was ticked, clicked or preset before, the tick boxes
    always stand for the tables 1 to 20 in order, a label is highlighted
    exactly when its box is ticked, and every number read for a
    worksheet is between 1 and 20. *)
Theorem grid_highlight_follows_checked (events : list GridEvent) :
  let grid := gridAfter events in
  map cbValue grid = Z_range 1 20
  /\ Forall (fun c => cbHighlighted c = cbChecked c) grid
  /\ Forall (fun t => 1 <= t <= 20) (getSelectedTables grid).
Proof.
  cbv zeta. destruct (gridAfter_invariant events) as [Hv Hh].
  split; [exact Hv|]. split; [exact Hh|].
  apply Forall_forall. intros t Hin.
  unfold getSelectedTables in Hin. apply in_map_iff in Hin.
  destruct Hin as [c [<- Hc]]. apply filter_In in Hc. destruct Hc as [Hc _].
  assert (Hr : In (cbValue c) (Z_range 1 20)) by (rewrite <- Hv; apply in_map; exact Hc).
  set (t := cbValue c) in *. clearbody t. cbn in Hr. lia.
Qed.

(** X21.  A preset button replaces the selection, whatever it was: after
    any history of clicks and presets, [2-12] leaves exactly 2 to 12
    selected, the easy tables 2, 5 and 10, [10 and 20] those two,
    [13-20] exactly 13 to 20, and [Clear all] nothing. *)
Theorem preset_replaces_selection (events : list GridEvent) :
  let grid := gridAfter events in
  getSelectedTables (handlePresetTwoToTwelve grid) = [2; 3; 4; 5; 6; 7; 8; 9; 10; 11; 12]
  /\ getSelectedTables (handlePresetEasyTables grid) = [2; 5; 10]
  /\ getSelectedTables (handlePresetTenAndTwenty grid) = [10; 20]
  /\ getSelectedTables (handlePresetThirteenToTwenty grid) = [13; 14; 15; 16; 17; 18; 19; 20]
  /\ getSelectedTables (handlePresetClearAll grid) = [].
Proof.
  cbv zeta. destruct (gridAfter_invariant events) as [Hv _].
  unfold handlePresetTwoToTwelve, handlePresetEasyTables, handlePresetTenAndTwenty,
    handlePresetThirteenToTwenty.
  rewrite !getSelectedTables_applyPreset, getSelectedTables_clearAll, Hv.
  repeat split; reflexivity.
Qed.

(* ================================================================== *)
(** ** The handlers as updates *)

Lemma definedQuestions_map_Some (qs : list Question) :
  Dom.definedQuestions (map Some qs) = Some qs.
Proof.
  induction qs as [|q qs IH]; [reflexivity|].
  cbn [map Dom.definedQuestions]. rewrite IH. reflexivity.
Qed.

Lemma count_out_of_range (n : Z) :
  (n <? 1) || (n >? 99) = negb ((1 <=? n) && (n <=? 99)).
Proof.
  destruct (Z.ltb_spec n 1), (Z.gtb_spec n 99), (Z.leb_spec 1 n), (Z.leb_spec n 99);
    try reflexivity; lia.
Qed.

Lemma no_table_selected (grid : list Checkbox) :
  Nat.eqb (List.length (getSelectedTables grid)) 0 = negb (existsb cbChecked grid).
Proof.
  unfold getSelectedTables. induction grid as [|c grid IH]; [reflexivity|].
  cbn [filter existsb]. destruct (cbChecked c); [reflexivity | exact IH].
Qed.

Lemma validateInputs_eq (st : Dom.App) :
  Dom.validateInputs st
  = (negb match Dom.numQuestionsValue st with
          | Some n => (n <? 1) || (n >? 99)
          | None => true
          end
     && negb (Nat.eqb (List.length (getSelectedTables (Dom.tablesGrid st))) 0),
     st {{ Dom.numQuestionsError :=
             if match Dom.numQuestionsValue st with
                | Some n => (n <? 1) || (n >? 99)
                | None => true
                end
             then "Please enter a number between 1 and 99"%string else ""%string;
           Dom.tablesError :=
             if Nat.eqb (List.length (getSelectedTables (Dom.tablesGrid st))) 0
             then "Please select at least one times table"%string else ""%string }}).
Proof.
  unfold Dom.validateInputs, Dom.clearErrors, Dom.showError. cbv zeta.
  destruct st.
  repeat (cbn -[Nat.eqb getSelectedTables List.length orb negb andb Z.ltb Z.gtb];
          match goal with
          | |- context [match ?x with Some _ => _ | None => _ end] => destruct x
          | |- context [if ?b then _ else _] => destruct b
          end); reflexivity.
Qed.

Lemma clearTimeout_eq (id : option nat) (st : Dom.App) :
  Dom.clearTimeout id st
  = st {{ Dom.timers :=
            match id with
            | Some i => filter (fun t => negb (Nat.eqb (Dom.timerId t) i)) (Dom.timers st)
            | None => Dom.timers st
            end }}.
Proof. unfold Dom.clearTimeout. destruct id; reflexivity. Qed.

Lemma updateAnswersToggleButton_eq (st : Dom.App) :
  Dom.updateAnswersToggleButton st
  = st {{ Dom.toggleAnswersBtnText :=
            if Dom.presentationAnswersVisible st
            then "Hide answers"%string else "Show answers"%string }}.
Proof. unfold Dom.updateAnswersToggleButton. by_branches st. Qed.

Lemma updatePresentationLayout_eq (st : Dom.App) :
  Dom.updatePresentationLayout st
  = let skip := String.eqb (Dom.overlayDisplay st) "none"
                || Nat.eqb (List.length (Dom.currentQuestions st)) 0 in
    let layout := calculatePresentationLayout (Dom.innerHeight st)
                    (Z.of_nat (List.length (Dom.currentQuestions st))) in
    st {{ Dom.presentationColumnsVar :=
            if skip then Dom.presentationColumnsVar st
            else Some (presentationColumns layout);
          Dom.presentationFontSizeVar :=
            if skip then Dom.presentationFontSizeVar st
            else Some (fontSizePx layout) }}.
Proof. unfold Dom.updatePresentationLayout. by_branches st. Qed.

Lemma renderPresentationWorksheet_eq (questions : list Question) (showAnswers : bool)
  (st : Dom.App) :
  Dom.renderPresentationWorksheet questions showAnswers st
  = let skip := String.eqb (Dom.overlayDisplay st) "none"
                || Nat.eqb (List.length (Dom.currentQuestions st)) 0 in
    let layout := calculatePresentationLayout (Dom.innerHeight st)
                    (Z.of_nat (List.length (Dom.currentQuestions st))) in
    st {{ Dom.presentationQuestionsList := Dom.presentationItems 0 questions showAnswers;
          Dom.presentationColumnsVar :=
            if skip then Dom.presentationColumnsVar st
            else Some (presentationColumns layout);
          Dom.presentationFontSizeVar :=
            if skip then Dom.presentationFontSizeVar st
            else Some (fontSizePx layout) }}.
Proof.
  unfold Dom.renderPresentationWorksheet. cbv zeta.
  rewrite updatePresentationLayout_eq. reflexivity.
Qed.

Lemma togglePresentationAnswers_eq (st : Dom.App) :
  Dom.togglePresentationAnswers st
  = let skip := String.eqb (Dom.overlayDisplay st) "none"
                || Nat.eqb (List.length (Dom.currentQuestions st)) 0 in
    let layout := calculatePresentationLayout (Dom.innerHeight st)
                    (Z.of_nat (List.length (Dom.currentQuestions st))) in
    let visible := negb (Dom.presentationAnswersVisible st) in
    st {{ Dom.presentationAnswersVisible := visible;
          Dom.presentationQuestionsList :=
            Dom.presentationItems 0 (Dom.currentQuestions st) visible;
          Dom.presentationColumnsVar :=
            if skip then Dom.presentationColumnsVar st
            else Some (presentationColumns layout);
          Dom.presentationFontSizeVar :=
            if skip then Dom.presentationFontSizeVar st
            else Some (fontSizePx layout);
          Dom.toggleAnswersBtnText :=
            if visible then "Hide answers"%string else "Show answers"%string }}.
Proof.
  unfold Dom.togglePresentationAnswers. cbv zeta.
  rewrite renderPresentationWorksheet_eq. cbv zeta. simpl_state.
  rewrite updateAnswersToggleButton_eq. simpl_state. reflexivity.
Qed.

Lemma toggleFullscreen_eq (st : Dom.App) :
  Dom.toggleFullscreen st
  = st {{ Dom.fullscreenRequests :=
            Dom.fullscreenRequests st
            ++ [if Dom.fullscreenElement st
                then Dom.ExitFullscreenFromToggle else Dom.RequestFullscreen] }}.
Proof. unfold Dom.toggleFullscreen. by_branches st. Qed.

Lemma setupPresentationEventListeners_eq (st : Dom.App) :
  Dom.setupPresentationEventListeners st
  = let fresh := negb (Dom.listenersSetup st) in
    st {{ Dom.closeBtnListens := if fresh then true else Dom.closeBtnListens st;
          Dom.toggleAnswersBtnListens :=
            if fresh then true else Dom.toggleAnswersBtnListens st;
          Dom.fullscreenBtnListens :=
            if fresh && Dom.fullscreenEnabled st then true else Dom.fullscreenBtnListens st;
          Dom.fullscreenchangeTextListeners :=
            if fresh && Dom.fullscreenEnabled st
            then S (Dom.fullscreenchangeTextListeners st)
            else Dom.fullscreenchangeTextListeners st;
          Dom.fullscreenBtnDisplay :=
            if fresh && negb (Dom.fullscreenEnabled st)
            then "none"%string else Dom.fullscreenBtnDisplay st;
          Dom.listenersSetup := true }}.
Proof. unfold Dom.setupPresentationEventListeners. by_branches st. Qed.

Lemma removePresentationResizeHandler_eq (st : Dom.App) :
  Dom.removePresentationResizeHandler st
  = st {{ Dom.windowResizeListeners :=
            match Dom.presentationResizeHandler st with
            | Some h => Dom.removeListener h (Dom.windowResizeListeners st)
            | None => Dom.windowResizeListeners st
            end;
          Dom.fullscreenchangeResizeListeners :=
            match Dom.presentationResizeHandler st with
            | Some h => Dom.removeListener h (Dom.fullscreenchangeResizeListeners st)
            | None => Dom.fullscreenchangeResizeListeners st
            end;
          Dom.presentationResizeHandler := None }}.
Proof. unfold Dom.removePresentationResizeHandler. by_branches st. Qed.

Lemma setupPresentationResizeHandler_eq (st : Dom.App) :
  Dom.setupPresentationResizeHandler st
  = let h := Dom.nextClosure st in
    let others (listeners : list nat) :=
      match Dom.presentationResizeHandler st with
      | Some old => Dom.removeListener old listeners
      | None => listeners
      end in
    st {{ Dom.nextClosure := S h;
          Dom.resizeTimeout := fun c => if Nat.eqb c h then None else Dom.resizeTimeout st c;
          Dom.presentationResizeHandler := Some h;
          Dom.windowResizeListeners :=
            Dom.addListener h (others (Dom.windowResizeListeners st));
          Dom.fullscreenchangeResizeListeners :=
            Dom.addListener h (others (Dom.fullscreenchangeResizeListeners st)) }}.
Proof.
  unfold Dom.setupPresentationResizeHandler. cbv zeta.
  rewrite removePresentationResizeHandler_eq. reflexivity.
Qed.

Lemma removePresentationKeyboardShortcuts_eq (st : Dom.App) :
  Dom.removePresentationKeyboardShortcuts st
  = st {{ Dom.keydownListeners :=
            match Dom.presentationKeyboardHandler st with
            | Some h => Dom.removeListener h (Dom.keydownListeners st)
            | None => Dom.keydownListeners st
            end;
          Dom.presentationKeyboardHandler := None }}.
Proof. unfold Dom.removePresentationKeyboardShortcuts. by_branches st. Qed.

Lemma setupPresentationKeyboardShortcuts_eq (st : Dom.App) :
  Dom.setupPresentationKeyboardShortcuts st
  = let h := Dom.nextClosure st in
    st {{ Dom.nextClosure := S h;
          Dom.presentationKeyboardHandler := Some h;
          Dom.keydownListeners :=
            Dom.addListener h
              match Dom.presentationKeyboardHandler st with
              | Some old => Dom.removeListener old (Dom.keydownListeners st)
              | None => Dom.keydownListeners st
              end }}.
Proof.
  unfold Dom.setupPresentationKeyboardShortcuts. cbv zeta.
  rewrite removePresentationKeyboardShortcuts_eq. reflexivity.
Qed.

Lemma setupHelpTooltip_eq (st : Dom.App) :
  Dom.setupHelpTooltip st
  = st {{ Dom.helpBtnClickListeners :=
            if Dom.helpBtnExists st && Dom.helpTooltipExists st
            then S (Dom.helpBtnClickListeners st)
            else Dom.helpBtnClickListeners st }}.
Proof. unfold Dom.setupHelpTooltip. by_branches st. Qed.

Lemma removeClickOutsideHandler_eq (st : Dom.App) :
  Dom.removeClickOutsideHandler st
  = st {{ Dom.documentClickListeners :=
            match Dom.helpTooltipClickOutsideHandler st with
            | Some h => Dom.removeListener h (Dom.documentClickListeners st)
            | None => Dom.documentClickListeners st
            end;
          Dom.helpTooltipClickOutsideHandler := None }}.
Proof. unfold Dom.removeClickOutsideHandler. by_branches st. Qed.

Lemma removeHelpTooltip_eq (st : Dom.App) :
  Dom.removeHelpTooltip st
  = st {{ Dom.timers :=
            match Dom.helpTooltipAutoShowTimeout st with
            | Some i => filter (fun t => negb (Nat.eqb (Dom.timerId t) i)) (Dom.timers st)
            | None => Dom.timers st
            end;
          Dom.helpTooltipAutoShowTimeout := None;
          Dom.documentClickListeners :=
            match Dom.helpTooltipClickOutsideHandler st with
            | Some h => Dom.removeListener h (Dom.documentClickListeners st)
            | None => Dom.documentClickListeners st
            end;
          Dom.helpTooltipClickOutsideHandler := None;
          Dom.helpTooltipDisplay :=
            if Dom.helpTooltipExists st then "none"%string else Dom.helpTooltipDisplay st;
          Dom.helpTooltipFadeOut :=
            if Dom.helpTooltipExists st then false else Dom.helpTooltipFadeOut st }}.
Proof.
  unfold Dom.removeHelpTooltip, Dom.removeClickOutsideHandler, Dom.clearTimeout.
  by_branches st.
Qed.

Lemma openPresentationMode_eq (st : Dom.App) :
  Dom.currentQuestions st <> [] ->
  Dom.openPresentationMode st
  = let layout := calculatePresentationLayout (Dom.innerHeight st)
                    (Z.of_nat (List.length (Dom.currentQuestions st))) in
    let fresh := negb (Dom.listenersSetup st) in
    let h := Dom.nextClosure st in
    let others (old : option nat) (listeners : list nat) :=
      match old with
      | Some old => Dom.removeListener old listeners
      | None => listeners
      end in
    st {{ Dom.overlayDisplay := "flex"%string;
          Dom.presentationAnswersVisible := false;
          Dom.toggleAnswersBtnText := "Show answers"%string;
          Dom.presentationQuestionsList :=
            Dom.presentationItems 0 (Dom.currentQuestions st) false;
          Dom.presentationColumnsVar := Some (presentationColumns layout);
          Dom.presentationFontSizeVar := Some (fontSizePx layout);
          Dom.closeBtnListens := if fresh then true else Dom.closeBtnListens st;
          Dom.toggleAnswersBtnListens :=
            if fresh then true else Dom.toggleAnswersBtnListens st;
          Dom.fullscreenBtnListens :=
            if fresh && Dom.fullscreenEnabled st then true else Dom.fullscreenBtnListens st;
          Dom.fullscreenchangeTextListeners :=
            if fresh && Dom.fullscreenEnabled st
            then S (Dom.fullscreenchangeTextListeners st)
            else Dom.fullscreenchangeTextListeners st;
          Dom.fullscreenBtnDisplay :=
            if fresh && negb (Dom.fullscreenEnabled st)
            then "none"%string else Dom.fullscreenBtnDisplay st;
          Dom.listenersSetup := true;
          Dom.resizeTimeout := fun c => if Nat.eqb c h then None else Dom.resizeTimeout st c;
          Dom.presentationResizeHandler := Some h;
          Dom.windowResizeListeners :=
            Dom.addListener h
              (others (Dom.presentationResizeHandler st) (Dom.windowResizeListeners st));
          Dom.fullscreenchangeResizeListeners :=
            Dom.addListener h
              (others (Dom.presentationResizeHandler st)
                 (Dom.fullscreenchangeResizeListeners st));
          Dom.presentationKeyboardHandler := Some (S h);
          Dom.keydownListeners :=
            Dom.addListener (S h)
              (others (Dom.presentationKeyboardHandler st) (Dom.keydownListeners st));
          Dom.nextClosure := S (S h);
          Dom.helpBtnClickListeners :=
            if Dom.helpBtnExists st && Dom.helpTooltipExists st
            then S (Dom.helpBtnClickListeners st)
            else Dom.helpBtnClickListeners st;
          Dom.activeElement := "closePresentationBtn"%string;
          Dom.bodyOverflow := "hidden"%string }}.
Proof.
  intros Hq. unfold Dom.openPresentationMode.
  destruct (Nat.eqb (List.length (Dom.currentQuestions st)) 0) eqn:Hlen.
  { destruct (Dom.currentQuestions st); [congruence | discriminate]. }
  cbv zeta.
  rewrite updateAnswersToggleButton_eq. simpl_state.
  rewrite renderPresentationWorksheet_eq. simpl_state.
  rewrite setupPresentationEventListeners_eq. simpl_state.
  rewrite setupPresentationResizeHandler_eq. simpl_state.
  rewrite setupPresentationKeyboardShortcuts_eq. simpl_state.
  rewrite setupHelpTooltip_eq. simpl_state.
  rewrite Hlen. reflexivity.
Qed.

Lemma closePresentationMode_eq (st : Dom.App) :
  Dom.closePresentationMode st
  = let others (old : option nat) (listeners : list nat) :=
      match old with
      | Some old => Dom.removeListener old listeners
      | None => listeners
      end in
    st {{ Dom.overlayDisplay := "none"%string;
          Dom.bodyOverflow := ""%string;
          Dom.windowResizeListeners :=
            others (Dom.presentationResizeHandler st) (Dom.windowResizeListeners st);
          Dom.fullscreenchangeResizeListeners :=
            others (Dom.presentationResizeHandler st)
              (Dom.fullscreenchangeResizeListeners st);
          Dom.presentationResizeHandler := None;
          Dom.keydownListeners :=
            others (Dom.presentationKeyboardHandler st) (Dom.keydownListeners st);
          Dom.presentationKeyboardHandler := None;
          Dom.timers :=
            match Dom.helpTooltipAutoShowTimeout st with
            | Some i => filter (fun t => negb (Nat.eqb (Dom.timerId t) i)) (Dom.timers st)
            | None => Dom.timers st
            end;
          Dom.helpTooltipAutoShowTimeout := None;
          Dom.documentClickListeners :=
            others (Dom.helpTooltipClickOutsideHandler st) (Dom.documentClickListeners st);
          Dom.helpTooltipClickOutsideHandler := None;
          Dom.helpTooltipDisplay :=
            if Dom.helpTooltipExists st then "none"%string else Dom.helpTooltipDisplay st;
          Dom.helpTooltipFadeOut :=
            if Dom.helpTooltipExists st then false else Dom.helpTooltipFadeOut st;
          Dom.fullscreenRequests :=
            if Dom.fullscreenElement st
            then Dom.fullscreenRequests st ++ [Dom.ExitFullscreenFromClose]
            else Dom.fullscreenRequests st }}.
Proof.
  unfold Dom.closePresentationMode. cbv zeta.
  rewrite removePresentationResizeHandler_eq. simpl_state.
  rewrite removePresentationKeyboardShortcuts_eq. simpl_state.
  rewrite removeHelpTooltip_eq. simpl_state.
  destruct (Dom.fullscreenElement st) eqn:Hf; simpl_state; rewrite Hf; reflexivity.
Qed.
(* ================================================================== *)
(** ** Validation, generation and download on the page *)

(** X22.  Validation looks at the count and at the tables separately:
    it succeeds exactly when the count is a number from 1 to 99 and a
    table is ticked, writes the message of each failed test, blanks the
    message of each passed one, and touches nothing else. *)
Theorem validation_reports_each_error (st : Dom.App) :
  let countOk := match Dom.numQuestionsValue st with
                 | Some n => (1 <=? n) && (n <=? 99)
                 | None => false
                 end in
  let anyTable := existsb cbChecked (Dom.tablesGrid st) in
  Dom.validateInputs st
  = (countOk && anyTable,
     st {{ Dom.numQuestionsError :=
             if countOk then ""%string
             else "Please enter a number between 1 and 99"%string;
           Dom.tablesError :=
             if anyTable then ""%string
             else "Please select at least one times table"%string }}).
Proof.
  cbv zeta. rewrite validateInputs_eq, no_table_selected.
  destruct (Dom.numQuestionsValue st) as [n|].
  - rewrite count_out_of_range.
    destruct ((1 <=? n) && (n <=? 99)), (existsb cbChecked (Dom.tablesGrid st));
      reflexivity.
  - destruct (existsb cbChecked (Dom.tablesGrid st)); reflexivity.
Qed.

Lemma validateInputs_accepts (st : Dom.App) (n : Z) :
  Dom.numQuestionsValue st = Some n -> 1 <= n <= 99 ->
  getSelectedTables (Dom.tablesGrid st) <> [] ->
  Dom.validateInputs st
  = (true, st {{ Dom.numQuestionsError := ""%string; Dom.tablesError := ""%string }}).
Proof.
  intros Hn Hrange Hsel. rewrite validateInputs_eq, Hn.
  destruct (Z.ltb_spec n 1); [lia|]. destruct (Z.gtb_spec n 99); [lia|].
  destruct (getSelectedTables (Dom.tablesGrid st)); [congruence | reflexivity].
Qed.

Lemma generateLoop_run (st : Dom.App) (n : Z) (qs : list Question) (s' : RandomSource) :
  Dom.numQuestionsValue st = Some n ->
  generateQuestions (Z.to_nat n) (getSelectedTables (Dom.tablesGrid st))
    (Dom.includeDivisionChecked st) (Dom.randomSource st) = (map Some qs, s') ->
  Dom.generateLoop st = (Some qs, st {{ Dom.randomSource := s' }}).
Proof.
  intros Hn Hrun. unfold Dom.generateLoop. cbv zeta. rewrite Hn, Hrun.
  rewrite definedQuestions_map_Some. reflexivity.
Qed.

(** What a valid click on Present or Download generates. *)
Lemma page_generates (st : Dom.App) (n : Z) :
  Dom.numQuestionsValue st = Some n -> 1 <= n <= 99 ->
  getSelectedTables (Dom.tablesGrid st) <> [] ->
  unit_draws (Dom.randomSource st) ->
  exists (qs : list Question) (s' : RandomSource),
    generateQuestions (Z.to_nat n) (getSelectedTables (Dom.tablesGrid st))
      (Dom.includeDivisionChecked st) (Dom.randomSource st) = (map Some qs, s')
    /\ unit_draws s'
    /\ Z.of_nat (List.length qs) = n
    /\ qs <> []
    /\ Forall (fun q => In (base q) (getSelectedTables (Dom.tablesGrid st))
                        /\ 1 <= other q <= 12
                        /\ (answer q = base q * other q \/ answer q = other q)) qs.
Proof.
  intros Hn Hrange Hsel Hdraws.
  destruct (generateQuestions_run (getSelectedTables (Dom.tablesGrid st))
              (Dom.includeDivisionChecked st) Hsel (Z.to_nat n) (Dom.randomSource st) Hdraws)
    as (qs & s' & Hrun & Hs' & Hlen & Hall).
  exists qs, s'. split; [exact Hrun|]. split; [exact Hs'|].
  split; [lia|]. split; [|exact Hall].
  intros ->. cbn in Hlen. lia.
Qed.

Lemma generateWorksheet_valid (Math_pow : Q -> Q -> Q) (st : Dom.App) (n : Z)
  (qs : list Question) (s' : RandomSource) :
  Dom.numQuestionsValue st = Some n -> 1 <= n <= 99 ->
  getSelectedTables (Dom.tablesGrid st) <> [] ->
  generateQuestions (Z.to_nat n) (getSelectedTables (Dom.tablesGrid st))
    (Dom.includeDivisionChecked st) (Dom.randomSource st) = (map Some qs, s') ->
  Dom.generateWorksheet Math_pow st
  = Some (st {{ Dom.numQuestionsError := ""%string;
                Dom.tablesError := ""%string;
                Dom.randomSource := s';
                Dom.currentQuestions := qs;
                Dom.questionsList := renderWorksheet Math_pow qs;
                Dom.answersList := renderAnswers qs }}).
Proof.
  intros Hn Hrange Hsel Hrun. unfold Dom.generateWorksheet.
  rewrite (validateInputs_accepts st n Hn Hrange Hsel). cbv beta iota zeta.
  cbn [negb].
  rewrite (generateLoop_run _ n qs s'); [reflexivity | exact Hn | exact Hrun].
Qed.

Lemma generateWorksheet_invalid (Math_pow : Q -> Q -> Q) (st : Dom.App) :
  fst (Dom.validateInputs st) = false ->
  Dom.generateWorksheet Math_pow st = Some (snd (Dom.validateInputs st)).
Proof.
  intros H. unfold Dom.generateWorksheet.
  destruct (Dom.validateInputs st) as [isValid st']. cbn [fst snd] in *.
  subst. reflexivity.
Qed.

(** X23.  With a count from 1 to 99 and a table ticked, Present
    generates that many questions on the ticked tables, clears both
    error messages and opens the overlay on them: answers hidden, the
    toggle reading [Show answers], one item per question, columns and
    font size from the presentation layout for the current window
    height, and the page behind no longer scrolling.  Nothing is
    saved. *)
Theorem present_shows_fresh_worksheet (Math_pow : Q -> Q -> Q) (st : Dom.App) (n : Z) :
  Dom.numQuestionsValue st = Some n -> 1 <= n <= 99 ->
  getSelectedTables (Dom.tablesGrid st) <> [] ->
  unit_draws (Dom.randomSource st) ->
  exists st' : Dom.App,
    Dom.handleGenerate Math_pow st = Some st'
    /\ Z.of_nat (List.length (Dom.currentQuestions st')) = n
    /\ Forall (fun q => In (base q) (getSelectedTables (Dom.tablesGrid st))
                        /\ 1 <= other q <= 12) (Dom.currentQuestions st')
    /\ Dom.numQuestionsError st' = ""%string
    /\ Dom.tablesError st' = ""%string
    /\ Dom.overlayDisplay st' = "flex"%string
    /\ Dom.bodyOverflow st' = "hidden"%string
    /\ Dom.presentationAnswersVisible st' = false
    /\ Dom.toggleAnswersBtnText st' = "Show answers"%string
    /\ Dom.presentationQuestionsList st'
       = Dom.presentationItems 0 (Dom.currentQuestions st') false
    /\ Dom.presentationColumnsVar st' = Some (updatePresentationColumns n)
    /\ Dom.presentationFontSizeVar st'
       = Some (fontSizePx (calculatePresentationLayout (Dom.innerHeight st) n))
    /\ Dom.questionsList st' = renderWorksheet Math_pow (Dom.currentQuestions st')
    /\ Dom.answersList st' = renderAnswers (Dom.currentQuestions st')
    /\ Dom.savedPdfs st' = Dom.savedPdfs st.
Proof.
  intros Hn Hrange Hsel Hdraws.
  destruct (page_generates st n Hn Hrange Hsel Hdraws)
    as (qs & s' & Hrun & _ & Hlen & Hne & Hall).
  unfold Dom.handleGenerate.
  rewrite (generateWorksheet_valid Math_pow st n qs s' Hn Hrange Hsel Hrun).
  simpl_state.
  assert (Hpos : (0 <? List.length qs)%nat = true)
    by (destruct qs; [congruence | reflexivity]).
  rewrite Hpos. eexists. split; [reflexivity|].
  rewrite openPresentationMode_eq by (simpl_state; exact Hne).
  cbv zeta. simpl_state. rewrite Hlen.
  split; [reflexivity|].
  split; [eapply Forall_impl; [|exact Hall]; cbv beta; tauto|].
  repeat split; reflexivity.
Qed.

Lemma sample_page_selection :
  getSelectedTables (Dom.tablesGrid sample_page) = [2; 3; 4; 5; 6; 7; 8; 9; 10; 11; 12].
Proof. reflexivity. Qed.

Lemma present_shows_fresh_worksheet_witness :
  Dom.numQuestionsValue sample_page = Some 10 /\ 1 <= 10 <= 99
  /\ getSelectedTables (Dom.tablesGrid sample_page) <> []
  /\ unit_draws (Dom.randomSource sample_page)
  /\ exists st' : Dom.App,
    Dom.handleGenerate (fun x _ => x) sample_page = Some st'
    /\ Z.of_nat (List.length (Dom.currentQuestions st')) = 10
    /\ Forall (fun q => In (base q) (getSelectedTables (Dom.tablesGrid sample_page))
                        /\ 1 <= other q <= 12) (Dom.currentQuestions st')
    /\ Dom.numQuestionsError st' = ""%string
    /\ Dom.tablesError st' = ""%string
    /\ Dom.overlayDisplay st' = "flex"%string
    /\ Dom.bodyOverflow st' = "hidden"%string
    /\ Dom.presentationAnswersVisible st' = false
    /\ Dom.toggleAnswersBtnText st' = "Show answers"%string
    /\ Dom.presentationQuestionsList st'
       = Dom.presentationItems 0 (Dom.currentQuestions st') false
    /\ Dom.presentationColumnsVar st' = Some (updatePresentationColumns 10)
    /\ Dom.presentationFontSizeVar st'
       = Some (fontSizePx (calculatePresentationLayout (Dom.innerHeight sample_page) 10))
    /\ Dom.questionsList st' = renderWorksheet (fun x _ => x) (Dom.currentQuestions st')
    /\ Dom.answersList st' = renderAnswers (Dom.currentQuestions st')
    /\ Dom.savedPdfs st' = Dom.savedPdfs sample_page.
Proof.
  split; [reflexivity|]. split; [lia|]. split; [discriminate|].
  split; [exact sample_draws_unit|].
  apply (present_shows_fresh_worksheet (fun x _ => x) sample_page 10);
    [reflexivity | lia | discriminate | exact sample_draws_unit].
Defined.

Section PageDownload.

Variable Math_pow : Q -> Q -> Q.
Variables pageWidth pageHeight : Q.
Variable splitTextToSize : Q -> string -> Q -> list string.
Variable getTextWidth : Q -> string -> Q.
Variable timestamp : string.

Local Abbreviation handleDownload :=
  (Dom.handleDownload Math_pow pageWidth pageHeight splitTextToSize getTextWidth timestamp).

Lemma handleDownload_valid (st : Dom.App) (n : Z) (qs : list Question) (s' : RandomSource) :
  Dom.numQuestionsValue st = Some n -> 1 <= n <= 99 ->
  getSelectedTables (Dom.tablesGrid st) <> [] ->
  generateQuestions (Z.to_nat n) (getSelectedTables (Dom.tablesGrid st))
    (Dom.includeDivisionChecked st) (Dom.randomSource st) = (map Some qs, s') ->
  handleDownload st
  = Some (st {{ Dom.numQuestionsError := ""%string;
                Dom.tablesError := ""%string;
                Dom.randomSource := s';
                Dom.currentQuestions := qs;
                Dom.questionsList := renderWorksheet Math_pow qs;
                Dom.answersList := renderAnswers qs;
                Dom.savedPdfs :=
                  Dom.savedPdfs st
                  ++ [downloadWorksheetPdf Math_pow pageWidth pageHeight splitTextToSize
                        getTextWidth timestamp qs] }}).
Proof.
  intros Hn Hrange Hsel Hrun. unfold Dom.handleDownload.
  rewrite (validateInputs_accepts st n Hn Hrange Hsel). cbv beta iota zeta.
  cbn [negb].
  rewrite (generateLoop_run _ n qs s'); [reflexivity | exact Hn | exact Hrun].
Qed.

Lemma handleDownload_invalid (st : Dom.App) :
  fst (Dom.validateInputs st) = false ->
  handleDownload st = Some (snd (Dom.validateInputs st)).
Proof.
  intros H. unfold Dom.handleDownload.
  destruct (Dom.validateInputs st) as [isValid st']. cbn [fst snd] in *.
  subst. reflexivity.
Qed.

(** X24.  With a valid form Download draws a worksheet of its own
    from the random source, not the one on display, makes it the
    current worksheet, and saves exactly one more PDF, the one of these
    questions; the presentation overlay is left as it was. *)
Theorem download_saves_fresh_worksheet (st : Dom.App) (n : Z) :
  Dom.numQuestionsValue st = Some n -> 1 <= n <= 99 ->
  getSelectedTables (Dom.tablesGrid st) <> [] ->
  unit_draws (Dom.randomSource st) ->
  exists (st' : Dom.App) (qs : list Question),
    handleDownload st = Some st'
    /\ fst (generateQuestions (Z.to_nat n) (getSelectedTables (Dom.tablesGrid st))
              (Dom.includeDivisionChecked st) (Dom.randomSource st)) = map Some qs
    /\ Z.of_nat (List.length qs) = n
    /\ Dom.currentQuestions st' = qs
    /\ Dom.savedPdfs st'
       = Dom.savedPdfs st
         ++ [downloadWorksheetPdf Math_pow pageWidth pageHeight splitTextToSize
               getTextWidth timestamp qs]
    /\ Dom.questionsList st' = renderWorksheet Math_pow qs
    /\ Dom.answersList st' = renderAnswers qs
    /\ Dom.overlayDisplay st' = Dom.overlayDisplay st
    /\ Dom.presentationQuestionsList st' = Dom.presentationQuestionsList st
    /\ Dom.presentationAnswersVisible st' = Dom.presentationAnswersVisible st.
Proof.
  intros Hn Hrange Hsel Hdraws.
  destruct (page_generates st n Hn Hrange Hsel Hdraws)
    as (qs & s' & Hrun & _ & Hlen & _ & _).
  eexists. exists qs.
  split; [exact (handleDownload_valid st n qs s' Hn Hrange Hsel Hrun)|].
  split; [rewrite Hrun; reflexivity|].
  split; [exact Hlen|].
  repeat split; reflexivity.
Qed.

(** X25.  With an invalid form neither button generates anything and
    no random number is drawn: Download saves nothing, and Present
    keeps the worksheet generated before; if there is one, Present
    still opens the overlay, on that old worksheet, while the form
    shows the error. *)
Theorem invalid_form_keeps_old_worksheet (st : Dom.App) :
  fst (Dom.validateInputs st) = false ->
  let rejected := snd (Dom.validateInputs st) in
  (Dom.numQuestionsError rejected <> ""%string \/ Dom.tablesError rejected <> ""%string)
  /\ Dom.currentQuestions rejected = Dom.currentQuestions st
  /\ Dom.randomSource rejected = Dom.randomSource st
  /\ Dom.savedPdfs rejected = Dom.savedPdfs st
  /\ handleDownload st = Some rejected
  /\ (Dom.currentQuestions st = [] -> Dom.handleGenerate Math_pow st = Some rejected)
  /\ (Dom.currentQuestions st <> [] ->
      exists st' : Dom.App,
        Dom.handleGenerate Math_pow st = Some st'
        /\ Dom.overlayDisplay st' = "flex"%string
        /\ Dom.presentationQuestionsList st'
           = Dom.presentationItems 0 (Dom.currentQuestions st) false
        /\ Dom.currentQuestions st' = Dom.currentQuestions st
        /\ Dom.randomSource st' = Dom.randomSource st
        /\ Dom.numQuestionsError st' = Dom.numQuestionsError rejected
        /\ Dom.tablesError st' = Dom.tablesError rejected).
Proof.
  intros Hinv. cbv zeta.
  pose proof (handleDownload_invalid st Hinv) as Hdown.
  pose proof (generateWorksheet_invalid Math_pow st Hinv) as Hgen.
  revert Hinv Hdown Hgen. rewrite validateInputs_eq. cbn [fst snd].
  intros Hinv Hdown Hgen.
  split.
  { clear Hdown Hgen. revert Hinv. simpl_state.
    repeat match goal with
           | |- context [if ?b then _ else _] => destruct b
           end;
      intros Hinv;
      first [left; discriminate | right; discriminate | discriminate Hinv]. }
  split; [reflexivity|]. split; [reflexivity|]. split; [reflexivity|].
  split; [exact Hdown|].
  unfold Dom.handleGenerate. rewrite Hgen. simpl_state.
  split.
  - intros Hq. simpl_state. rewrite Hq. reflexivity.
  - intros Hq.
    assert (Hpos : (0 <? List.length (Dom.currentQuestions st))%nat = true)
      by (destruct (Dom.currentQuestions st) eqn:E; [congruence | reflexivity]).
    simpl_state. rewrite Hpos. eexists. split; [reflexivity|].
    rewrite openPresentationMode_eq by (simpl_state; exact Hq).
    cbv zeta. simpl_state. repeat split; reflexivity.
Qed.

End PageDownload.

Lemma download_saves_fresh_worksheet_witness :
  Dom.numQuestionsValue sample_page = Some 10 /\ 1 <= 10 <= 99
  /\ getSelectedTables (Dom.tablesGrid sample_page) <> []
  /\ unit_draws (Dom.randomSource sample_page)
  /\ exists (st' : Dom.App) (qs : list Question),
    Dom.handleDownload (fun x _ => x) 210 297 noWrap unitWidth "stamp" sample_page = Some st'
    /\ fst (generateQuestions (Z.to_nat 10) (getSelectedTables (Dom.tablesGrid sample_page))
              (Dom.includeDivisionChecked sample_page) (Dom.randomSource sample_page))
       = map Some qs
    /\ Z.of_nat (List.length qs) = 10
    /\ Dom.currentQuestions st' = qs
    /\ Dom.savedPdfs st'
       = Dom.savedPdfs sample_page
         ++ [downloadWorksheetPdf (fun x _ => x) 210 297 noWrap unitWidth "stamp" qs]
    /\ Dom.questionsList st' = renderWorksheet (fun x _ => x) qs
    /\ Dom.answersList st' = renderAnswers qs
    /\ Dom.overlayDisplay st' = Dom.overlayDisplay sample_page
    /\ Dom.presentationQuestionsList st' = Dom.presentationQuestionsList sample_page
    /\ Dom.presentationAnswersVisible st' = Dom.presentationAnswersVisible sample_page.
Proof.
  split; [reflexivity|]. split; [lia|]. split; [discriminate|].
  split; [exact sample_draws_unit|].
  apply (download_saves_fresh_worksheet (fun x _ => x) 210 297 noWrap unitWidth "stamp"
           sample_page 10);
    [reflexivity | lia | discriminate | exact sample_draws_unit].
Defined.

Lemma invalid_form_keeps_old_worksheet_witness :
  let st := sample_generated {{ Dom.numQuestionsValue := Some 100 }} in
  fst (Dom.validateInputs st) = false
  /\ Dom.handleDownload (fun x _ => x) 210 297 noWrap unitWidth "stamp" st
     = Some (snd (Dom.validateInputs st))
  /\ Dom.savedPdfs (snd (Dom.validateInputs st)) = Dom.savedPdfs st
  /\ Dom.numQuestionsError (snd (Dom.validateInputs st))
     = "Please enter a number between 1 and 99"%string.
Proof.
  cbv zeta.
  assert (H : fst (Dom.validateInputs (sample_generated {{ Dom.numQuestionsValue := Some 100 }}))
              = false) by reflexivity.
  split; [exact H|].
  pose proof (invalid_form_keeps_old_worksheet (fun x _ => x) 210 297 noWrap unitWidth
                "stamp" (sample_generated {{ Dom.numQuestionsValue := Some 100 }}) H) as W.
  cbv zeta in W. destruct W as (_ & _ & _ & Hs & Hd & _).
  split; [exact Hd|]. split; [exact Hs | reflexivity].
Defined.

(* ================================================================== *)
(** ** The presentation overlay *)

Lemma presentationItems_texts (qs : list Question) (showAnswers : bool) (i : Z) :
  map Dom.itemText (Dom.presentationItems i qs showAnswers)
  = map Dom.itemText (Dom.presentationItems i qs false).
Proof.
  revert i. induction qs as [|q qs IH]; intros i; [reflexivity|].
  cbn [Dom.presentationItems map]. rewrite IH.
  destruct showAnswers; reflexivity.
Qed.

Lemma presentationItems_hidden (qs : list Question) (i : Z) :
  map Dom.itemAnswer (Dom.presentationItems i qs false) = map (fun _ => None) qs.
Proof.
  revert i. induction qs as [|q qs IH]; intros i; [reflexivity|].
  cbn [Dom.presentationItems map]. rewrite IH. reflexivity.
Qed.

Lemma presentationItems_shown (qs : list Question) (i : Z) :
  map Dom.itemAnswer (Dom.presentationItems i qs true)
  = map (fun q => Some (String_of_int (answer q))) qs.
Proof.
  revert i. induction qs as [|q qs IH]; intros i; [reflexivity|].
  cbn [Dom.presentationItems map]. rewrite IH. reflexivity.
Qed.

Lemma nonempty_length {A : Type} (l : list A) :
  l <> [] -> Nat.eqb (List.length l) 0 = false.
Proof. destruct l; [congruence | reflexivity]. Qed.

(** X26.  In the opened overlay no item carries an answer.  The toggle
    reveals the answer of every question, in order, beside the very
    same item texts, and relabels itself [Hide answers]; a second
    toggle restores the overlay exactly as it was opened. *)
Theorem answers_toggle_there_and_back (st : Dom.App) :
  Dom.currentQuestions st <> [] ->
  let shown := Dom.openPresentationMode st in
  let revealed := Dom.togglePresentationAnswers shown in
  map Dom.itemAnswer (Dom.presentationQuestionsList shown)
  = map (fun _ => None) (Dom.currentQuestions st)
  /\ Dom.presentationAnswersVisible revealed = true
  /\ Dom.toggleAnswersBtnText revealed = "Hide answers"%string
  /\ map Dom.itemAnswer (Dom.presentationQuestionsList revealed)
     = map (fun q => Some (String_of_int (answer q))) (Dom.currentQuestions st)
  /\ map Dom.itemText (Dom.presentationQuestionsList revealed)
     = map Dom.itemText (Dom.presentationQuestionsList shown)
  /\ Dom.togglePresentationAnswers revealed = shown.
Proof.
  intros Hq. cbv zeta.
  rewrite !togglePresentationAnswers_eq. cbv zeta.
  rewrite openPresentationMode_eq by exact Hq. cbv zeta.
  simpl_state. rewrite (nonempty_length _ Hq).
  split; [apply presentationItems_hidden|].
  split; [reflexivity|]. split; [reflexivity|].
  split; [apply presentationItems_shown|].
  split; [apply presentationItems_texts|].
  reflexivity.
Qed.

Lemma answers_toggle_there_and_back_witness :
  Dom.currentQuestions sample_generated <> []
  /\ Dom.togglePresentationAnswers
       (Dom.togglePresentationAnswers (Dom.openPresentationMode sample_generated))
     = Dom.openPresentationMode sample_generated.
Proof.
  assert (H : Dom.currentQuestions sample_generated <> []) by discriminate.
  split; [exact H|].
  exact (proj2 (proj2 (proj2 (proj2 (proj2
           (answers_toggle_there_and_back sample_generated H)))))).
Defined.

(* ================================================================== *)
(** ** Listeners *)

Lemma removeListener_held (h : nat) : Dom.removeListener h [h] = [].
Proof. unfold Dom.removeListener. cbn [filter]. rewrite Nat.eqb_refl. reflexivity. Qed.

Lemma addListener_nil (h : nat) : Dom.addListener h [] = [h].
Proof. reflexivity. Qed.

Lemma addListener_held (h : nat) : Dom.addListener h [h] = [h].
Proof. unfold Dom.addListener. cbn [existsb]. rewrite Nat.eqb_refl. reflexivity. Qed.

(** Removing the closure the script holds unregisters everything
    that was registered. *)
Lemma others_of_held (handler : option nat) :
  match handler with
  | Some old => Dom.removeListener old (heldListener handler)
  | None => heldListener handler
  end = [].
Proof. destruct handler as [h|]; [apply removeListener_held | reflexivity]. Qed.

Lemma dispatch_nil (listeners : Dom.App -> list nat) (body : nat -> Dom.App -> Dom.App)
  (st : Dom.App) :
  listeners st = [] -> Dom.dispatch listeners body st = st.
Proof. intros H. unfold Dom.dispatch. rewrite H. reflexivity. Qed.

Lemma dispatch_single (listeners : Dom.App -> list nat) (body : nat -> Dom.App -> Dom.App)
  (st : Dom.App) (h : nat) :
  listeners st = [h] -> Dom.dispatch listeners body st = body h st.
Proof.
  intros H. unfold Dom.dispatch. rewrite H. cbn [fold_left].
  rewrite H. cbn [existsb]. rewrite Nat.eqb_refl. reflexivity.
Qed.

Lemma dispatch_invariant (P : Dom.App -> Prop) (listeners : Dom.App -> list nat)
  (body : nat -> Dom.App -> Dom.App) (st : Dom.App) :
  (forall h s, P s -> P (body h s)) -> P st -> P (Dom.dispatch listeners body st).
Proof.
  intros Hbody. unfold Dom.dispatch. generalize (listeners st) as l.
  intros l. revert st. induction l as [|h l IH]; intros st Hst; [exact Hst|].
  cbn [fold_left]. apply IH.
  destruct (existsb (Nat.eqb h) (listeners st)); [apply Hbody|]; exact Hst.
Qed.

Lemma iter_invariant (P : Dom.App -> Prop) (f : Dom.App -> Dom.App) (n : nat)
  (st : Dom.App) :
  (forall s, P s -> P (f s)) -> P st -> P (Nat.iter n f st).
Proof.
  intros Hf Hst. induction n as [|n IH]; [exact Hst|].
  cbn [Nat.iter nat_rect]. apply Hf, IH.
Qed.

Lemma openPresentationMode_listeners (st : Dom.App) :
  Dom.currentQuestions st <> [] ->
  Dom.keydownListeners st = heldListener (Dom.presentationKeyboardHandler st) ->
  Dom.keydownListeners (Dom.openPresentationMode st) = [S (Dom.nextClosure st)]
  /\ Dom.overlayDisplay (Dom.openPresentationMode st) = "flex"%string.
Proof.
  intros Hq Hk. rewrite openPresentationMode_eq by exact Hq. cbv zeta.
  simpl_state. rewrite Hk, others_of_held. split; reflexivity.
Qed.

(** X27.  While the overlay is open a key reaches the shortcuts
    unless it is typed into an input, a textarea or an editable
    element: A toggles the answers, F toggles fullscreen, Escape closes
    the overlay, upper or lower case alike, and every other key does
    nothing.  Once the overlay is closed no key does anything. *)
Theorem keyboard_shortcuts_while_open (st : Dom.App) (event : Dom.KeyEvent) :
  Dom.currentQuestions st <> [] ->
  Dom.keydownListeners st = heldListener (Dom.presentationKeyboardHandler st) ->
  let shown := Dom.openPresentationMode st in
  let typing := String.eqb (Dom.targetTagName event) "INPUT"
                || String.eqb (Dom.targetTagName event) "TEXTAREA"
                || Dom.targetIsContentEditable event in
  let k := Dom.String_toLowerCase (Dom.key event) in
  Dom.keydown event shown
  = (if typing then shown
     else if String.eqb k "a" then Dom.togglePresentationAnswers shown
     else if String.eqb k "f" then Dom.toggleFullscreen shown
     else if String.eqb k "escape" then Dom.closePresentationMode shown
     else shown)
  /\ Dom.String_toLowerCase "A" = "a"%string
  /\ Dom.String_toLowerCase "F" = "f"%string
  /\ Dom.String_toLowerCase "Escape" = "escape"%string
  /\ Dom.keydown event (Dom.closePresentationMode shown) = Dom.closePresentationMode shown.
Proof.
  intros Hq Hk. cbv zeta.
  destruct (openPresentationMode_listeners st Hq Hk) as [Hl Hd].
  split.
  - unfold Dom.keydown. rewrite (dispatch_single _ _ _ _ Hl).
    unfold Dom.keyboardHandlerBody. rewrite Hd.
    change (String.eqb "flex" "none") with false. cbv iota.
    destruct (String.eqb (Dom.targetTagName event) "INPUT"
              || String.eqb (Dom.targetTagName event) "TEXTAREA"
              || Dom.targetIsContentEditable event); [reflexivity|].
    destruct (String.eqb (Dom.String_toLowerCase (Dom.key event)) "a"); [reflexivity|].
    destruct (String.eqb (Dom.String_toLowerCase (Dom.key event)) "f"); [reflexivity|].
    destruct (String.eqb (Dom.String_toLowerCase (Dom.key event)) "escape"); reflexivity.
  - split; [reflexivity|]. split; [reflexivity|]. split; [reflexivity|].
    unfold Dom.keydown. apply dispatch_nil.
    rewrite closePresentationMode_eq. cbv zeta.
    rewrite openPresentationMode_eq by exact Hq. cbv zeta.
    simpl_state. rewrite Hk, others_of_held. cbn [Dom.addListener existsb app].
    apply removeListener_held.
Qed.

Lemma keyboard_shortcuts_while_open_witness :
  Dom.currentQuestions sample_generated <> []
  /\ Dom.keydownListeners sample_generated
     = heldListener (Dom.presentationKeyboardHandler sample_generated)
  /\ Dom.keydown (Dom.mkKeyEvent "A" "BODY" false) (Dom.openPresentationMode sample_generated)
     = Dom.togglePresentationAnswers (Dom.openPresentationMode sample_generated).
Proof.
  assert (H : Dom.currentQuestions sample_generated <> []) by discriminate.
  split; [exact H|]. split; [reflexivity|].
  exact (proj1 (keyboard_shortcuts_while_open sample_generated
                  (Dom.mkKeyEvent "A" "BODY" false) H eq_refl)).
Defined.

(** A handler that leaves the listeners, the closures the script
    holds and the overlay alone keeps the listeners tidy. *)
Lemma listenersTidy_frame (st st' : Dom.App) :
  Dom.windowResizeListeners st' = Dom.windowResizeListeners st ->
  Dom.fullscreenchangeResizeListeners st' = Dom.fullscreenchangeResizeListeners st ->
  Dom.keydownListeners st' = Dom.keydownListeners st ->
  Dom.documentClickListeners st' = Dom.documentClickListeners st ->
  Dom.presentationResizeHandler st' = Dom.presentationResizeHandler st ->
  Dom.presentationKeyboardHandler st' = Dom.presentationKeyboardHandler st ->
  Dom.helpTooltipClickOutsideHandler st' = Dom.helpTooltipClickOutsideHandler st ->
  Dom.overlayDisplay st' = Dom.overlayDisplay st ->
  listenersTidy st -> listenersTidy st'.
Proof.
  unfold listenersTidy. intros -> -> -> -> -> -> -> ->. exact (fun H => H).
Qed.

Lemma removed_click_listener (st : Dom.App) :
  Dom.documentClickListeners st = []
  \/ Dom.documentClickListeners st = heldListener (Dom.helpTooltipClickOutsideHandler st) ->
  match Dom.helpTooltipClickOutsideHandler st with
  | Some old => Dom.removeListener old (Dom.documentClickListeners st)
  | None => Dom.documentClickListeners st
  end = [].
Proof.
  intros [H|H]; rewrite H.
  - destruct (Dom.helpTooltipClickOutsideHandler st); reflexivity.
  - apply others_of_held.
Qed.

Lemma openPresentationMode_tidy (st : Dom.App) :
  listenersTidy st -> listenersTidy (Dom.openPresentationMode st).
Proof.
  intros H.
  destruct (Dom.currentQuestions st) as [|q qs] eqn:Hq.
  { unfold Dom.openPresentationMode. rewrite Hq. exact H. }
  assert (Hne : Dom.currentQuestions st <> []) by congruence.
  rewrite openPresentationMode_eq by exact Hne. cbv zeta.
  unfold listenersTidy in *. simpl_state.
  destruct H as (Hw & Hf & Hk & Hc & _).
  rewrite Hw, Hf, Hk, !others_of_held.
  repeat split; try reflexivity; try exact Hc; discriminate.
Qed.

Lemma closePresentationMode_tidy (st : Dom.App) :
  listenersTidy st -> listenersTidy (Dom.closePresentationMode st).
Proof.
  intros H. rewrite closePresentationMode_eq. cbv zeta.
  unfold listenersTidy in *. simpl_state.
  destruct H as (Hw & Hf & Hk & Hc & _).
  pose proof (removed_click_listener st) as Hr. simpl_state.
  rewrite Hw, Hf, Hk, !others_of_held, (Hr Hc).
  repeat split; try reflexivity. left; reflexivity.
Qed.

Lemma togglePresentationAnswers_tidy (st : Dom.App) :
  listenersTidy st -> listenersTidy (Dom.togglePresentationAnswers st).
Proof. intros H. rewrite togglePresentationAnswers_eq. cbv zeta. frame_by listenersTidy_frame. Qed.

Lemma toggleFullscreen_tidy (st : Dom.App) :
  listenersTidy st -> listenersTidy (Dom.toggleFullscreen st).
Proof. intros H. rewrite toggleFullscreen_eq. frame_by listenersTidy_frame. Qed.

Lemma updatePresentationLayout_tidy (st : Dom.App) :
  listenersTidy st -> listenersTidy (Dom.updatePresentationLayout st).
Proof. intros H. rewrite updatePresentationLayout_eq. cbv zeta. frame_by listenersTidy_frame. Qed.

Lemma hideHelpTooltip_tidy (st : Dom.App) :
  listenersTidy st -> listenersTidy (Dom.hideHelpTooltip st).
Proof.
  intros H. unfold Dom.hideHelpTooltip.
  destruct (negb (Dom.helpTooltipExists st)); [exact H|].
  cbv zeta. unfold Dom.setTimeout. cbn [snd].
  rewrite removeClickOutsideHandler_eq.
  unfold listenersTidy in *. simpl_state.
  destruct H as (Hw & Hf & Hk & Hc & Ho).
  pose proof (removed_click_listener st) as Hr. simpl_state.
  rewrite (Hr Hc).
  repeat split; try assumption; try (left; reflexivity); apply Ho; assumption.
Qed.

Lemma showHelpTooltip_tidy (st : Dom.App) :
  listenersTidy st -> listenersTidy (Dom.showHelpTooltip st).
Proof.
  intros H. unfold Dom.showHelpTooltip.
  destruct (negb (Dom.helpTooltipExists st)); [exact H|].
  cbv zeta. unfold Dom.setupClickOutsideHandler, Dom.setTimeout. cbv zeta. cbn [snd].
  rewrite removeClickOutsideHandler_eq.
  unfold listenersTidy in *. simpl_state.
  destruct H as (Hw & Hf & Hk & Hc & Ho).
  pose proof (removed_click_listener st) as Hr. simpl_state.
  rewrite (Hr Hc).
  repeat split; try assumption; try (left; reflexivity); apply Ho; assumption.
Qed.

Lemma toggleHelpTooltip_tidy (st : Dom.App) :
  listenersTidy st -> listenersTidy (Dom.toggleHelpTooltip st).
Proof.
  intros H. unfold Dom.toggleHelpTooltip.
  destruct (negb (Dom.helpTooltipExists st)); [exact H|].
  cbv zeta. destruct (negb _);
    [apply hideHelpTooltip_tidy | apply showHelpTooltip_tidy]; exact H.
Qed.

Lemma resizeHandlerBody_tidy (h : nat) (st : Dom.App) :
  listenersTidy st -> listenersTidy (Dom.resizeHandlerBody h st).
Proof.
  intros H. unfold Dom.resizeHandlerBody, Dom.setTimeout. cbv zeta.
  rewrite clearTimeout_eq. frame_by listenersTidy_frame.
Qed.

Lemma keyboardHandlerBody_tidy (event : Dom.KeyEvent) (st : Dom.App) :
  listenersTidy st -> listenersTidy (snd (Dom.keyboardHandlerBody event st)).
Proof.
  intros H. unfold Dom.keyboardHandlerBody.
  repeat match goal with
         | |- context [if ?b then _ else _] => destruct b
         end; cbn [snd];
    first [ exact H
          | apply togglePresentationAnswers_tidy, H
          | apply toggleFullscreen_tidy, H
          | apply closePresentationMode_tidy, H ].
Qed.

Lemma clickOutsideBody_tidy (inTooltip inHelpBtn : bool) (st : Dom.App) :
  listenersTidy st -> listenersTidy (Dom.clickOutsideBody inTooltip inHelpBtn st).
Proof.
  intros H. unfold Dom.clickOutsideBody.
  repeat match goal with
         | |- context [if ?b then _ else _] => destruct b
         end; first [exact H | apply hideHelpTooltip_tidy, H].
Qed.

Lemma runCallback_tidy (callback : Dom.Callback) (st : Dom.App) :
  listenersTidy st -> listenersTidy (Dom.runCallback callback st).
Proof.
  intros H. destruct callback; cbn [Dom.runCallback].
  - destruct (negb _); [apply updatePresentationLayout_tidy|]; exact H.
  - frame_by listenersTidy_frame.
  - destruct (Dom.helpTooltipClickOutsideHandler st) as [h|] eqn:Hh; [|exact H].
    unfold listenersTidy in *. simpl_state.
    destruct H as (Hw & Hf & Hk & Hc & Ho).
    split; [exact Hw|]. split; [exact Hf|]. split; [exact Hk|]. split; [|exact Ho].
    right. rewrite Hh in *. cbn [heldListener] in *.
    destruct Hc as [-> | ->]; [apply addListener_nil | apply addListener_held].
  - cbv zeta. pose proof (hideHelpTooltip_tidy st H) as H'.
    revert H'. generalize (Dom.hideHelpTooltip st) as st'. intros st' H'. frame_by listenersTidy_frame.
Qed.

Lemma timerFires_tidy (id : nat) (st : Dom.App) :
  listenersTidy st -> listenersTidy (Dom.timerFires id st).
Proof.
  intros H. unfold Dom.timerFires.
  destruct (find _ (Dom.timers st)) as [t|]; [|exact H].
  cbv zeta. apply runCallback_tidy. frame_by listenersTidy_frame.
Qed.

Lemma fullscreenTextBody_tidy (st : Dom.App) :
  listenersTidy st -> listenersTidy (Dom.fullscreenTextBody st).
Proof.
  intros H. unfold Dom.fullscreenTextBody.
  destruct (Dom.fullscreenElement st); frame_by listenersTidy_frame.
Qed.

Lemma fullscreenSettled_tidy (fulfilled : bool) (st : Dom.App) :
  listenersTidy st -> listenersTidy (Dom.fullscreenSettled fulfilled st).
Proof.
  intros H. unfold Dom.fullscreenSettled.
  destruct (Dom.fullscreenRequests st) as [|request rest]; [exact H|].
  cbv zeta. destruct request, fulfilled;
    unfold Dom.requestFullscreenDone, Dom.requestFullscreenFailed, Dom.exitFullscreenDone;
    frame_by listenersTidy_frame.
Qed.

Section PageInvariant.

Variable Math_pow : Q -> Q -> Q.
Variables pageWidth pageHeight : Q.
Variable splitTextToSize : Q -> string -> Q -> list string.
Variable getTextWidth : Q -> string -> Q.
Variable timestamp : string.

Local Abbreviation pageStep :=
  (Dom.pageStep Math_pow pageWidth pageHeight splitTextToSize getTextWidth timestamp).
Local Abbreviation pageRun :=
  (Dom.pageRun Math_pow pageWidth pageHeight splitTextToSize getTextWidth timestamp).

Lemma validateInputs_tidy (st : Dom.App) :
  listenersTidy st -> listenersTidy (snd (Dom.validateInputs st)).
Proof. intros H. rewrite validateInputs_eq. cbn [snd]. frame_by listenersTidy_frame. Qed.

Lemma generateLoop_tidy (st : Dom.App) :
  listenersTidy st -> listenersTidy (snd (Dom.generateLoop st)).
Proof.
  intros H. unfold Dom.generateLoop. cbv zeta.
  destruct (generateQuestions _ _ _ _) as [questions random]. cbn [snd]. frame_by listenersTidy_frame.
Qed.

Lemma generateWorksheet_tidy (st st' : Dom.App) :
  Dom.generateWorksheet Math_pow st = Some st' -> listenersTidy st -> listenersTidy st'.
Proof.
  unfold Dom.generateWorksheet. intros Hgen H.
  pose proof (validateInputs_tidy st H) as Hv.
  destruct (Dom.validateInputs st) as [isValid st1]. cbn [snd] in Hv.
  destruct isValid; cbn [negb] in Hgen; [|injection Hgen as <-; exact Hv].
  pose proof (generateLoop_tidy st1 Hv) as Hl.
  destruct (Dom.generateLoop st1) as [[questions|] st2]; [|discriminate].
  cbn [snd] in Hl. injection Hgen as <-.
  unfold Dom.renderAnswers, Dom.renderWorksheet. frame_by listenersTidy_frame.
Qed.

Lemma handleGenerate_tidy (st st' : Dom.App) :
  Dom.handleGenerate Math_pow st = Some st' -> listenersTidy st -> listenersTidy st'.
Proof.
  unfold Dom.handleGenerate. intros Hgen H.
  destruct (Dom.generateWorksheet Math_pow st) as [st1|] eqn:Hw; [|discriminate].
  pose proof (generateWorksheet_tidy st st1 Hw H) as H1.
  destruct (0 <? _)%nat; injection Hgen as <-;
    [apply openPresentationMode_tidy|]; exact H1.
Qed.

Lemma handleDownload_tidy (st st' : Dom.App) :
  Dom.handleDownload Math_pow pageWidth pageHeight splitTextToSize getTextWidth timestamp st
  = Some st' ->
  listenersTidy st -> listenersTidy st'.
Proof.
  unfold Dom.handleDownload. intros Hgen H.
  pose proof (validateInputs_tidy st H) as Hv.
  destruct (Dom.validateInputs st) as [isValid st1]. cbn [snd] in Hv.
  destruct isValid; cbn [negb] in Hgen; [|injection Hgen as <-; exact Hv].
  pose proof (generateLoop_tidy st1 Hv) as Hl.
  destruct (Dom.generateLoop st1) as [[questions|] st2]; [|discriminate].
  cbn [snd] in Hl. injection Hgen as <-.
  unfold Dom.renderAnswers, Dom.renderWorksheet. frame_by listenersTidy_frame.
Qed.

Lemma pageStep_tidy (st st' : Dom.App) (e : Dom.PageEvent) :
  pageStep st e = Some st' -> listenersTidy st -> listenersTidy st'.
Proof.
  intros Hstep H. destruct e; cbn [Dom.pageStep] in Hstep;
    try (injection Hstep as <-).
  - frame_by listenersTidy_frame.
  - exact (handleGenerate_tidy st st' Hstep H).
  - exact (handleDownload_tidy st st' Hstep H).
  - unfold Dom.closeBtnClicked.
    destruct (Dom.closeBtnListens st); [apply closePresentationMode_tidy|]; exact H.
  - unfold Dom.toggleAnswersBtnClicked.
    destruct (Dom.toggleAnswersBtnListens st);
      [apply togglePresentationAnswers_tidy|]; exact H.
  - unfold Dom.fullscreenBtnClicked.
    destruct (Dom.fullscreenBtnListens st); [apply toggleFullscreen_tidy|]; exact H.
  - unfold Dom.helpBtnClicked. apply iter_invariant; [apply toggleHelpTooltip_tidy | exact H].
  - unfold Dom.documentClicked. apply dispatch_invariant; [|exact H].
    intros h s. apply clickOutsideBody_tidy.
  - unfold Dom.keydown. apply dispatch_invariant; [|exact H].
    intros h s. apply keyboardHandlerBody_tidy.
  - unfold Dom.windowResized. cbv zeta. apply dispatch_invariant.
    + intros h s. apply resizeHandlerBody_tidy.
    + frame_by listenersTidy_frame.
  - apply timerFires_tidy, H.
  - unfold Dom.fullscreenChanged. cbv zeta. apply dispatch_invariant.
    + intros h s. apply resizeHandlerBody_tidy.
    + apply iter_invariant; [apply fullscreenTextBody_tidy | frame_by listenersTidy_frame].
  - apply fullscreenSettled_tidy, H.
Qed.

Lemma pageRun_tidy (events : list Dom.PageEvent) (st st' : Dom.App) :
  pageRun events st = Some st' -> listenersTidy st -> listenersTidy st'.
Proof.
  revert st. induction events as [|e events IH]; intros st Hrun H.
  - injection Hrun as <-. exact H.
  - cbn [Dom.pageRun] in Hrun.
    destruct (pageStep st e) as [st1|] eqn:Hstep; [|discriminate].
    exact (IH st1 Hrun (pageStep_tidy st st1 e Hstep H)).
Qed.

Lemma freshPage_tidy (st : Dom.App) : freshPage st -> listenersTidy st.
Proof.
  unfold freshPage, listenersTidy.
  intros (_ & _ & Hr & Hk & _ & Hc & _ & Hw & Hf & _ & Hkl & Hcl & _).
  rewrite Hr, Hk, Hw, Hf, Hkl, Hcl. repeat split; try reflexivity. left; reflexivity.
Qed.

(** X28.  However the page is used from its load on, clicks, keys,
    resizes, timers and fullscreen changes in any order, the window
    never has more than one resize listener and the document never
    more than one key listener, one fullscreen listener of the resize
    closure and one click-outside listener; while the overlay is hidden
    there is no resize and no key listener at all. *)
Theorem listeners_never_pile_up (events : list Dom.PageEvent) (st st' : Dom.App) :
  freshPage st -> pageRun events st = Some st' ->
  (List.length (Dom.windowResizeListeners st') <= 1)%nat
  /\ (List.length (Dom.fullscreenchangeResizeListeners st') <= 1)%nat
  /\ (List.length (Dom.keydownListeners st') <= 1)%nat
  /\ (List.length (Dom.documentClickListeners st') <= 1)%nat
  /\ (Dom.overlayDisplay st' = "none"%string ->
      Dom.windowResizeListeners st' = [] /\ Dom.keydownListeners st' = []).
Proof.
  intros Hfresh Hrun.
  destruct (pageRun_tidy events st st' Hrun (freshPage_tidy st Hfresh))
    as (Hw & Hf & Hk & Hc & Ho).
  assert (Hheld : forall handler, (List.length (heldListener handler) <= 1)%nat)
    by (intros [h|]; cbn; lia).
  rewrite Hw, Hf, Hk.
  repeat split; try apply Hheld.
  - destruct Hc as [-> | ->]; [cbn; lia | apply Hheld].
  - destruct (Ho H) as [-> _]. reflexivity.
  - destruct (Ho H) as [_ ->]. reflexivity.
Qed.

End PageInvariant.

Lemma sample_page_fresh : freshPage sample_page.
Proof. unfold freshPage. repeat split. Qed.

Lemma listeners_never_pile_up_witness :
  freshPage sample_page
  /\ exists st' : Dom.App,
    Dom.pageRun (fun x _ => x) 210 297 noWrap unitWidth "stamp" sample_session sample_page
    = Some st'
    /\ (List.length (Dom.windowResizeListeners st') <= 1)%nat
    /\ (List.length (Dom.keydownListeners st') <= 1)%nat
    /\ Dom.helpBtnClickListeners st' = 2%nat.
Proof.
  split; [exact sample_page_fresh|].
  destruct (Dom.pageRun (fun x _ => x) 210 297 noWrap unitWidth "stamp" sample_session
              sample_page) as [st'|] eqn:Hrun; [|vm_compute in Hrun; discriminate Hrun].
  exists st'. split; [reflexivity|].
  destruct (listeners_never_pile_up (fun x _ => x) 210 297 noWrap unitWidth "stamp"
              sample_session sample_page st' sample_page_fresh Hrun) as (Hw & _ & Hk & _).
  split; [exact Hw|]. split; [exact Hk|].
  vm_compute in Hrun. injection Hrun as <-. reflexivity.
Defined.

(* ================================================================== *)
(** ** The debounced resize handler *)

Lemma resizeHandlerBody_eq (h : nat) (st : Dom.App) :
  Dom.resizeHandlerBody h st
  = st {{ Dom.timers :=
            match Dom.resizeTimeout st h with
            | Some i => filter (fun t => negb (Nat.eqb (Dom.timerId t) i)) (Dom.timers st)
            | None => Dom.timers st
            end
            ++ [Dom.mkTimer (Dom.nextTimer st) (Dom.clock st + 150) Dom.ResizeUpdate];
          Dom.nextTimer := S (Dom.nextTimer st);
          Dom.resizeTimeout :=
            fun c => if Nat.eqb c h then Some (Dom.nextTimer st) else Dom.resizeTimeout st c }}.
Proof.
  unfold Dom.resizeHandlerBody, Dom.setTimeout. cbv zeta.
  rewrite clearTimeout_eq. reflexivity.
Qed.

Lemma filter_older (i : nat) (kept : list Dom.Timer) :
  Forall (fun t => (Dom.timerId t < i)%nat) kept ->
  filter (fun t => negb (Nat.eqb (Dom.timerId t) i)) kept = kept.
Proof.
  induction 1 as [|t kept Ht _ IH]; [reflexivity|].
  cbn [filter]. destruct (Nat.eqb_spec (Dom.timerId t) i); [lia|].
  cbn [negb]. rewrite IH. reflexivity.
Qed.

Lemma filter_pending (i : nat) (due : Z) (callback : Dom.Callback) (kept : list Dom.Timer) :
  Forall (fun t => (Dom.timerId t < i)%nat) kept ->
  filter (fun t => negb (Nat.eqb (Dom.timerId t) i)) (kept ++ [Dom.mkTimer i due callback])
  = kept.
Proof.
  intros H. rewrite filter_app, (filter_older i kept H). cbn [filter Dom.timerId].
  rewrite Nat.eqb_refl. apply app_nil_r.
Qed.

Lemma find_pending (i : nat) (due : Z) (callback : Dom.Callback) (kept : list Dom.Timer) :
  Forall (fun t => (Dom.timerId t < i)%nat) kept ->
  find (fun t => Nat.eqb (Dom.timerId t) i) (kept ++ [Dom.mkTimer i due callback])
  = Some (Dom.mkTimer i due callback).
Proof.
  induction 1 as [|t kept Ht _ IH].
  - cbn. rewrite Nat.eqb_refl. reflexivity.
  - cbn [app find]. destruct (Nat.eqb_spec (Dom.timerId t) i); [lia | exact IH].
Qed.

Lemma windowResized_debouncing (h i : nat) (kept : list Dom.Timer) (st0 st : Dom.App)
  (time : Z) (height : Q) :
  Forall (fun t => (Dom.timerId t < i)%nat) kept ->
  debouncing h i kept st0 st ->
  debouncing h (S i) kept st0 (Dom.windowResized time height st)
  /\ Dom.innerHeight (Dom.windowResized time height st) = height.
Proof.
  intros Hkept (Hl & Hr & Ht & Hn & Ho & Hq).
  unfold Dom.windowResized. cbv zeta.
  rewrite (dispatch_single _ _ _ h) by exact Hl.
  rewrite resizeHandlerBody_eq. unfold debouncing. simpl_state.
  rewrite Hr, Ht, Hn, Nat.eqb_refl, (filter_pending i _ _ kept Hkept).
  repeat split; assumption.
Qed.

Lemma resizeBurst_debouncing (h : nat) (kept : list Dom.Timer) (st0 : Dom.App)
  (rest : list (Z * Q)) :
  forall (i : nat) (st : Dom.App) (height : Q),
    Forall (fun t => (Dom.timerId t < i)%nat) kept ->
    debouncing h i kept st0 st -> Dom.innerHeight st = height ->
    debouncing h (i + List.length rest) kept st0 (resizeBurst rest st)
    /\ Dom.innerHeight (resizeBurst rest st) = snd (last rest (0, height)).
Proof.
  induction rest as [|[time hgt] rest IH]; intros i st height Hkept Hd Hh.
  - rewrite Nat.add_0_r. split; [exact Hd | exact Hh].
  - destruct (windowResized_debouncing h i kept st0 st time hgt Hkept Hd) as [Hd' Hh'].
    assert (Hkept' : Forall (fun t => (Dom.timerId t < S i)%nat) kept)
      by (eapply Forall_impl; [|exact Hkept]; cbv beta; intros; lia).
    destruct (IH (S i) (Dom.windowResized time hgt st) hgt Hkept' Hd' Hh') as [Hd2 Hh2].
    change (resizeBurst ((time, hgt) :: rest) st)
      with (resizeBurst rest (Dom.windowResized time hgt st)).
    replace (i + List.length ((time, hgt) :: rest))%nat with (S i + List.length rest)%nat
      by (cbn [List.length]; lia).
    split; [exact Hd2|]. rewrite Hh2.
    destruct rest as [|r rest']; [reflexivity|].
    cbn [last]. clear. revert r. induction rest' as [|r' rest' IHr]; intros r; [reflexivity|].
    cbn [last] in *. apply IHr.
Qed.

(** When every pending layout update is the handler's own, clearing
    the handler's timer leaves none. *)
Lemma cleared_layout_updates (st : Dom.App) (h : nat) :
  (forall t, In t (pendingLayoutUpdates st) ->
             Dom.resizeTimeout st h = Some (Dom.timerId t)) ->
  filter isLayoutUpdate (Dom.timers (Dom.clearTimeout (Dom.resizeTimeout st h) st)) = [].
Proof.
  intro Hown.
  match goal with |- ?l = [] => destruct l as [|t l'] eqn:E end; [reflexivity|].
  assert (In t (t :: l')) as Hin by (left; reflexivity).
  rewrite <- E in Hin. apply filter_In in Hin as [Hin Hlu].
  rewrite clearTimeout_eq in Hin. simpl_state. cbv [constant] in Hin.
  assert (In t (Dom.timers st) -> Dom.resizeTimeout st h = Some (Dom.timerId t)) as Hown'.
  { intro H. apply Hown. unfold pendingLayoutUpdates. apply filter_In. split; assumption. }
  simpl_state.
  match type of Hin with
  | context [match ?x with Some _ => _ | None => _ end] => destruct x as [i|]
  end.
  - apply filter_In in Hin as [Hin Hne]. specialize (Hown' Hin).
    injection Hown' as ->. rewrite Nat.eqb_refl in Hne. discriminate Hne.
  - specialize (Hown' Hin). discriminate Hown'.
Qed.

(** X29.  Resize events are debounced.  Take a page whose only resize
    listener is the handler [h], with the overlay shown, and where every
    layout update still pending is the one [h] itself has scheduled
    (none is left over from a handler of an earlier presentation).
    After a burst of resize events with no timer firing in between,
    however many they are, exactly one layout update is pending: the
    timers are those that were there before, less the one the handler
    had pending, plus one due 150 ms after the last event.  When it
    fires no layout update is pending any more and the columns and the
    font size are those for the last window height of the burst: the
    layout is set once. *)
Theorem resize_burst_updates_layout_once (st : Dom.App) (h : nat) (first : Z * Q)
  (rest : list (Z * Q)) :
  Dom.windowResizeListeners st = [h] ->
  Forall (fun t => (Dom.timerId t < Dom.nextTimer st)%nat) (Dom.timers st) ->
  (forall t, In t (pendingLayoutUpdates st) ->
             Dom.resizeTimeout st h = Some (Dom.timerId t)) ->
  Dom.overlayDisplay st = "flex"%string ->
  Dom.currentQuestions st <> [] ->
  let kept := Dom.timers (Dom.clearTimeout (Dom.resizeTimeout st h) st) in
  let st' := resizeBurst (first :: rest) st in
  let id := (Dom.nextTimer st + List.length rest)%nat in
  let height := snd (last rest first) in
  let layout := calculatePresentationLayout height
                  (Z.of_nat (List.length (Dom.currentQuestions st))) in
  Dom.timers st' = kept ++ [Dom.mkTimer id (Dom.clock st' + 150) Dom.ResizeUpdate]
  /\ pendingLayoutUpdates st' = [Dom.mkTimer id (Dom.clock st' + 150) Dom.ResizeUpdate]
  /\ Dom.innerHeight st' = height
  /\ Dom.timers (Dom.timerFires id st') = kept
  /\ pendingLayoutUpdates (Dom.timerFires id st') = []
  /\ Dom.presentationColumnsVar (Dom.timerFires id st') = Some (presentationColumns layout)
  /\ Dom.presentationFontSizeVar (Dom.timerFires id st') = Some (fontSizePx layout).
Proof.
  intros Hl Hfresh Hown Ho Hq. cbv zeta.
  pose proof (cleared_layout_updates st h Hown) as Hnone.
  set (kept := Dom.timers (Dom.clearTimeout (Dom.resizeTimeout st h) st)) in *.
  assert (Hkept : Forall (fun t => (Dom.timerId t < Dom.nextTimer st)%nat) kept).
  { subst kept. rewrite clearTimeout_eq. simpl_state.
    match goal with
    | |- context [match ?x with Some _ => _ | None => _ end] => destruct x
    end; [|exact Hfresh].
    apply Forall_forall. intros t Ht. apply filter_In in Ht.
    rewrite Forall_forall in Hfresh. apply Hfresh, Ht. }
  destruct first as [time hgt].
  assert (Hfirst : debouncing h (Dom.nextTimer st) kept st (Dom.windowResized time hgt st)
                   /\ Dom.innerHeight (Dom.windowResized time hgt st) = hgt).
  { subst kept. unfold Dom.windowResized. cbv zeta.
    rewrite (dispatch_single _ _ _ h) by exact Hl.
    rewrite resizeHandlerBody_eq, clearTimeout_eq. unfold debouncing. simpl_state.
    rewrite Nat.eqb_refl. repeat split; try reflexivity; assumption. }
  destruct Hfirst as [Hd Hh].
  destruct (resizeBurst_debouncing h kept st rest (Dom.nextTimer st)
              (Dom.windowResized time hgt st) hgt Hkept Hd Hh)
    as [(Hl' & Hr' & Ht' & Hn' & Ho' & Hq') Hh'].
  change (resizeBurst ((time, hgt) :: rest) st)
    with (resizeBurst rest (Dom.windowResized time hgt st)).
  set (st' := resizeBurst rest (Dom.windowResized time hgt st)) in *.
  set (id := (Dom.nextTimer st + List.length rest)%nat) in *.
  assert (Hkept' : Forall (fun t => (Dom.timerId t < id)%nat) kept)
    by (eapply Forall_impl; [|exact Hkept]; cbv beta; subst id; intros; lia).
  assert (Hheight : snd (last rest (0, hgt)) = snd (last rest (time, hgt))).
  { clear. destruct rest as [|r rest]; [reflexivity|].
    revert r. induction rest as [|r' rest IH]; intros r; [reflexivity|].
    cbn [last] in *. apply IH. }
  assert (Hfired :
    Dom.timers (Dom.timerFires id st') = kept
    /\ Dom.presentationColumnsVar (Dom.timerFires id st')
       = Some (presentationColumns
                 (calculatePresentationLayout (snd (last rest (time, hgt)))
                    (Z.of_nat (List.length (Dom.currentQuestions st)))))
    /\ Dom.presentationFontSizeVar (Dom.timerFires id st')
       = Some (fontSizePx
                 (calculatePresentationLayout (snd (last rest (time, hgt)))
                    (Z.of_nat (List.length (Dom.currentQuestions st)))))).
  { unfold Dom.timerFires. rewrite Ht', (find_pending id _ _ kept Hkept').
    cbv zeta. cbn [Dom.timerCallback Dom.runCallback Dom.timerDue].
    rewrite (filter_pending id _ _ kept Hkept').
    simpl_state. rewrite Ho', Ho. change (negb (String.eqb "flex" "none")) with true.
    cbv iota. rewrite updatePresentationLayout_eq. cbv zeta. simpl_state.
    rewrite Ho', Ho, Hq', Hh', Hheight.
    change (String.eqb "flex" "none") with false. cbn [orb].
    rewrite (nonempty_length _ Hq).
    repeat split; reflexivity. }
  destruct Hfired as (Hleft & Hcols & Hfont).
  split; [exact Ht'|]. split.
  { unfold pendingLayoutUpdates. rewrite Ht', filter_app, Hnone. reflexivity. }
  split; [rewrite Hh'; exact Hheight|].
  split; [exact Hleft|]. split.
  { unfold pendingLayoutUpdates. rewrite Hleft. exact Hnone. }
  split; [exact Hcols | exact Hfont].
Qed.

Lemma resize_burst_updates_layout_once_witness :
  let st := Dom.openPresentationMode sample_generated in
  Dom.windowResizeListeners st = [O]
  /\ Forall (fun t => (Dom.timerId t < Dom.nextTimer st)%nat) (Dom.timers st)
  /\ pendingLayoutUpdates st = []
  /\ Dom.overlayDisplay st = "flex"%string
  /\ Dom.currentQuestions st <> []
  /\ List.length
       (pendingLayoutUpdates (resizeBurst [(10, 800%Q); (50, 400%Q); (300, 540%Q)] st))
     = 1%nat
  /\ pendingLayoutUpdates
       (Dom.timerFires 3 (resizeBurst [(10, 800%Q); (50, 400%Q); (300, 540%Q)] st))
     = []
  /\ Dom.presentationFontSizeVar
       (Dom.timerFires 3 (resizeBurst [(10, 800%Q); (50, 400%Q); (300, 540%Q)] st))
     = Some 30.
Proof.
  cbv zeta.
  assert (H1 : Dom.windowResizeListeners (Dom.openPresentationMode sample_generated) = [O])
    by reflexivity.
  assert (H2 : Forall (fun t => (Dom.timerId t
                                 < Dom.nextTimer (Dom.openPresentationMode sample_generated))%nat)
                 (Dom.timers (Dom.openPresentationMode sample_generated)))
    by constructor.
  assert (H0 : pendingLayoutUpdates (Dom.openPresentationMode sample_generated) = [])
    by reflexivity.
  assert (H3 : Dom.overlayDisplay (Dom.openPresentationMode sample_generated) = "flex"%string)
    by reflexivity.
  assert (H4 : Dom.currentQuestions (Dom.openPresentationMode sample_generated) <> [])
    by discriminate.
  split; [exact H1|]. split; [exact H2|]. split; [exact H0|].
  split; [exact H3|]. split; [exact H4|].
  destruct (resize_burst_updates_layout_once (Dom.openPresentationMode sample_generated) O
              (10, 800%Q) [(50, 400%Q); (300, 540%Q)] H1 H2
              ltac:(intros t Ht; rewrite H0 in Ht; destruct Ht) H3 H4)
    as (_ & Hone & _ & _ & Hnone & _ & Hfont).
  split; [rewrite Hone; reflexivity|]. split; [exact Hnone | exact Hfont].
Defined.

(* ================================================================== *)
(** ** The help tooltip *)

Lemma showHelpTooltip_eq (st : Dom.App) :
  Dom.helpTooltipExists st = true ->
  Dom.showHelpTooltip st
  = st {{ Dom.helpTooltipFadeOut := false;
          Dom.helpTooltipDisplay := "block"%string;
          Dom.documentClickListeners :=
            match Dom.helpTooltipClickOutsideHandler st with
            | Some h => Dom.removeListener h (Dom.documentClickListeners st)
            | None => Dom.documentClickListeners st
            end;
          Dom.helpTooltipClickOutsideHandler := Some (Dom.nextClosure st);
          Dom.nextClosure := S (Dom.nextClosure st);
          Dom.timers :=
            Dom.timers st
            ++ [Dom.mkTimer (Dom.nextTimer st) (Dom.clock st + 0) Dom.AddClickOutside];
          Dom.nextTimer := S (Dom.nextTimer st) }}.
Proof.
  intros He. unfold Dom.showHelpTooltip. rewrite He. cbn [negb]. cbv zeta.
  unfold Dom.setupClickOutsideHandler, Dom.setTimeout. cbv zeta. cbn [snd].
  rewrite removeClickOutsideHandler_eq. reflexivity.
Qed.

Lemma hideHelpTooltip_eq (st : Dom.App) :
  Dom.helpTooltipExists st = true ->
  Dom.hideHelpTooltip st
  = st {{ Dom.helpTooltipFadeOut := true;
          Dom.timers :=
            Dom.timers st
            ++ [Dom.mkTimer (Dom.nextTimer st) (Dom.clock st + 200) Dom.HideTooltip];
          Dom.nextTimer := S (Dom.nextTimer st);
          Dom.documentClickListeners :=
            match Dom.helpTooltipClickOutsideHandler st with
            | Some h => Dom.removeListener h (Dom.documentClickListeners st)
            | None => Dom.documentClickListeners st
            end;
          Dom.helpTooltipClickOutsideHandler := None }}.
Proof.
  intros He. unfold Dom.hideHelpTooltip. rewrite He. cbn [negb]. cbv zeta.
  unfold Dom.setTimeout. cbn [snd].
  rewrite removeClickOutsideHandler_eq. reflexivity.
Qed.

Lemma toggleHelpTooltip_hidden (st : Dom.App) :
  Dom.helpTooltipExists st = true -> Dom.helpTooltipDisplay st = "none"%string ->
  Dom.toggleHelpTooltip st = Dom.showHelpTooltip st.
Proof.
  intros He Hd. unfold Dom.toggleHelpTooltip. rewrite He, Hd. reflexivity.
Qed.

Lemma toggleHelpTooltip_shown (st : Dom.App) :
  Dom.helpTooltipExists st = true -> Dom.helpTooltipDisplay st = "block"%string ->
  Dom.toggleHelpTooltip st = Dom.hideHelpTooltip st.
Proof.
  intros He Hd. unfold Dom.toggleHelpTooltip. rewrite He, Hd. reflexivity.
Qed.

(** A click on the help button with one listener, and with two. *)
Lemma helpBtnClicked_once (st : Dom.App) :
  Dom.helpTooltipExists st = true -> Dom.helpTooltipDisplay st = "none"%string ->
  Dom.helpBtnClickListeners st = 1%nat ->
  Dom.helpTooltipDisplay (Dom.helpBtnClicked st) = "block"%string
  /\ Dom.helpTooltipFadeOut (Dom.helpBtnClicked st) = false.
Proof.
  intros He Hd Hn. unfold Dom.helpBtnClicked. rewrite Hn. cbn [Nat.iter nat_rect].
  rewrite (toggleHelpTooltip_hidden st He Hd), (showHelpTooltip_eq st He).
  split; reflexivity.
Qed.

Lemma helpBtnClicked_twice (st : Dom.App) :
  Dom.helpTooltipExists st = true -> Dom.helpTooltipDisplay st = "none"%string ->
  Dom.helpBtnClickListeners st = 2%nat ->
  Forall (fun t => (Dom.timerId t < Dom.nextTimer st)%nat) (Dom.timers st) ->
  let clicked := Dom.helpBtnClicked st in
  Dom.helpTooltipFadeOut clicked = true
  /\ Dom.timers clicked
     = (Dom.timers st
        ++ [Dom.mkTimer (Dom.nextTimer st) (Dom.clock st + 0) Dom.AddClickOutside])
       ++ [Dom.mkTimer (S (Dom.nextTimer st)) (Dom.clock st + 200) Dom.HideTooltip]
  /\ Dom.helpTooltipDisplay (Dom.timerFires (S (Dom.nextTimer st)) clicked) = "none"%string.
Proof.
  intros He Hd Hn Hfresh. cbv zeta.
  unfold Dom.helpBtnClicked. rewrite Hn. cbn [Nat.iter nat_rect].
  rewrite (toggleHelpTooltip_hidden st He Hd), (showHelpTooltip_eq st He).
  rewrite toggleHelpTooltip_shown by (simpl_state; first [exact He | reflexivity]).
  rewrite hideHelpTooltip_eq by (simpl_state; exact He).
  simpl_state. split; [reflexivity|]. split; [reflexivity|].
  unfold Dom.timerFires. simpl_state.
  rewrite find_pending.
  - reflexivity.
  - apply Forall_app. split.
    + eapply Forall_impl; [|exact Hfresh]. cbv beta. intros; lia.
    + repeat constructor.
Qed.

(** X30.  Every opening of the overlay adds a click listener to the
    help button and closing removes none.  After the first opening a
    click on the button shows the tooltip; after the second opening
    the same click runs the toggle twice, so the tooltip is shown and
    at once set fading, and 200 ms later it is hidden again. *)
Theorem help_button_listeners_accumulate (st : Dom.App) :
  Dom.helpBtnExists st = true -> Dom.helpTooltipExists st = true ->
  Dom.helpTooltipDisplay st = "none"%string ->
  Dom.helpBtnClickListeners st = O ->
  Dom.currentQuestions st <> [] ->
  Forall (fun t => (Dom.timerId t < Dom.nextTimer st)%nat) (Dom.timers st) ->
  let first := Dom.openPresentationMode st in
  let second := Dom.openPresentationMode (Dom.closePresentationMode first) in
  Dom.helpBtnClickListeners first = 1%nat
  /\ Dom.helpBtnClickListeners (Dom.closePresentationMode first) = 1%nat
  /\ Dom.helpBtnClickListeners second = 2%nat
  /\ Dom.helpTooltipDisplay (Dom.helpBtnClicked first) = "block"%string
  /\ Dom.helpTooltipFadeOut (Dom.helpBtnClicked first) = false
  /\ Dom.helpTooltipFadeOut (Dom.helpBtnClicked second) = true
  /\ Dom.helpTooltipDisplay
       (Dom.timerFires (S (Dom.nextTimer second)) (Dom.helpBtnClicked second))
     = "none"%string.
Proof.
  intros Hb He Hd Hn Hq Hfresh. cbv zeta.
  assert (Hfirst : Dom.helpTooltipExists (Dom.openPresentationMode st) = true
                   /\ Dom.helpTooltipDisplay (Dom.openPresentationMode st) = "none"%string
                   /\ Dom.helpBtnClickListeners (Dom.openPresentationMode st) = 1%nat).
  { rewrite openPresentationMode_eq by exact Hq. cbv zeta. simpl_state.
    rewrite Hb, He, Hn, Hd. repeat split; reflexivity. }
  destruct Hfirst as (He1 & Hd1 & Hn1).
  set (first := Dom.openPresentationMode st) in *.
  assert (Hq1 : Dom.currentQuestions (Dom.closePresentationMode first) <> []).
  { subst first. rewrite closePresentationMode_eq. cbv zeta.
    rewrite openPresentationMode_eq by exact Hq. cbv zeta. simpl_state. exact Hq. }
  assert (Hclosed : Dom.helpBtnClickListeners (Dom.closePresentationMode first) = 1%nat).
  { rewrite closePresentationMode_eq. cbv zeta. simpl_state. exact Hn1. }
  assert (Hsecond :
            Dom.helpTooltipExists
              (Dom.openPresentationMode (Dom.closePresentationMode first)) = true
            /\ Dom.helpTooltipDisplay
                 (Dom.openPresentationMode (Dom.closePresentationMode first)) = "none"%string
            /\ Dom.helpBtnClickListeners
                 (Dom.openPresentationMode (Dom.closePresentationMode first)) = 2%nat
            /\ Forall (fun t => (Dom.timerId t
                                 < Dom.nextTimer
                                     (Dom.openPresentationMode
                                        (Dom.closePresentationMode first)))%nat)
                 (Dom.timers (Dom.openPresentationMode (Dom.closePresentationMode first)))).
  { rewrite openPresentationMode_eq by exact Hq1. cbv zeta.
    rewrite closePresentationMode_eq. cbv zeta. simpl_state.
    subst first. rewrite openPresentationMode_eq by exact Hq. cbv zeta. simpl_state.
    rewrite Hb, He, Hn. cbn [andb].
    split; [reflexivity|]. split; [reflexivity|]. split; [reflexivity|].
    match goal with
    | |- context [match ?x with Some _ => _ | None => _ end] => destruct x
    end; [|exact Hfresh].
    apply Forall_forall. intros t Ht. apply filter_In in Ht.
    rewrite Forall_forall in Hfresh. apply Hfresh, Ht. }
  destruct Hsecond as (He2 & Hd2 & Hn2 & Hfresh2).
  set (second := Dom.openPresentationMode (Dom.closePresentationMode first)) in *.
  destruct (helpBtnClicked_once first He1 Hd1 Hn1) as [Hshown Hsteady].
  destruct (helpBtnClicked_twice second He2 Hd2 Hn2 Hfresh2) as (Hfade & _ & Hgone).
  repeat split; assumption.
Qed.

Lemma help_button_listeners_accumulate_witness :
  Dom.helpBtnExists sample_generated = true
  /\ Dom.helpTooltipExists sample_generated = true
  /\ Dom.helpTooltipDisplay sample_generated = "none"%string
  /\ Dom.helpBtnClickListeners sample_generated = O
  /\ Dom.currentQuestions sample_generated <> []
  /\ Forall (fun t => (Dom.timerId t < Dom.nextTimer sample_generated)%nat)
       (Dom.timers sample_generated)
  /\ Dom.helpBtnClickListeners
       (Dom.openPresentationMode
          (Dom.closePresentationMode (Dom.openPresentationMode sample_generated)))
     = 2%nat.
Proof.
  assert (H5 : Dom.currentQuestions sample_generated <> []) by discriminate.
  assert (H6 : Forall (fun t => (Dom.timerId t < Dom.nextTimer sample_generated)%nat)
                 (Dom.timers sample_generated)) by constructor.
  split; [reflexivity|]. split; [reflexivity|]. split; [reflexivity|].
  split; [reflexivity|]. split; [exact H5|]. split; [exact H6|].
  exact (proj1 (proj2 (proj2
           (help_button_listeners_accumulate sample_generated eq_refl eq_refl eq_refl
              eq_refl H5 H6)))).
Defined.
